(** * pack_code_to_xml: a shallow embedding and its verified properties

  The program walks a source tree, keeps the files selected by extension
  and by the exclusion rules, and writes their contents into one XML
  document.  This development embeds [src/pack_code_to_xml.py] function by
  function and proves what its specification says about it.

  Conventions of the embedding.
  - A Python [str] is a Rocq [string] holding the UTF-8 encoding of the
    text, so a character of the ASCII range is one [ascii] and string
    comparison by code point is comparison of the encodings.
  - The file system and the clock are explicit arguments.
  - A Python exception is a [None] (or an error constructor) of the
    result.
  - The library functions the program calls (pathlib, ElementTree,
    the expat parser, minidom) are modelled as CPython 3.11 has them,
    for the inputs the program gives them. *)

From Stdlib Require Import Bool Arith NArith Lia List Ascii String.
From Stdlib Require Import Permutation Sorted DecimalString DecimalNat.
Import ListNotations.

Set Warnings "-register-all".

Open Scope list_scope.
Open Scope string_scope.

(** ** Python string operations *)

Module PyStr.

(** [c.lower()] on one character of the ASCII range; the bytes of a
    multi-byte character are left as they are. *)
Definition lower_ascii (c : ascii) : ascii :=
  let n := nat_of_ascii c in
  if ((65 <=? n) && (n <=? 90))%nat then ascii_of_nat (n + 32) else c.

(** [s.lower()] *)
Fixpoint lower (s : string) : string :=
  match s with
  | EmptyString => EmptyString
  | String c s' => String (lower_ascii c) (lower s')
  end.

(** [s.startswith(p)] *)
Definition startswith (s p : string) : bool := String.prefix p s.

(** [s.endswith(suf)]: some tail of [s] is [suf]. *)
Fixpoint endswith (s suf : string) : bool :=
  (s =? suf) ||
  match s with
  | EmptyString => false
  | String _ s' => endswith s' suf
  end.

(** [pat in s]: [pat] is a prefix of some tail of [s]. *)
Fixpoint contains (pat s : string) : bool :=
  String.prefix pat s ||
  match s with
  | EmptyString => false
  | String _ s' => contains pat s'
  end.

(** [s.rfind(c)] for a one-character needle; [None] stands for [-1]. *)
Fixpoint rfind (c : ascii) (s : string) : option nat :=
  match s with
  | EmptyString => None
  | String a s' =>
      match rfind c s' with
      | Some i => Some (S i)
      | None => if Ascii.eqb a c then Some 0 else None
      end
  end.

(** [s[i:]] *)
Fixpoint drop (i : nat) (s : string) : string :=
  match i, s with
  | O, _ => s
  | S _, EmptyString => EmptyString
  | S i', String _ s' => drop i' s'
  end.

(** [s.split(sep)] for a one-character separator. *)
Fixpoint split (sep : ascii) (s : string) : list string :=
  match s with
  | EmptyString => [EmptyString]
  | String c s' =>
      if Ascii.eqb c sep then EmptyString :: split sep s'
      else match split sep s' with
           | [] => [String c EmptyString]
           | w :: ws => String c w :: ws
           end
  end.

(** [sep.join(ws)] *)
Definition join (sep : string) (ws : list string) : string :=
  String.concat sep ws.

(** [str(n)] for a natural number. *)
Definition of_nat (n : nat) : string :=
  NilEmpty.string_of_uint (Nat.to_uint n).

(** [len(s)]: the number of characters, that is the bytes of the
    encoding that are not continuation bytes (10xxxxxx). *)
Definition is_continuation (c : ascii) : bool :=
  let n := nat_of_ascii c in ((128 <=? n) && (n <=? 191))%nat.

Fixpoint len (s : string) : nat :=
  match s with
  | EmptyString => 0
  | String c s' => (if is_continuation c then 0 else 1) + len s'
  end.

(** [s.replace(c, r)] for a one-character needle. *)
Fixpoint replace (c : ascii) (r : string) (s : string) : string :=
  match s with
  | EmptyString => EmptyString
  | String a s' =>
      (if Ascii.eqb a c then r else String a EmptyString) ++ replace c r s'
  end.

End PyStr.

(** ** pathlib on a POSIX system *)

Module Pathlib.

(** A pure path: its anchor ([""], ["/"] or ["//"]) and its segments. *)
Record Path : Type := mkPath { anchor : string; segs : list string }.

(** [Path(s)]: empty segments and ["."] segments are dropped. *)
Definition keep_segment (w : string) : bool :=
  negb (w =? "") && negb (w =? ".").

Definition anchor_of (s : string) : string :=
  if String.prefix "///" s then "/"
  else if String.prefix "//" s then "//"
  else if String.prefix "/" s then "/"
  else "".

Definition of_str (s : string) : Path :=
  mkPath (anchor_of s) (filter keep_segment (PyStr.split "/" s)).

(** [p.parts] *)
Definition parts (p : Path) : list string :=
  if anchor p =? "" then segs p else anchor p :: segs p.

(** [p.name]: the last segment, [""] when there is none. *)
Definition name (p : Path) : string := last (segs p) "".

(** [str(p)] *)
Definition to_str (p : Path) : string :=
  match anchor p, segs p with
  | "", [] => "."
  | a, ws => a ++ PyStr.join "/" ws
  end.

(** [p.suffix] *)
Definition suffix (p : Path) : string :=
  let nm := name p in
  match PyStr.rfind "." nm with
  | Some i =>
      if ((0 <? i) && (i <? String.length nm - 1))%nat
      then PyStr.drop i nm else ""
  | None => ""
  end.

Fixpoint strip_prefix (pre ws : list string) : option (list string) :=
  match pre, ws with
  | [], _ => Some ws
  | _ :: _, [] => None
  | a :: pre', b :: ws' => if a =? b then strip_prefix pre' ws' else None
  end.

(** [p.relative_to(other)]; [None] is the [ValueError] raised when
    [other] is not a leading part of [p]. *)
Definition relative_to (p other : Path) : option Path :=
  if anchor p =? anchor other then
    match strip_prefix (segs other) (segs p) with
    | Some rest => Some (mkPath "" rest)
    | None => None
    end
  else None.

(** Comparison of paths is comparison of their parts, a list of
    strings: the first differing part decides, a proper prefix is
    smaller. *)
Fixpoint parts_compare (u v : list string) : comparison :=
  match u, v with
  | [], [] => Eq
  | [], _ :: _ => Lt
  | _ :: _, [] => Gt
  | a :: u', b :: v' =>
      match String.compare a b with
      | Eq => parts_compare u' v'
      | c => c
      end
  end.

Definition compare (p q : Path) : comparison :=
  parts_compare (parts p) (parts q).

(** [p < q] *)
Definition ltb (p q : Path) : bool :=
  match compare p q with Lt => true | _ => false end.

(** [p <= q] *)
Definition leb (p q : Path) : bool :=
  match compare p q with Gt => false | _ => true end.

Definition eq_dec (p q : Path) : {p = q} + {p <> q}.
Proof.
  decide equality; [apply (list_eq_dec string_dec) | apply string_dec].
Defined.

Definition eqb (p q : Path) : bool :=
  if eq_dec p q then true else false.

End Pathlib.

Import Pathlib.

(** [p <= q] on paths, as a proposition, and the order of the path
    strings the specification speaks of. *)
Definition path_le (p q : Path) : Prop := Pathlib.leb p q = true.

Definition str_le (p q : Path) : Prop :=
  String.leb (to_str p) (to_str q) = true.

(** ** The rule sets of the program *)

Definition TEST_FILE_SUFFIXES : list string :=
  [ ".test.ts"; ".spec.ts"; ".test.tsx"; ".spec.tsx";
    ".test.js"; ".spec.js"; ".test.jsx"; ".spec.jsx";
    ".mock.ts"; ".mock.tsx"; ".mock.js"; ".mock.jsx" ].

Definition TEST_DIR_NAMES : list string :=
  [ "__tests__"; "tests"; "__mocks__" ].

Definition CONFIG_FILE_NAMES : list string :=
  [ "package.json"; "package-lock.json"; "tsconfig.json";
    "tsconfig.base.json"; "tsconfig.build.json"; "jest.config.js";
    "jest.config.ts"; "eslint.config.js"; "eslint.config.ts";
    "esbuild.config.mjs"; "codebase.xml"; "versions.json" ].

Definition CONFIG_SUFFIXES : list string :=
  [ ".config.js"; ".config.ts"; ".config.mjs"; ".config.cjs";
    ".config.json" ].

Definition DEFAULT_IGNORE_PATTERNS : list string :=
  [ "__pycache__"; ".pyc"; "dist"; "build"; ".obsidian"; ".claude";
    ".vscode" ].

(** ** Matcher *)

(** [x in xs] for a tuple or a set of strings. *)
Definition mem (x : string) (xs : list string) : bool :=
  existsb (String.eqb x) xs.


Definition should_ignore (file_path : Path) (ignore_patterns : list string)
  : bool :=
  let path_str := to_str file_path in
  existsb (fun pattern => PyStr.contains pattern path_str) ignore_patterns.

Definition is_test_file (file_path : Path) : bool :=
  let name_lower := PyStr.lower (name file_path) in
  if existsb (fun suffix => PyStr.endswith name_lower suffix)
       TEST_FILE_SUFFIXES
  then true
  else existsb (fun part => mem (PyStr.lower part) TEST_DIR_NAMES)
         (parts file_path).

Definition is_config_file (file_path : Path) : bool :=
  let name_lower := PyStr.lower (name file_path) in
  if mem name_lower CONFIG_FILE_NAMES then true
  else if PyStr.startswith name_lower "tsconfig"
          && PyStr.endswith name_lower ".json" then true
  else existsb (fun suffix => PyStr.endswith name_lower suffix)
         CONFIG_SUFFIXES.

(** ** The environment: file system and errors *)

Inductive Error : Type :=
| OSError              (* the file cannot be opened or read *)
| UnicodeDecodeError   (* its bytes are not UTF-8 *)
| UnicodeEncodeError   (* a string cannot be encoded as UTF-8 *)
| ValueError           (* [relative_to]: not below the root *)
| ExpatError.          (* the parser refuses the serialized tree *)

(** What the program asks of the file system.  [rglob root pattern] is
    the sequence [Path(root).rglob(pattern)] yields, in the order the
    operating system lists the entries; [read_bytes] is the content of
    a file, [None] when it cannot be opened or read; [writable] tells
    whether a file can be created and written at a path. *)
Record FileSystem : Type := mkFS {
  rglob : Path -> string -> list Path;
  is_file : Path -> bool;
  read_bytes : Path -> option string;
  writable : Path -> bool
}.

(** A file system given by a listing of its regular files.  Its
    [rglob] is for the patterns the program builds from an extension
    without wildcard characters: ["*"] followed by the extension
    selects the files whose name ends with the extension. *)
Definition below (root p : Path) : bool :=
  match relative_to p root with
  | Some rel => match segs rel with [] => false | _ :: _ => true end
  | None => false
  end.

Definition fnmatch (nm pattern : string) : bool :=
  match pattern with
  | String "*" ext => PyStr.endswith nm ext
  | _ => nm =? pattern
  end.

Fixpoint lookup (p : Path) (files : list (Path * option string))
  : option (option string) :=
  match files with
  | [] => None
  | (q, content) :: rest =>
      if Pathlib.eqb p q then Some content else lookup p rest
  end.

Definition fs_of_listing (files : list (Path * option string))
  : FileSystem :=
  {| rglob root pattern :=
       filter (fun p => below root p && fnmatch (name p) pattern)
         (map fst files);
     is_file p := match lookup p files with Some _ => true | None => false end;
     read_bytes p := match lookup p files with Some c => c | None => None end;
     writable _ := true |}.

(** The strict UTF-8 decoder: [need] continuation bytes are still
    expected and the next one lies between [lo] and [hi] (the first
    continuation byte of some lead bytes has a narrower range, which
    excludes overlong forms, surrogates and values above U+10FFFF). *)
Fixpoint utf8_scan (need lo hi : nat) (s : string) : bool :=
  match s with
  | EmptyString => (need =? 0)%nat
  | String c s' =>
      let b := nat_of_ascii c in
      match need with
      | O =>
          if (b <=? 127)%nat then utf8_scan 0 128 191 s'
          else if ((194 <=? b) && (b <=? 223))%nat then utf8_scan 1 128 191 s'
          else if (b =? 224)%nat then utf8_scan 2 160 191 s'
          else if (b =? 237)%nat then utf8_scan 2 128 159 s'
          else if ((225 <=? b) && (b <=? 239))%nat then utf8_scan 2 128 191 s'
          else if (b =? 240)%nat then utf8_scan 3 144 191 s'
          else if ((241 <=? b) && (b <=? 243))%nat then utf8_scan 3 128 191 s'
          else if (b =? 244)%nat then utf8_scan 3 128 143 s'
          else false
      | S k =>
          if ((lo <=? b) && (b <=? hi))%nat then utf8_scan k 128 191 s'
          else false
      end
  end.

Definition utf8_valid (s : string) : bool := utf8_scan 0 128 191 s.

Definition CR : ascii := "013"%char.
Definition LF : ascii := "010"%char.
Definition TAB : ascii := "009"%char.
Definition QUOT : ascii := "034"%char.

(** Text mode with universal newlines (the default [newline=None] of
    [open]): a CR LF pair and a lone CR are read as LF. *)
Fixpoint universal_newlines (s : string) : string :=
  match s with
  | EmptyString => EmptyString
  | String c s' =>
      if Ascii.eqb c CR then
        match s' with
        | String d _ =>
            if Ascii.eqb d LF then universal_newlines s'
            else String LF (universal_newlines s')
        | EmptyString => String LF EmptyString
        end
      else String c (universal_newlines s')
  end.

(** [open(file_path, 'r', encoding='utf-8')] followed by [f.read()]. *)
Definition read_text (fs : FileSystem) (file_path : Path) : Error + string :=
  match read_bytes fs file_path with
  | None => inl OSError
  | Some bytes =>
      if utf8_valid bytes then inr (universal_newlines bytes)
      else inl UnicodeDecodeError
  end.

(** ** Collector *)

(** [sorted(files)]: a stable sort that compares with [<]; here by
    insertion, each path going before the first one that is not
    smaller than it. *)
Fixpoint insert (x : Path) (l : list Path) : list Path :=
  match l with
  | [] => [x]
  | y :: l' => if Pathlib.ltb y x then y :: insert x l' else x :: y :: l'
  end.

Fixpoint sorted (l : list Path) : list Path :=
  match l with
  | [] => []
  | x :: l' => insert x (sorted l')
  end.

(** The body of the inner loop: is [file_path] appended to [files]? *)
Definition selected (fs : FileSystem) (ignore_patterns : list string)
  (include_tests include_config : bool) (file_path : Path) : bool :=
  if is_file fs file_path && negb (should_ignore file_path ignore_patterns)
  then
    if negb include_tests && is_test_file file_path then false
    else if negb include_config && is_config_file file_path then false
    else true
  else false.

(** The list [files] when both loops are over, before it is sorted. *)
Definition accumulate (fs : FileSystem) (root_dir : string)
  (extensions ignore_patterns : list string)
  (include_tests include_config : bool) : list Path :=
  let root_path := of_str root_dir in
  flat_map
    (fun ext =>
       filter (selected fs ignore_patterns include_tests include_config)
         (rglob fs root_path ("*" ++ ext)))
    extensions.

Definition collect_files (fs : FileSystem) (root_dir : string)
  (extensions ignore_patterns : list string)
  (include_tests include_config : bool) : list Path :=
  sorted
    (accumulate fs root_dir extensions ignore_patterns include_tests
       include_config).

(** ** xml.etree.ElementTree *)

Module ET.

(** An element: tag, attributes in the order they were set, text and
    sub-elements.  The program never sets a tail. *)
Inductive Element : Type :=
| Elem (tag : string) (attrib : list (string * string))
    (text : option string) (children : list Element).

Definition tag_of (e : Element) : string :=
  match e with Elem t _ _ _ => t end.

Definition attrib_of (e : Element) : list (string * string) :=
  match e with Elem _ a _ _ => a end.

Definition text_of (e : Element) : option string :=
  match e with Elem _ _ t _ => t end.

Definition children_of (e : Element) : list Element :=
  match e with Elem _ _ _ c => c end.

(** [elem.get(key)] *)
Fixpoint get (attrib : list (string * string)) (key : string)
  : option string :=
  match attrib with
  | [] => None
  | (k, v) :: rest => if k =? key then Some v else get rest key
  end.

(** [_escape_cdata]: the three replacements, in the order of the
    library. *)
Definition _escape_cdata (text : string) : string :=
  PyStr.replace ">" "&gt;"
    (PyStr.replace "<" "&lt;" (PyStr.replace "&" "&amp;" text)).

(** [_escape_attrib] *)
Definition _escape_attrib (text : string) : string :=
  PyStr.replace TAB "&#09;"
    (PyStr.replace LF "&#10;"
       (PyStr.replace CR "&#13;"
          (PyStr.replace QUOT "&quot;"
             (PyStr.replace ">" "&gt;"
                (PyStr.replace "<" "&lt;"
                   (PyStr.replace "&" "&amp;" text)))))).

Definition quoted (s : string) : string :=
  String QUOT (s ++ String QUOT EmptyString).

Definition serialize_attrib (kv : string * string) : string :=
  " " ++ fst kv ++ "=" ++ quoted (_escape_attrib (snd kv)).

(** [_serialize_xml] with [short_empty_elements=True]. *)
Fixpoint serialize_xml (e : Element) : string :=
  match e with
  | Elem tag attrib text children =>
      let body :=
        match text with Some t => _escape_cdata t | None => EmptyString end
        ++ String.concat EmptyString (map serialize_xml children) in
      "<" ++ tag ++ String.concat EmptyString (map serialize_attrib attrib)
      ++ match text, children with
         | None, [] | Some EmptyString, [] => " />"
         | _, _ => ">" ++ body ++ "</" ++ tag ++ ">"
         end
  end.

(** Every string of the tree, as the encoder of the output stream
    meets them. *)
Fixpoint strings_of (e : Element) : list string :=
  match e with
  | Elem tag attrib text children =>
      (tag :: flat_map (fun kv => [fst kv; snd kv]) attrib
       ++ match text with Some t => [t] | None => [] end
       ++ flat_map strings_of children)%list
  end.

(** [ET.tostring(elem, encoding='utf-8')]: the declaration and the
    serialized tree; a string that is not encodable raises. *)
Definition tostring (e : Element) : Error + string :=
  if forallb utf8_valid (strings_of e)
  then inr ("<?xml version='1.0' encoding='utf-8'?>" ++ String LF
            (serialize_xml e))
  else inl UnicodeEncodeError.

End ET.

(** ** The XML parser (expat), on character data and attribute values *)

Module Expat.

(** A byte that XML 1.0 allows in a document: of the control
    characters only tab, LF and CR. *)
Definition legal_byte (c : ascii) : bool :=
  let n := nat_of_ascii c in
  ((32 <=? n) || (n =? 9) || (n =? 10) || (n =? 13))%nat.

(** A code point that XML 1.0 allows (production Char). *)
Definition legal_char (n : N) : bool :=
  ((n =? 9) || (n =? 10) || (n =? 13)
   || ((32 <=? n) && (n <=? 55295))
   || ((57344 <=? n) && (n <=? 65533))
   || ((65536 <=? n) && (n <=? 1114111)))%N.

Definition byte (n : N) : ascii := ascii_of_N n.

Definition utf8_encode (n : N) : string :=
  (if n <? 128 then String (byte n) EmptyString
   else if n <? 2048 then
     String (byte (192 + n / 64)) (String (byte (128 + n mod 64)) EmptyString)
   else if n <? 65536 then
     String (byte (224 + n / 4096))
       (String (byte (128 + (n / 64) mod 64))
          (String (byte (128 + n mod 64)) EmptyString))
   else
     String (byte (240 + n / 262144))
       (String (byte (128 + (n / 4096) mod 64))
          (String (byte (128 + (n / 64) mod 64))
             (String (byte (128 + n mod 64)) EmptyString))))%N.

Definition digit_value (base : N) (c : ascii) : option N :=
  let n := N_of_ascii c in
  (if (48 <=? n) && (n <=? 57) then Some (n - 48)
   else if (base =? 16) && (97 <=? n) && (n <=? 102) then Some (n - 87)
   else if (base =? 16) && (65 <=? n) && (n <=? 70) then Some (n - 55)
   else None)%N.

Fixpoint number (base acc : N) (s : string) : option N :=
  match s with
  | EmptyString => Some acc
  | String c s' =>
      match digit_value base c with
      | Some d => number base (acc * base + d)%N s'
      | None => None
      end
  end.

Definition char_reference (base : N) (digits : string) : option string :=
  match digits with
  | EmptyString => None
  | _ =>
      match number base 0 digits with
      | Some n => if legal_char n then Some (utf8_encode n) else None
      | None => None
      end
  end.

(** The replacement of the reference [&name;]: one of the five
    predefined entities or a character reference. *)
Definition reference (nm : string) : option string :=
  match nm with
  | "amp" => Some "&"
  | "lt" => Some "<"
  | "gt" => Some ">"
  | "quot" => Some (String QUOT EmptyString)
  | "apos" => Some "'"
  | String "#" (String "x" digits) => char_reference 16 digits
  | String "#" digits => char_reference 10 digits
  | _ => None
  end.

Inductive Context : Type := Content | AttValue.

(** Where the scanner stands: in plain text after so many closing
    brackets (at most two are counted), after a CR, inside a
    reference, or inside the encoding of U+FFFx. *)
Inductive State : Type :=
| Plain (brackets : nat)
| AfterCR
| InRef (nm : string)
| AfterEF
| AfterEFBF.

Definition emit (c : ascii) (k : option string) : option string :=
  option_map (String c) k.

Definition emits (v : string) (k : option string) : option string :=
  option_map (String.append v) k.

(** An ordinary character [c] of the text, met after [k] closing
    brackets; [continue] scans what follows from a state. *)
Definition plain (ctx : Context) (continue : State -> option string)
  (c : ascii) (k : nat) : option string :=
  let white := match ctx with Content => LF | AttValue => " "%char end in
  if Ascii.eqb c CR then emit white (continue AfterCR)
  else if Ascii.eqb c "&" then continue (InRef EmptyString)
  else if Ascii.eqb c "<" then None
  else if Ascii.eqb c "239" then emit c (continue AfterEF)
  else if negb (legal_byte c) then None
  else
    match ctx with
    | Content =>
        if Ascii.eqb c "]" then emit c (continue (Plain (min 2 (S k))))
        else if Ascii.eqb c ">" && (k =? 2)%nat then None
        else emit c (continue (Plain 0))
    | AttValue =>
        if Ascii.eqb c QUOT then None
        else if Ascii.eqb c LF || Ascii.eqb c TAB
             then emit white (continue (Plain 0))
        else emit c (continue (Plain 0))
    end.

(** The text the parser reports for a run of character data
    ([Content]) or for the inside of a quoted attribute value
    ([AttValue]); [None] when the document is not well formed.
    - line ends are normalized: CR LF and CR become LF, and in an
      attribute value tab and LF become a space;
    - references are replaced, and what they stand for is taken as
      it is;
    - a [<], a quote inside an attribute value, the sequence of two
      brackets and [>] inside content, a forbidden control character
      and the encodings of U+FFFE and U+FFFF are refused. *)
Fixpoint scan (ctx : Context) (st : State) (s : string) : option string :=
  match s with
  | EmptyString =>
      match st with
      | InRef _ => None
      | _ => Some EmptyString
      end
  | String c s' =>
      let continue := fun st' => scan ctx st' s' in
      match st with
      | Plain k => plain ctx continue c k
      | AfterCR =>
          if Ascii.eqb c LF then continue (Plain 0)
          else plain ctx continue c 0
      | InRef nm =>
          if Ascii.eqb c ";" then
            match reference nm with
            | Some v => emits v (continue (Plain 0))
            | None => None
            end
          else continue (InRef (nm ++ String c EmptyString))
      | AfterEF =>
          if Ascii.eqb c "191" then emit c (continue AfterEFBF)
          else plain ctx continue c 0
      | AfterEFBF =>
          if Ascii.eqb c "190" || Ascii.eqb c "191" then None
          else plain ctx continue c 0
      end
  end.

Definition chardata (s : string) : option string := scan Content (Plain 0) s.

Definition attvalue (s : string) : option string := scan AttValue (Plain 0) s.

(** A text made of characters that XML allows: no control character
    but tab, LF and CR, and neither U+FFFE nor U+FFFF. *)
Definition U_FFFE : string := String "239" (String "191" (String "190" "")).
Definition U_FFFF : string := String "239" (String "191" (String "191" "")).

Fixpoint xml_text (s : string) : bool :=
  match s with
  | EmptyString => true
  | String c s' =>
      legal_byte c && negb (String.prefix U_FFFE s)
      && negb (String.prefix U_FFFF s) && xml_text s'
  end.

End Expat.

(** ** xml.dom.minidom *)

Module Minidom.

(** A node of the document: a text node or an element with its
    attributes and child nodes. *)
Inductive Node : Type :=
| Text (data : string)
| Element (tagName : string) (attributes : list (string * string))
    (childNodes : list Node).

Fixpoint all_some {A : Type} (l : list (option A)) : option (list A) :=
  match l with
  | [] => Some []
  | Some x :: rest => option_map (cons x) (all_some rest)
  | None :: _ => None
  end.

(** A name the parser accepts for an element or an attribute: a
    letter, an underscore, a colon or a byte of a multi-byte character
    first, then also digits, hyphens and dots. *)
Definition name_start (c : ascii) : bool :=
  let n := nat_of_ascii c in
  (((65 <=? n) && (n <=? 90)) || ((97 <=? n) && (n <=? 122))
   || (n =? 95) || (n =? 58) || (128 <=? n))%nat.

Definition name_char (c : ascii) : bool :=
  let n := nat_of_ascii c in
  (name_start c || ((48 <=? n) && (n <=? 57)) || (n =? 45) || (n =? 46))%nat.

Definition xml_name (s : string) : bool :=
  match s with
  | EmptyString => false
  | String c s' => name_start c && forallb name_char (list_ascii_of_string s')
  end.

(** An attribute as the parser reads it back from what the
    serializer wrote. *)
Definition parse_attrib (kv : string * string) : option (string * string) :=
  if xml_name (fst kv)
  then option_map (pair (fst kv)) (Expat.attvalue (ET._escape_attrib (snd kv)))
  else None.

(** The text of an element as the parser reads it back: no node for
    an empty text, one text node otherwise. *)
Definition parse_text (text : option string) : option (list Node) :=
  match text with
  | None => Some []
  | Some t =>
      match Expat.chardata (ET._escape_cdata t) with
      | Some EmptyString => Some []
      | Some d => Some [Text d]
      | None => None
      end
  end.

(** The document of a tree: the same elements in the same order, each
    attribute value and each text going through the escaping of the
    serializer and the reading of the parser; [None] when one of them
    is refused.  It is what [parseString] builds from the text of the
    tree (theorem [parseString_tostring] below). *)
Fixpoint build (e : ET.Element) : option Node :=
  match e with
  | ET.Elem tag attrib text children =>
      if xml_name tag then
        match all_some (map parse_attrib attrib), parse_text text,
              all_some (map build children) with
        | Some attrs, Some t, Some kids => Some (Element tag attrs (t ++ kids)%list)
        | _, _, _ => None
        end
      else None
  end.

(** [_write_data]: the four replacements, in the order of the
    library. *)
Definition _write_data (data : string) : string :=
  PyStr.replace ">" "&gt;"
    (PyStr.replace QUOT "&quot;"
       (PyStr.replace "<" "&lt;" (PyStr.replace "&" "&amp;" data))).

Definition write_attribute (kv : string * string) : string :=
  " " ++ fst kv ++ "=" ++ ET.quoted (_write_data (snd kv)).

(** [node.writexml(writer, indent, addindent, newl)]: what is written. *)
Fixpoint writexml (indent addindent newl : string) (node : Node) : string :=
  match node with
  | Text data => _write_data (indent ++ data ++ newl)
  | Element tagName attributes childNodes =>
      indent ++ "<" ++ tagName
      ++ String.concat EmptyString (map write_attribute attributes)
      ++ match childNodes with
         | [] => "/>" ++ newl
         | [Text data] =>
             ">" ++ _write_data data ++ "</" ++ tagName ++ ">" ++ newl
         | _ =>
             ">" ++ newl
             ++ String.concat EmptyString
                  (map (writexml (indent ++ addindent) addindent newl)
                     childNodes)
             ++ indent ++ "</" ++ tagName ++ ">" ++ newl
         end
  end.

(** [document.toprettyxml(indent, encoding='utf-8')] with the default
    line end. *)
Definition toprettyxml (indent : string) (root : Node) : string :=
  "<?xml version=" ++ ET.quoted "1.0" ++ " encoding=" ++ ET.quoted "utf-8"
  ++ "?>" ++ String LF (writexml EmptyString indent (String LF EmptyString) root).

End Minidom.

(** ** Parsing a document *)

Module Parser.

Import Minidom.

Definition is_space (c : ascii) : bool :=
  Ascii.eqb c " " || Ascii.eqb c TAB || Ascii.eqb c LF || Ascii.eqb c CR.

Fixpoint skip_spaces (s : string) : string :=
  match s with
  | String c s' => if is_space c then skip_spaces s' else s
  | EmptyString => s
  end.

(** The longest prefix of characters that satisfy [f], and the rest. *)
Fixpoint take_while (f : ascii -> bool) (s : string) : string * string :=
  match s with
  | String c s' =>
      if f c then let (w, rest) := take_while f s' in (String c w, rest)
      else (EmptyString, s)
  | EmptyString => (EmptyString, EmptyString)
  end.

(** The text up to the first [stop], and the rest from it on. *)
Definition take_until (stop : ascii) (s : string) : string * string :=
  take_while (fun c => negb (Ascii.eqb c stop)) s.

(** The attributes of a start tag: each one after white space, its
    name, the equals sign and its value in double quotes.  The text
    that follows the last attribute is returned as it is. *)
Fixpoint parse_attributes (fuel : nat) (s : string)
  : option (list (string * string) * string) :=
  match fuel with
  | O => None
  | S fuel' =>
      match s with
      | String c _ =>
          if is_space c then
            match skip_spaces s with
            | String d _ as s1 =>
                if name_start d then
                  let (nm, s2) := take_while name_char s1 in
                  match skip_spaces s2 with
                  | String "=" s3 =>
                      match skip_spaces s3 with
                      | String q s4 =>
                          if Ascii.eqb q QUOT then
                            let (raw, s5) := take_until QUOT s4 in
                            match s5, Expat.attvalue raw with
                            | String _ s6, Some v =>
                                match parse_attributes fuel' s6 with
                                | Some (attrs, rest) =>
                                    Some ((nm, v) :: attrs, rest)
                                | None => None
                                end
                            | _, _ => None
                            end
                          else None
                      | EmptyString => None
                      end
                  | _ => None
                  end
                else Some ([], s)
            | EmptyString => Some ([], s)
            end
          else Some ([], s)
      | EmptyString => Some ([], s)
      end
  end.

(** The text node of a run of character data. *)
Definition text_nodes (data : string) : list Node :=
  match data with
  | EmptyString => []
  | _ => [Text data]
  end.

(** [parse_element fuel s] reads one element from the text [s] that
    follows its opening [<]; [parse_content fuel s] reads the nodes of
    an element up to its end tag. *)
Fixpoint parse_element (fuel : nat) (s : string) : option (Node * string) :=
  match fuel with
  | O => None
  | S fuel' =>
      let (tag, s1) := take_while name_char s in
      if xml_name tag then
        match parse_attributes (S (String.length s1)) s1 with
        | Some (attrs, s2) =>
            match skip_spaces s2 with
            | String "/" (String ">" rest) => Some (Element tag attrs [], rest)
            | String ">" s3 =>
                match parse_content fuel' s3 with
                | Some (nodes, String "<" (String "/" s4)) =>
                    let (closing, s5) := take_while name_char s4 in
                    if closing =? tag then
                      match skip_spaces s5 with
                      | String ">" rest => Some (Element tag attrs nodes, rest)
                      | _ => None
                      end
                    else None
                | _ => None
                end
            | _ => None
            end
        | None => None
        end
      else None
  end

with parse_content (fuel : nat) (s : string) : option (list Node * string) :=
  match fuel with
  | O => None
  | S fuel' =>
      match s with
      | EmptyString => None
      | String c s1 =>
          if Ascii.eqb c "<" then
            match s1 with
            | EmptyString => None
            | String d _ =>
                if Ascii.eqb d "/" then Some ([], s)
                else
                  match parse_element fuel' s1 with
                  | Some (node, rest) =>
                      match parse_content fuel' rest with
                      | Some (nodes, rest') => Some (node :: nodes, rest')
                      | None => None
                      end
                  | None => None
                  end
            end
          else
            let (raw, rest) := take_until "<" s in
            match Expat.chardata raw with
            | Some data =>
                match parse_content fuel' rest with
                | Some (nodes, rest') =>
                    Some ((text_nodes data ++ nodes)%list, rest')
                | None => None
                end
            | None => None
            end
      end
  end.

(** The text after the XML declaration, when there is one. *)
Fixpoint after_declaration_end (s : string) : option string :=
  match s with
  | EmptyString => None
  | String "?" (String ">" rest) => Some rest
  | String _ s' => after_declaration_end s'
  end.

Definition skip_declaration (s : string) : option string :=
  if String.prefix "<?xml" s then after_declaration_end s else Some s.

(** [minidom.parseString(s)] for the documents the serializers write:
    a declaration, then one element, made of elements with attributes
    in double quotes and of character data.  The text is the output
    of an encoder, so it is well-formed UTF-8. *)
Definition parseString (s : string) : option Node :=
  match skip_declaration s with
  | Some s1 =>
      match skip_spaces s1 with
      | String "<" s2 =>
          match parse_element (String.length s2) s2 with
          | Some (root, rest) =>
              match skip_spaces rest with
              | EmptyString => Some root
              | _ => None
              end
          | None => None
          end
      | _ => None
      end
  | None => None
  end.

End Parser.

Import ET.

(** ** Serializer *)

(** What the program prints or writes, in order. *)
Inductive Event : Type :=
| PrintBanner (directory : string) (extensions ignore_patterns : list string)
    (include_tests include_config : bool)
| PrintNoFiles
| PrintFound (count : nat)
| PrintAdded (relative_path : Path)
| PrintReadError (file_path : Path) (e : Error)
| WriteFile (output_path : Path) (xml_content : string)
| PrintDone (output_path : Path) (size : nat).

(** [os.path.basename] *)
Definition basename (p : string) : string :=
  match PyStr.rfind "/" p with
  | Some i => PyStr.drop (S i) p
  | None => p
  end.

(** [d[key] = value] on the attribute dictionary. *)
Fixpoint set_item (attrib : list (string * string)) (key value : string)
  : list (string * string) :=
  match attrib with
  | [] => [(key, value)]
  | (k, v) :: rest =>
      if k =? key then (k, value) :: rest
      else (k, v) :: set_item rest key value
  end.

(** [elem.set(key, value)] *)
Definition set (e : Element) (key value : string) : Element :=
  match e with
  | Elem tag attrib text children =>
      Elem tag (set_item attrib key value) text children
  end.

(** [ET.SubElement(parent, tag)] with the sub-element given, already
    filled: the new element goes after the children present. *)
Definition SubElement (parent child : Element) : Element :=
  match parent with
  | Elem tag attrib text children =>
      Elem tag attrib text (children ++ [child])%list
  end.

(** A leaf element that holds a text. *)
Definition text_element (tag text : string) : Element :=
  Elem tag [] (Some text) [].

(** The [file] element of a file that was read. *)
Definition file_entry (relative_path file_path : Path) (content : string)
  : Element :=
  let file_element := Elem "file" [] None [] in
  let file_element := set file_element "path" (to_str relative_path) in
  let file_element := set file_element "extension" (suffix file_path) in
  let file_element :=
    set file_element "size" (PyStr.of_nat (PyStr.len content)) in
  SubElement file_element (text_element "content" content).

(** One turn of the loop over [files]: the state is the [files]
    element and what was printed so far.  A failure to read leaves the
    element as it is; [relative_to] comes after the [file] element was
    attached, so its failure leaves an element without attributes. *)
Definition add_file (fs : FileSystem) (root_dir : string)
  (st : Element * list Event) (file_path : Path) : Element * list Event :=
  let (files_element, out) := st in
  match read_text fs file_path with
  | inl e => (files_element, (out ++ [PrintReadError file_path e])%list)
  | inr content =>
      match relative_to file_path (of_str root_dir) with
      | None =>
          (SubElement files_element (Elem "file" [] None []),
           (out ++ [PrintReadError file_path ValueError])%list)
      | Some relative_path =>
          (SubElement files_element
             (file_entry relative_path file_path content),
           (out ++ [PrintAdded relative_path])%list)
      end
  end.

(** [create_xml_structure(files, root_dir)], at the time [now] (the
    text of [datetime.now().isoformat()]): the root element and what
    was printed. *)
Definition create_xml_structure (fs : FileSystem) (now : string)
  (files : list Path) (root_dir : string) : Element * list Event :=
  let root := Elem "codebase" [] None [] in
  let root := set root "project" (basename root_dir) in
  let root := set root "timestamp" now in
  let metadata := Elem "metadata" [] None [] in
  let metadata :=
    SubElement metadata
      (text_element "total_files" (PyStr.of_nat (List.length files))) in
  let metadata :=
    SubElement metadata (text_element "root_directory" root_dir) in
  let (files_element, out) :=
    fold_left (add_file fs root_dir) files (Elem "files" [] None [], []) in
  (SubElement (SubElement root metadata) files_element, out).

(** [prettify_xml(elem)] *)
Definition prettify_xml (elem : Element) : Error + string :=
  match ET.tostring elem with
  | inl err => inl err
  | inr rough_string =>
      match Parser.parseString rough_string with
      | Some reparsed => inr (Minidom.toprettyxml "  " reparsed)
      | None => inl ExpatError
      end
  end.

(** ** Reading a document *)

(** The first sub-element with a tag. *)
Definition find_child (e : Element) (tag : string) : option Element :=
  find (fun child => tag_of child =? tag) (children_of e).

(** The text of [metadata/total_files]. *)
Definition total_files_of (root : Element) : option string :=
  match find_child root "metadata" with
  | Some metadata =>
      match find_child metadata "total_files" with
      | Some total_files => text_of total_files
      | None => None
      end
  | None => None
  end.

(** The [file] elements of [files], in order. *)
Definition file_elements (root : Element) : list Element :=
  match find_child root "files" with
  | Some files_element =>
      filter (fun child => tag_of child =? "file") (children_of files_element)
  | None => []
  end.

(** The text of a [file] element's [content]. *)
Definition content_of (file_element : Element) : option string :=
  match find_child file_element "content" with
  | Some content_element => text_of content_element
  | None => None
  end.

(** What the loop of [create_xml_structure] leaves in the document for
    one path: nothing when the file cannot be read, its entry when it
    was read (a bare element when the path is not below the root). *)
Definition entries_for (fs : FileSystem) (root_dir : string) (p : Path)
  : list Element :=
  match read_text fs p with
  | inl _ => []
  | inr content =>
      match relative_to p (of_str root_dir) with
      | Some relative_path => [file_entry relative_path p content]
      | None => [Elem "file" [] None []]
      end
  end.

(** What it prints for one path: the warning when the file cannot be
    read, the confirmation when it was added. *)
Definition report_for (fs : FileSystem) (root_dir : string) (p : Path)
  : Event :=
  match read_text fs p with
  | inl e => PrintReadError p e
  | inr content =>
      match relative_to p (of_str root_dir) with
      | Some relative_path => PrintAdded relative_path
      | None => PrintReadError p ValueError
      end
  end.

(** The files of a list that can be read. *)
Definition readable (fs : FileSystem) (p : Path) : bool :=
  match read_text fs p with inl _ => false | inr _ => true end.

(** ** The content read back from the rendered document *)

(** The characters of [datetime.now().isoformat()]: digits and the
    separators of date and time. *)
Definition isoformat_char (c : ascii) : bool :=
  let n := nat_of_ascii c in
  (((48 <=? n) && (n <=? 57)) || (n =? 45) || (n =? 58) || (n =? 84)
   || (n =? 46))%nat.

Definition isoformat_text (s : string) : bool :=
  forallb isoformat_char (list_ascii_of_string s).

(** What a parser reads between the tags of a [content] element of
    the rendered document, for a file whose content is [content]: the
    text goes through the serializer and the parser inside
    [prettify_xml], then through [writexml], then through the parser
    of the reader.  [None] when one of the parsers refuses it. *)
Definition content_round_trip (content : string) : option string :=
  match Expat.chardata (ET._escape_cdata content) with
  | Some data => Expat.chardata (Minidom._write_data data)
  | None => None
  end.

(** The contents a reader finds in a rendered document: the text of
    each [content] element of the parsed text, in order. *)
Fixpoint text_data (nodes : list Minidom.Node) : string :=
  match nodes with
  | [] => EmptyString
  | Minidom.Text data :: rest => data ++ text_data rest
  | Minidom.Element _ _ _ :: rest => text_data rest
  end.

Fixpoint contents (node : Minidom.Node) : list string :=
  match node with
  | Minidom.Text _ => []
  | Minidom.Element tagName _ childNodes =>
      if tagName =? "content" then [text_data childNodes]
      else flat_map contents childNodes
  end.

Definition rendered_contents (rendered : Error + string)
  : option (list string) :=
  match rendered with
  | inr text => option_map contents (Parser.parseString text)
  | inl _ => None
  end.

(** ** Driver *)

Record Args : Type := mkArgs {
  directory : string;
  output : string;
  extensions : list string;
  include_node_modules : bool;
  include_git : bool;
  include_tests : bool;
  include_config : bool;
  ignore : list string
}.

(** The defaults of the argument parser. *)
Definition default_args : Args :=
  {| directory := "."; output := "codebase.xml";
     extensions := [".ts"; ".css"; ".json"];
     include_node_modules := false; include_git := false;
     include_tests := false; include_config := false; ignore := [] |}.

Inductive Outcome : Type :=
| Returned
| Raised (e : Error).

Definition effective_ignore_patterns (args : Args) : list string :=
  (DEFAULT_IGNORE_PATTERNS
   ++ (if include_node_modules args then [] else ["node_modules"])
   ++ (if include_git args then [] else [".git"])
   ++ ignore args)%list.

(** [main()] once the arguments are parsed: what is printed and
    written, and how the run ends. *)
Definition main (fs : FileSystem) (now : string) (args : Args)
  : list Event * Outcome :=
  let ignore_patterns := effective_ignore_patterns args in
  let banner :=
    [PrintBanner (directory args) (extensions args) ignore_patterns
       (include_tests args) (include_config args)] in
  let files :=
    collect_files fs (directory args) (extensions args) ignore_patterns
      (include_tests args) (include_config args) in
  match files with
  | [] => ((banner ++ [PrintNoFiles])%list, Returned)
  | _ :: _ =>
      let found := (banner ++ [PrintFound (List.length files)])%list in
      let (root, out) := create_xml_structure fs now files (directory args) in
      match prettify_xml root with
      | inl err => ((found ++ out)%list, Raised err)
      | inr xml_content =>
          let output_path := of_str (output args) in
          if writable fs output_path then
            ((found ++ out
              ++ [WriteFile output_path xml_content;
                  PrintDone output_path (String.length xml_content)])%list,
             Returned)
          else ((found ++ out)%list, Raised OSError)
      end
  end.

(** ** Sample trees *)

(** The tree of the scenarios of the specification, scanned from the
    current directory. *)
Definition scenario_tree : FileSystem :=
  fs_of_listing
    [ (of_str "src/a.ts", Some "export const a = 1;");
      (of_str "src/a.test.ts", Some "test(a);");
      (of_str "node_modules/dep/x.ts", Some "export {};");
      (of_str "dist/out.ts", Some "var a = 1;") ].

(** A module next to a directory of the same name. *)
Definition utils_tree : FileSystem :=
  fs_of_listing
    [ (of_str "proj/utils.ts", Some "export * from './utils/x';");
      (of_str "proj/utils/x.ts", Some "export const x = 1;") ].

(** A readable file next to one that cannot be read and one that is
    not UTF-8. *)
Definition unreadable_tree : FileSystem :=
  fs_of_listing
    [ (of_str "proj/a.ts", Some "a < b && b > c");
      (of_str "proj/b.ts", None);
      (of_str "proj/c.ts", Some (String "255" "// latin-1")) ].

(** A file with a form feed between two declarations, as some
    editors and style guides put it. *)
Definition form_feed : string :=
  "let a = 1;" ++ String LF (String "012" (String LF "let b = 2;")).

Definition form_feed_tree : FileSystem :=
  fs_of_listing [ (of_str "proj/page.ts", Some form_feed) ].

(** A file with the line ends of Windows. *)
Definition crlf_tree : FileSystem :=
  fs_of_listing
    [ (of_str "proj/w.ts", Some ("a;" ++ String CR (String LF "b;"))) ].

(** * Facts about the string operations *)

Module PyStrFacts.
Import PyStr.


Lemma prefix_iff (p s : string) :
  String.prefix p s = true <-> exists post, s = p ++ post.
Proof.
  revert s; induction p as [|c p IH]; intros s.
  - destruct s; simpl; split; try easy; intros _; eexists; reflexivity.
  - destruct s as [|d s]; simpl.
    + split; [discriminate | intros [post H]; discriminate].
    + destruct (ascii_dec c d) as [->|ne].
      * rewrite IH. split; intros [post H]; exists post.
        -- now rewrite H.
        -- now injection H.
      * split; [discriminate | intros [post H]]. injection H as H _. congruence.
Qed.

Lemma contains_iff (pat s : string) :
  contains pat s = true <-> exists pre post, s = pre ++ pat ++ post.
Proof.
  induction s as [|c s IH]; cbn [contains].
  - rewrite orb_false_r, prefix_iff. split.
    + intros [post H]. now exists "", post.
    + intros [[|d pre] [post H]]; [now exists post | discriminate].
  - rewrite orb_true_iff, prefix_iff, IH. split.
    + intros [[post H] | [pre [post ->]]].
      * now exists "", post.
      * now exists (String c pre), post.
    + intros [[|d pre] [post H]]; simpl in H.
      * left. now exists post.
      * right. injection H as _ ->. now exists pre, post.
Qed.

End PyStrFacts.

(** * The matcher *)

Section Matcher.






End Matcher.

(** * The order of paths *)

Module Order.

(** What the proofs need of a three-way comparison. *)
Record Lawful {A : Type} (cmp : A -> A -> comparison) : Prop := {
  cmp_refl : forall x, cmp x x = Eq;
  cmp_eq : forall x y, cmp x y = Eq -> x = y;
  cmp_opp : forall x y, cmp x y = CompOpp (cmp y x);
  cmp_lt_trans : forall x y z, cmp x y = Lt -> cmp y z = Lt -> cmp x z = Lt
}.

Lemma ascii_lawful : Lawful Ascii.compare.
Proof.
  split.
  - intros x. apply N.compare_refl.
  - apply Ascii.compare_eq_iff.
  - apply Ascii.compare_antisym.
  - intros x y z. unfold Ascii.compare. rewrite !N.compare_lt_iff. lia.
Qed.

Lemma string_lawful : Lawful String.compare.
Proof.
  pose proof ascii_lawful as [Ar Ae Ao At].
  split.
  - induction x as [|c x IH]; simpl; [reflexivity|]. now rewrite Ar.
  - apply String.compare_eq_iff.
  - apply String.compare_antisym.
  - induction x as [|a x IH]; intros [|b y] [|c z]; simpl;
      try discriminate; try reflexivity.
    destruct (Ascii.compare a b) eqn:Hab; try discriminate;
      destruct (Ascii.compare b c) eqn:Hbc; try discriminate; intros H1 H2.
    + apply Ae in Hab, Hbc. subst. rewrite Ar. now apply IH with y.
    + apply Ae in Hab. subst. now rewrite Hbc.
    + apply Ae in Hbc. subst. now rewrite Hab.
    + now rewrite (At a b c).
Qed.

Lemma parts_lawful : Lawful parts_compare.
Proof.
  pose proof string_lawful as [Sr Se So St].
  split.
  - induction x as [|c x IH]; simpl; [reflexivity|]. now rewrite Sr.
  - induction x as [|a x IH]; intros [|b y]; simpl; try discriminate;
      [reflexivity|].
    destruct (String.compare a b) eqn:Hab; try discriminate.
    intros H. apply Se in Hab. apply IH in H. now subst.
  - induction x as [|a x IH]; intros [|b y]; simpl; try reflexivity.
    rewrite (So a b). destruct (String.compare b a); simpl; auto.
  - induction x as [|a x IH]; intros [|b y] [|c z]; simpl;
      try discriminate; try reflexivity.
    destruct (String.compare a b) eqn:Hab; try discriminate;
      destruct (String.compare b c) eqn:Hbc; try discriminate; intros H1 H2.
    + apply Se in Hab, Hbc. subst. rewrite Sr. now apply IH with y.
    + apply Se in Hab. subst. now rewrite Hbc.
    + apply Se in Hbc. subst. now rewrite Hab.
    + now rewrite (St a b c).
Qed.

Lemma path_le_trans (p q r : Path) : path_le p q -> path_le q r -> path_le p r.
Proof.
  pose proof parts_lawful as [Pr Pe Po Pt].
  unfold path_le, Pathlib.leb, Pathlib.compare.
  destruct (parts_compare (parts p) (parts q)) eqn:Hpq; try discriminate;
    destruct (parts_compare (parts q) (parts r)) eqn:Hqr; try discriminate;
    intros _ _.
  - apply Pe in Hpq, Hqr. rewrite Hpq, Hqr, Pr. reflexivity.
  - apply Pe in Hpq. now rewrite Hpq, Hqr.
  - apply Pe in Hqr. now rewrite <- Hqr, Hpq.
  - now rewrite (Pt _ _ _ Hpq Hqr).
Qed.

Lemma not_ltb_le (p q : Path) : Pathlib.ltb q p = false -> path_le p q.
Proof.
  pose proof parts_lawful as [Pr Pe Po Pt].
  unfold path_le, Pathlib.ltb, Pathlib.leb, Pathlib.compare.
  rewrite (Po (parts p) (parts q)).
  now destruct (parts_compare (parts q) (parts p)).
Qed.

Lemma ltb_le (p q : Path) : Pathlib.ltb p q = true -> path_le p q.
Proof.
  unfold path_le, Pathlib.ltb, Pathlib.leb.
  now destruct (Pathlib.compare p q).
Qed.

End Order.

(** * The collector *)

Section Collector.

Import Order.

Lemma insert_perm (x : Path) (l : list Path) :
  Permutation (insert x l) (x :: l).
Proof.
  induction l as [|y l IH]; simpl; [reflexivity|].
  destruct (Pathlib.ltb y x); [|reflexivity].
  rewrite IH. apply perm_swap.
Qed.

Lemma sorted_perm (l : list Path) : Permutation (sorted l) l.
Proof.
  induction l as [|x l IH]; simpl; [reflexivity|].
  rewrite insert_perm. now constructor.
Qed.

Lemma insert_sorted (x : Path) (l : list Path) :
  StronglySorted path_le l -> StronglySorted path_le (insert x l).
Proof.
  induction 1 as [|y l Hs IH Hall]; simpl.
  - repeat constructor.
  - destruct (Pathlib.ltb y x) eqn:Hlt.
    + constructor; [assumption|].
      apply Forall_forall. intros z Hz.
      apply (Permutation_in _ (insert_perm x l)) in Hz.
      destruct Hz as [<- | Hz]; [now apply ltb_le|].
      rewrite Forall_forall in Hall. now apply Hall.
    + apply not_ltb_le in Hlt.
      constructor; [now constructor|].
      constructor; [assumption|].
      apply Forall_forall. intros z Hz. rewrite Forall_forall in Hall.
      apply path_le_trans with y; auto.
Qed.

Lemma sorted_sorted (l : list Path) : StronglySorted path_le (sorted l).
Proof.
  induction l as [|x l IH]; simpl; [constructor | now apply insert_sorted].
Qed.

Lemma selected_not_test (fs : FileSystem) (ignore_patterns : list string)
  (include_config : bool) (p : Path) :
  selected fs ignore_patterns false include_config p = true ->
  is_test_file p = false.
Proof.
  unfold selected.
  destruct (is_file fs p && negb (should_ignore p ignore_patterns));
    [|discriminate].
  simpl. now destruct (is_test_file p).
Qed.

Lemma accumulate_selected (fs : FileSystem) (root_dir : string)
  (extensions ignore_patterns : list string)
  (include_tests include_config : bool) (p : Path) :
  In p (accumulate fs root_dir extensions ignore_patterns include_tests
          include_config) ->
  selected fs ignore_patterns include_tests include_config p = true.
Proof.
  unfold accumulate. rewrite in_flat_map.
  intros [ext [_ H]]. now apply filter_In in H.
Qed.

End Collector.

Section CollectorClaims.

Import Order.

(** C3, as amended.  The sequence [collect_files] returns is sorted
    ascending in the order of paths, which compares part by part (not
    the path strings), and it is a rearrangement of the paths
    accumulated over the requested extensions: a path is returned as
    many times as it was accumulated, so the result has no duplicates
    exactly when the accumulated list has none. *)
Theorem collect_files_sorted_by_parts (fs : FileSystem) (root_dir : string)
  (extensions ignore_patterns : list string)
  (include_tests include_config : bool) :
  let files :=
    accumulate fs root_dir extensions ignore_patterns include_tests
      include_config in
  let result :=
    collect_files fs root_dir extensions ignore_patterns include_tests
      include_config in
  StronglySorted path_le result
  /\ Permutation result files
  /\ (forall p, count_occ Pathlib.eq_dec result p
                = count_occ Pathlib.eq_dec files p)
  /\ (NoDup result <-> NoDup files).
Proof.
  intros files result. unfold result, collect_files. fold files.
  pose proof (sorted_perm files) as Hperm.
  repeat split.
  - apply sorted_sorted.
  - exact Hperm.
  - intros p. now apply Permutation_count_occ.
  - intros H. now apply (Permutation_NoDup Hperm).
  - intros H. now apply (Permutation_NoDup (Permutation_sym Hperm)).
Qed.

(** C3, the claim as stated fails.  With the extensions [.ts] and
    [ts] every file is returned twice; and with [.ts] alone the module
    [proj/utils.ts] comes after the file [proj/utils/x.ts], although
    its path string is the smaller one. *)
Lemma collect_files_duplicates_and_string_order :
  ~ NoDup (collect_files utils_tree "proj" [".ts"; "ts"] [] false false)
  /\ ~ StronglySorted str_le
         (collect_files utils_tree "proj" [".ts"] [] false false).
Proof.
  split.
  - intros H.
    assert (E : collect_files utils_tree "proj" [".ts"; "ts"] [] false false
                = [ of_str "proj/utils/x.ts"; of_str "proj/utils/x.ts";
                    of_str "proj/utils.ts"; of_str "proj/utils.ts" ])
      by (vm_compute; reflexivity).
    rewrite E in H. inversion H as [|? ? Hnotin _]; subst.
    apply Hnotin. now left.
  - intros H.
    assert (E : collect_files utils_tree "proj" [".ts"] [] false false
                = [ of_str "proj/utils/x.ts"; of_str "proj/utils.ts" ])
      by (vm_compute; reflexivity).
    rewrite E in H. inversion H as [|? ? _ Hall]; subst.
    inversion Hall as [|? ? Hle _]; subst.
    vm_compute in Hle. discriminate.
Qed.

(** C6. Without [include_tests] no returned path is a test file; with
    [include_tests] a test file can be returned, as it is for the tree
    of the scenarios. *)
Theorem collect_files_excludes_tests :
  (forall (fs : FileSystem) (root_dir : string)
          (extensions ignore_patterns : list string) (include_config : bool),
      Forall (fun p => is_test_file p = false)
        (collect_files fs root_dir extensions ignore_patterns false
           include_config))
  /\ (exists (fs : FileSystem) (root_dir : string)
             (extensions ignore_patterns : list string)
             (include_config : bool) (p : Path),
         In p (collect_files fs root_dir extensions ignore_patterns true
                 include_config)
         /\ is_test_file p = true).
Proof.
  split.
  - intros fs root_dir extensions ignore_patterns include_config.
    apply Forall_forall. intros p Hp.
    apply (Permutation_in _ (sorted_perm _)) in Hp.
    apply accumulate_selected in Hp.
    now apply selected_not_test in Hp.
  - exists scenario_tree, ".", [".ts"],
      (DEFAULT_IGNORE_PATTERNS ++ ["node_modules"; ".git"])%list, false,
      (of_str "src/a.test.ts").
    split; vm_compute; auto.
Qed.

(** The scenarios of the specification on its tree: with the default
    options only [src/a.ts] is collected, with [include_tests] the
    test file too, and with the extra pattern [src/a] nothing. *)
Example scenario_default :
  map to_str
    (collect_files scenario_tree "." [".ts"; ".css"; ".json"]
       (effective_ignore_patterns default_args) false false)
  = ["src/a.ts"].
Proof. reflexivity. Qed.

Example scenario_include_tests :
  map to_str
    (collect_files scenario_tree "." [".ts"; ".css"; ".json"]
       (effective_ignore_patterns default_args) true false)
  = ["src/a.test.ts"; "src/a.ts"].
Proof. reflexivity. Qed.

Example scenario_extra_pattern :
  collect_files scenario_tree "." [".ts"; ".css"; ".json"]
    (effective_ignore_patterns default_args ++ ["src/a"]) false false
  = [].
Proof. reflexivity. Qed.

End CollectorClaims.

(** * Document assembly *)

Section Assembly.

Variable fs : FileSystem.
Variable root_dir : string.

Lemma add_file_spec (kids : list Element) (out : list Event) (p : Path) :
  add_file fs root_dir (Elem "files" [] None kids, out) p
  = (Elem "files" [] None (kids ++ entries_for fs root_dir p)%list,
     (out ++ [report_for fs root_dir p])%list).
Proof.
  unfold add_file, entries_for, report_for.
  destruct (read_text fs p) as [e | content].
  - now rewrite app_nil_r.
  - destruct (relative_to p (of_str root_dir)); reflexivity.
Qed.

Lemma loop_spec (files : list Path) (kids : list Element) (out : list Event) :
  fold_left (add_file fs root_dir) files (Elem "files" [] None kids, out)
  = (Elem "files" [] None
       (kids ++ flat_map (entries_for fs root_dir) files)%list,
     (out ++ map (report_for fs root_dir) files)%list).
Proof.
  revert kids out.
  induction files as [|p files IH]; intros kids out;
    cbn [fold_left flat_map map].
  - now rewrite !app_nil_r.
  - rewrite add_file_spec, IH, <- !app_assoc. reflexivity.
Qed.

(** The document, written out. *)
Lemma create_xml_structure_spec (now : string) (files : list Path) :
  create_xml_structure fs now files root_dir
  = (Elem "codebase" [("project", basename root_dir); ("timestamp", now)]
       None
       [ Elem "metadata" [] None
           [ Elem "total_files" [] (Some (PyStr.of_nat (List.length files))) [];
             Elem "root_directory" [] (Some root_dir) [] ];
         Elem "files" [] None (flat_map (entries_for fs root_dir) files) ],
     map (report_for fs root_dir) files).
Proof.
  unfold create_xml_structure. rewrite loop_spec. reflexivity.
Qed.

Lemma entries_for_tag (p : Path) :
  forallb (fun child => tag_of child =? "file") (entries_for fs root_dir p)
  = true.
Proof.
  unfold entries_for. destruct (read_text fs p); [reflexivity|].
  destruct (relative_to p (of_str root_dir)); reflexivity.
Qed.

Lemma filter_all {A : Type} (f : A -> bool) (l : list A) :
  forallb f l = true -> filter f l = l.
Proof.
  induction l as [|x l IH]; simpl; [reflexivity|].
  intros H. apply andb_true_iff in H. destruct H as [Hx Hl].
  now rewrite Hx, IH.
Qed.

Lemma file_elements_spec (now : string) (files : list Path) :
  file_elements (fst (create_xml_structure fs now files root_dir))
  = flat_map (entries_for fs root_dir) files.
Proof.
  rewrite create_xml_structure_spec. unfold file_elements. simpl.
  apply filter_all. rewrite forallb_forall. intros e He.
  apply in_flat_map in He. destruct He as [p [_ He]].
  pose proof (entries_for_tag p) as H. rewrite forallb_forall in H. auto.
Qed.

(** The count in the metadata is the length of the list given, and the
    number of entries is the number of files that could be read. *)
Lemma total_files_spec (now : string) (files : list Path) :
  total_files_of (fst (create_xml_structure fs now files root_dir))
  = Some (PyStr.of_nat (List.length files)).
Proof. rewrite create_xml_structure_spec. reflexivity. Qed.

Lemma file_elements_length (now : string) (files : list Path) :
  List.length (file_elements (fst (create_xml_structure fs now files root_dir)))
  = List.length (filter (readable fs) files).
Proof.
  rewrite file_elements_spec.
  induction files as [|p files IH]; simpl; [reflexivity|].
  rewrite length_app, IH. unfold entries_for, readable.
  destruct (read_text fs p); [reflexivity|].
  destruct (relative_to p (of_str root_dir)); reflexivity.
Qed.


End Assembly.

(** C2. The count of the metadata is taken from the list of paths
    before any file is read: of three paths of which two cannot be
    read, the document says [3] and holds one entry. *)
Theorem total_files_counts_skipped_files :
  let files :=
    [of_str "proj/a.ts"; of_str "proj/b.ts"; of_str "proj/c.ts"] in
  let root := fst (create_xml_structure unreadable_tree "T" files "proj") in
  total_files_of root = Some "3"
  /\ List.length (file_elements root) = 1
  /\ map content_of (file_elements root) = [Some "a < b && b > c"].
Proof. vm_compute. auto. Qed.

(** * Escaping and reading back *)

Module Escaping.

Import Expat.

Lemma append_assoc (a b c : string) : (a ++ b) ++ c = a ++ b ++ c.
Proof. induction a as [|x a IH]; simpl; [reflexivity | now rewrite IH]. Qed.

Lemma replace_app (c : ascii) (r a b : string) :
  PyStr.replace c r (a ++ b) = PyStr.replace c r a ++ PyStr.replace c r b.
Proof.
  induction a as [|x a IH]; simpl; [reflexivity|].
  now rewrite IH, append_assoc.
Qed.

(** An escaping function works character by character. *)
Definition charwise (esc : string -> string) : Prop :=
  forall a b, esc (a ++ b) = esc a ++ esc b.

Lemma escape_cdata_charwise : charwise ET._escape_cdata.
Proof. intros a b. unfold ET._escape_cdata. now rewrite !replace_app. Qed.

Lemma write_data_charwise : charwise Minidom._write_data.
Proof. intros a b. unfold Minidom._write_data. now rewrite !replace_app. Qed.

Lemma escape_attrib_charwise : charwise ET._escape_attrib.
Proof. intros a b. unfold ET._escape_attrib. now rewrite !replace_app. Qed.

Lemma charwise_cons (esc : string -> string) (c : ascii) (s : string) :
  charwise esc -> esc (String c s) = esc (String c EmptyString) ++ esc s.
Proof. intros H. now rewrite <- H. Qed.

Lemma eqb_false (c d : ascii) : c <> d -> Ascii.eqb c d = false.
Proof. apply Ascii.eqb_neq. Qed.

(** A character that no escaping function touches. *)
Definition unmarked (c : ascii) : Prop :=
  c <> "&"%char /\ c <> "<"%char /\ c <> ">"%char /\ c <> QUOT.

Lemma escape_cdata_char (c : ascii) :
  c <> "&"%char -> c <> "<"%char -> c <> ">"%char ->
  ET._escape_cdata (String c EmptyString) = String c EmptyString.
Proof.
  intros H1 H2 H3. unfold ET._escape_cdata. simpl.
  rewrite (eqb_false _ _ H1). simpl. rewrite (eqb_false _ _ H2). simpl.
  now rewrite (eqb_false _ _ H3).
Qed.

Lemma write_data_char (c : ascii) :
  unmarked c -> Minidom._write_data (String c EmptyString) = String c EmptyString.
Proof.
  intros (H1 & H2 & H3 & H4). unfold Minidom._write_data. simpl.
  rewrite (eqb_false _ _ H1). simpl. rewrite (eqb_false _ _ H2). simpl.
  rewrite (eqb_false _ _ H4). simpl. now rewrite (eqb_false _ _ H3).
Qed.

(** The states in which a run of text can begin or go on. *)
Definition in_text (st : State) : Prop :=
  match st with InRef _ => False | _ => True end.

(** The four entities the serializers write are read back as the
    character they stand for, in every state of the text. *)
Lemma scan_amp (ctx : Context) (st : State) (r : string) :
  in_text st ->
  scan ctx st ("&amp;" ++ r) = emits "&" (scan ctx (Plain 0) r).
Proof. destruct st; simpl; try reflexivity; intros []. Qed.

Lemma scan_lt (ctx : Context) (st : State) (r : string) :
  in_text st ->
  scan ctx st ("&lt;" ++ r) = emits "<" (scan ctx (Plain 0) r).
Proof. destruct st; simpl; try reflexivity; intros []. Qed.

Lemma scan_gt (ctx : Context) (st : State) (r : string) :
  in_text st ->
  scan ctx st ("&gt;" ++ r) = emits ">" (scan ctx (Plain 0) r).
Proof. destruct st; simpl; try reflexivity; intros []. Qed.

Lemma scan_quot (ctx : Context) (st : State) (r : string) :
  in_text st ->
  scan ctx st ("&quot;" ++ r)
  = emits (String QUOT EmptyString) (scan ctx (Plain 0) r).
Proof. destruct st; simpl; try reflexivity; intros []. Qed.

(** What is expected of the scanner from a state: after a CR, a
    leading LF belongs to the line end already reported. *)
Definition strip_lf (s : string) : string :=
  match s with
  | String c s' => if Ascii.eqb c LF then s' else s
  | EmptyString => s
  end.

Definition expected (st : State) (s : string) : string :=
  match st with
  | AfterCR => universal_newlines (strip_lf s)
  | _ => universal_newlines s
  end.

(** What may follow in a state inside the encoding of U+FFFx. *)
Definition after_ok (st : State) (s : string) : Prop :=
  match st with
  | Plain _ | AfterCR => True
  | InRef _ => False
  | AfterEF =>
      String.prefix (String "191" (String "190" "")) s = false
      /\ String.prefix (String "191" (String "191" "")) s = false
  | AfterEFBF =>
      String.prefix (String "190" "") s = false
      /\ String.prefix (String "191" "") s = false
  end.

Section ReadBack.
Variable esc : string -> string.
Hypothesis esc_charwise : charwise esc.
Hypothesis esc_nil : esc "" = "".
Hypothesis esc_amp : esc "&" = "&amp;".
Hypothesis esc_lt : esc "<" = "&lt;".
Hypothesis esc_gt : esc ">" = "&gt;".
Hypothesis esc_quot :
  esc (String QUOT "") = String QUOT "" \/ esc (String QUOT "") = "&quot;".
Hypothesis esc_unmarked : forall c, unmarked c -> esc (String c "") = String c "".

Lemma universal_newlines_cons c s : c <> CR ->
  universal_newlines (String c s) = String c (universal_newlines s).
Proof. intros H. simpl. now rewrite (eqb_false _ _ H). Qed.

Lemma expected_cons st c s : in_text st -> c <> CR -> c <> LF ->
  expected st (String c s) = String c (universal_newlines s).
Proof.
  intros _ H1 H2. destruct st; simpl; rewrite ?(eqb_false _ _ H2), ?(eqb_false _ _ H1); simpl; rewrite ?(eqb_false _ _ H1); reflexivity.
Qed.

Lemma universal_newlines_CR s :
  universal_newlines (String CR s) = String LF (universal_newlines (strip_lf s)).
Proof.
  destruct s as [|d s']; [reflexivity|].
  change (universal_newlines (String CR (String d s')))
    with (if Ascii.eqb d LF then universal_newlines (String d s')
          else String LF (universal_newlines (String d s'))).
  unfold strip_lf. destruct (Ascii.eqb_spec d LF) as [-> | H]; reflexivity.
Qed.

Lemma read_back (s : string) :
  forall st, after_ok st s -> xml_text s = true ->
  scan Content st (esc s) = Some (expected st s).
Proof.
  induction s as [|c s IH]; intros st Hst Hs.
  - rewrite esc_nil. destruct st; simpl in *; try reflexivity; contradiction.
  - rewrite (charwise_cons esc c s esc_charwise).
    cbn [xml_text] in Hs. rewrite !andb_true_iff, !negb_true_iff in Hs.
    destruct Hs as [[[Hc Hfe] Hff] Hs].
    assert (Htxt : in_text st) by (destruct st; simpl in *; auto).
    destruct (ascii_dec c "&") as [-> | Hamp].
    { rewrite esc_amp, scan_amp, (IH (Plain 0) I Hs) by assumption.
      rewrite expected_cons by (assumption || discriminate). reflexivity. }
    destruct (ascii_dec c "<") as [-> | Hlt].
    { rewrite esc_lt, scan_lt, (IH (Plain 0) I Hs) by assumption.
      rewrite expected_cons by (assumption || discriminate). reflexivity. }
    destruct (ascii_dec c ">") as [-> | Hgt].
    { rewrite esc_gt, scan_gt, (IH (Plain 0) I Hs) by assumption.
      rewrite expected_cons by (assumption || discriminate). reflexivity. }
    assert (E : esc (String c "") = String c "" \/ (c = QUOT /\ esc (String c "") = "&quot;")).
    { destruct (ascii_dec c QUOT) as [-> | Hq].
      - destruct esc_quot; auto.
      - left. apply esc_unmarked. repeat split; assumption. }
    destruct E as [E | [-> E]]; rewrite E.
    2:{ rewrite scan_quot, (IH (Plain 0) I Hs) by assumption.
        rewrite expected_cons by (assumption || discriminate). reflexivity. }
    clear E. change (String c "" ++ esc s) with (String c (esc s)).
    cbn [scan].
    assert (Hplain : forall k, exists st',
      plain Content (fun st' => scan Content st' (esc s)) c k = emit (if Ascii.eqb c CR then LF else c) (scan Content st' (esc s))
      /\ after_ok st' s
      /\ String (if Ascii.eqb c CR then LF else c) (expected st' s) = universal_newlines (String c s)).
    { intros k. unfold plain.
      destruct (Ascii.eqb_spec c CR) as [-> | HCR].
      { exists AfterCR. repeat split. now rewrite universal_newlines_CR. }
      rewrite (eqb_false _ _ Hamp), (eqb_false _ _ Hlt).
      destruct (Ascii.eqb_spec c "239") as [-> | HEF].
      { exists AfterEF. repeat split.
        - simpl in Hfe. destruct s as [|d s']; [reflexivity|]. exact Hfe.
        - simpl in Hff. destruct s as [|d s']; [reflexivity|]. exact Hff. }
      rewrite Hc. cbn [negb].
      destruct (Ascii.eqb_spec c "]") as [-> | Hbr].
      { exists (Plain (Nat.min 2 (S k))). repeat split. }
      rewrite (eqb_false _ _ Hgt). cbn [andb].
      exists (Plain 0). repeat split. simpl. now rewrite (eqb_false _ _ HCR). }
    assert (Huse : forall k, st <> AfterCR \/ c <> LF ->
      plain Content (fun st' => scan Content st' (esc s)) c k
      = Some (expected st (String c s))).
    { intros k Hne. destruct (Hplain k) as [st' [E [Hok Hexp]]].
      rewrite E, (IH st' Hok Hs). cbn [emit option_map]. rewrite Hexp.
      f_equal. destruct st; try reflexivity.
      destruct Hne as [Hne | Hne]; [congruence|].
      unfold expected, strip_lf. now rewrite (eqb_false _ _ Hne). }
    destruct st as [k | | nm | | ].
    + apply Huse. left. discriminate.
    + destruct (Ascii.eqb_spec c LF) as [-> | HLF].
      * now rewrite (IH (Plain 0) I Hs).
      * apply Huse. now right.
    + contradiction.
    + destruct (Ascii.eqb_spec c "191") as [-> | HBF].
      * destruct Hst as [H1 H2].
        rewrite (IH AfterEFBF); [reflexivity | | assumption].
        split; [exact H1 | exact H2].
      * apply Huse. left. discriminate.
    + destruct Hst as [H1 H2].
      destruct (Ascii.eqb_spec c "190") as [-> | HBE].
      { simpl in H1. destruct s; discriminate. }
      destruct (Ascii.eqb_spec c "191") as [-> | HBF].
      { simpl in H2. destruct s; discriminate. }
      apply Huse. left. discriminate.
Qed.

Lemma esc_ordinary c :
  c <> "&"%char -> c <> "<"%char -> c <> ">"%char -> c <> QUOT ->
  esc (String c "") = String c "".
Proof. intros. apply esc_unmarked. repeat split; assumption. Qed.

Lemma emits_None v : emits v None = None.
Proof. reflexivity. Qed.

Lemma emit_None c : emit c None = None.
Proof. reflexivity. Qed.

Lemma emit_emits c k : emit c k = emits (String c "") k.
Proof. now destruct k. Qed.

Lemma emits_nil k : k = emits "" k.
Proof. now destruct k. Qed.

(** Reading one escaped character either fails or goes on in the text. *)
Lemma scan_step c r st :
  in_text st ->
  scan Content st (esc (String c "") ++ r) = None
  \/ exists v st', in_text st'
       /\ scan Content st (esc (String c "") ++ r) = emits v (scan Content st' r).
Proof.
  intros Hst.
  destruct (ascii_dec c "&") as [-> | Hamp].
  { right. exists "&", (Plain 0). rewrite esc_amp. now split; [|apply scan_amp]. }
  destruct (ascii_dec c "<") as [-> | Hlt].
  { right. exists "<", (Plain 0). rewrite esc_lt. now split; [|apply scan_lt]. }
  destruct (ascii_dec c ">") as [-> | Hgt].
  { right. exists ">", (Plain 0). rewrite esc_gt. now split; [|apply scan_gt]. }
  assert (E : esc (String c "") = String c "" \/ (c = QUOT /\ esc (String c "") = "&quot;")).
  { destruct (ascii_dec c QUOT) as [-> | Hq].
    - destruct esc_quot; auto.
    - left. now apply esc_ordinary. }
  destruct E as [E | [-> E]]; rewrite E.
  2:{ right. exists (String QUOT ""), (Plain 0). now split; [|apply scan_quot]. }
  change (String c "" ++ r) with (String c r). cbn [scan].
  assert (Hplain : forall k,
    plain Content (fun st' => scan Content st' r) c k = None
    \/ exists v st', in_text st'
       /\ plain Content (fun st' => scan Content st' r) c k = emits v (scan Content st' r)).
  { intros k. unfold plain.
    destruct (Ascii.eqb c CR).
    { right. exists (String LF ""), AfterCR. split; [exact I | apply emit_emits]. }
    rewrite (eqb_false _ _ Hamp), (eqb_false _ _ Hlt).
    destruct (Ascii.eqb c "239").
    { right. exists (String c ""), AfterEF. split; [exact I | apply emit_emits]. }
    destruct (legal_byte c); [|now left]. cbn [negb].
    destruct (Ascii.eqb c "]").
    { right. exists (String c ""), (Plain (Nat.min 2 (S k))).
      split; [exact I | apply emit_emits]. }
    rewrite (eqb_false _ _ Hgt). right. exists (String c ""), (Plain 0).
    split; [exact I | apply emit_emits]. }
  destruct st as [k | | nm | | ]; try contradiction.
  - apply Hplain.
  - destruct (Ascii.eqb c LF); [|apply Hplain].
    right. exists "", (Plain 0). split; [exact I | apply emits_nil].
  - destruct (Ascii.eqb c "191"); [|apply Hplain].
    right. exists (String c ""), AfterEFBF. split; [exact I | apply emit_emits].
  - destruct (Ascii.eqb c "190" || Ascii.eqb c "191"); [now left | apply Hplain].
Qed.

Lemma scan_illegal c r st :
  in_text st -> legal_byte c = false ->
  scan Content st (esc (String c "") ++ r) = None.
Proof.
  intros Hst Hc.
  assert (Hne : forall d, legal_byte d = true -> Ascii.eqb c d = false).
  { intros d Hd. apply Ascii.eqb_neq. intros ->. congruence. }
  rewrite esc_ordinary by (intros ->; discriminate).
  change (String c "" ++ r) with (String c r). cbn [scan]. unfold plain.
  rewrite !Hne by reflexivity. rewrite Hc.
  destruct st; try contradiction; reflexivity.
Qed.

Lemma scan_noncharacter (d : ascii) r st :
  in_text st -> (d = "190" \/ d = "191")%char ->
  scan Content st (esc (String "239" (String "191" (String d ""))) ++ r) = None.
Proof.
  intros Hst Hd.
  rewrite (charwise_cons esc "239" _ esc_charwise).
  rewrite (charwise_cons esc "191" _ esc_charwise).
  rewrite !esc_ordinary by discriminate.
  assert (Ed : esc (String d "") = String d "")
    by (destruct Hd as [-> | ->]; apply esc_ordinary; discriminate).
  rewrite Ed.
  destruct Hd as [-> | ->]; destruct st; try contradiction; reflexivity.
Qed.

Lemma refused (s : string) :
  xml_text s = false ->
  forall st, in_text st -> scan Content st (esc s) = None.
Proof.
  induction s as [|c s IH]; intros Hs st Hst; [discriminate|].
  cbn [xml_text] in Hs.
  destruct (xml_text s) eqn:Hs'.
  - rewrite andb_true_r in Hs.
    destruct (legal_byte c) eqn:Hc.
    + rewrite andb_true_l in Hs. apply andb_false_iff in Hs.
      rewrite !negb_false_iff in Hs.
      assert (Hpre : exists d r, (d = "190" \/ d = "191")%char
                /\ String c s = String "239" (String "191" (String d "")) ++ r).
      { destruct Hs as [H | H]; apply PyStrFacts.prefix_iff in H;
          destruct H as [r H]; [exists "190"%char, r | exists "191"%char, r]; auto. }
      destruct Hpre as [d [r [Hd E]]]. rewrite E, esc_charwise.
      now apply scan_noncharacter.
    + rewrite (charwise_cons esc c s esc_charwise). now apply scan_illegal.
  - rewrite (charwise_cons esc c s esc_charwise).
    destruct (scan_step c (esc s) st Hst) as [E | [v [st' [Hst' E]]]];
      rewrite E; [reflexivity|].
    now rewrite (IH eq_refl st' Hst').
Qed.

End ReadBack.

(** What the parser reads from the escaped form of a text, for both
    serializers: the text with its line ends normalized when every
    character is allowed, and a failure otherwise. *)
Theorem chardata_escape_cdata (s : string) :
  chardata (ET._escape_cdata s)
  = if xml_text s then Some (universal_newlines s) else None.
Proof.
  assert (Hq : ET._escape_cdata (String QUOT "") = String QUOT ""
               \/ ET._escape_cdata (String QUOT "") = "&quot;")
    by (left; reflexivity).
  assert (Hun : forall c, unmarked c ->
                  ET._escape_cdata (String c "") = String c "")
    by (intros c (H1 & H2 & H3 & _); now apply escape_cdata_char).
  destruct (xml_text s) eqn:Hs.
  - now apply (read_back ET._escape_cdata escape_cdata_charwise).
  - now apply (refused ET._escape_cdata escape_cdata_charwise).
Qed.

Theorem chardata_write_data (s : string) :
  chardata (Minidom._write_data s)
  = if xml_text s then Some (universal_newlines s) else None.
Proof.
  assert (Hq : Minidom._write_data (String QUOT "") = String QUOT ""
               \/ Minidom._write_data (String QUOT "") = "&quot;")
    by (right; reflexivity).
  destruct (xml_text s) eqn:Hs.
  - now apply (read_back Minidom._write_data write_data_charwise);
      try apply write_data_char.
  - now apply (refused Minidom._write_data write_data_charwise);
      try apply write_data_char.
Qed.

End Escaping.

(** * The parser reads what the serializer writes *)

Module ParserFacts.

Import Minidom Parser Escaping.

Lemma append_nil_r (s : string) : s ++ "" = s.
Proof. induction s as [|c s IH]; simpl; [reflexivity | now rewrite IH]. Qed.

Lemma concat_cons (x : string) (xs : list string) :
  String.concat "" (x :: xs) = x ++ String.concat "" xs.
Proof. destruct xs; simpl; [now rewrite append_nil_r | reflexivity]. Qed.

(** Every character of [s] satisfies [f]. *)
Definition all_chars (f : ascii -> bool) (s : string) : bool :=
  forallb f (list_ascii_of_string s).

Lemma all_chars_app (f : ascii -> bool) (a b : string) :
  all_chars f (a ++ b) = all_chars f a && all_chars f b.
Proof.
  unfold all_chars. induction a as [|c a IH]; simpl; [reflexivity|].
  now rewrite IH, andb_assoc.
Qed.

(** [s] is empty or begins with a character that [f] refuses. *)
Definition stops (f : ascii -> bool) (s : string) : Prop :=
  match s with
  | EmptyString => True
  | String c _ => f c = false
  end.

Lemma take_while_app (f : ascii -> bool) (a rest : string) :
  all_chars f a = true -> stops f rest ->
  take_while f (a ++ rest) = (a, rest).
Proof.
  unfold all_chars. induction a as [|c a IH]; simpl; intros Ha Hrest.
  - destruct rest as [|d rest]; simpl in *; [reflexivity | now rewrite Hrest].
  - apply andb_true_iff in Ha. destruct Ha as [Hc Ha].
    now rewrite Hc, IH.
Qed.

(** An escaped text holds none of the characters that end it. *)
Lemma charwise_all_chars (esc : string -> string) (f : ascii -> bool) :
  charwise esc -> esc "" = "" ->
  (forall c, all_chars f (esc (String c "")) = true) ->
  forall s, all_chars f (esc s) = true.
Proof.
  intros Hcw Hnil Hc. induction s as [|c s IH]; [now rewrite Hnil|].
  now rewrite (charwise_cons esc c s Hcw), all_chars_app, Hc, IH.
Qed.

Lemma escape_attrib_no_quote (v : string) :
  all_chars (fun c => negb (Ascii.eqb c QUOT)) (ET._escape_attrib v) = true.
Proof.
  apply charwise_all_chars;
    [apply escape_attrib_charwise | reflexivity |].
  intros [[|] [|] [|] [|] [|] [|] [|] [|]]; reflexivity.
Qed.

Lemma escape_cdata_no_lt (t : string) :
  all_chars (fun c => negb (Ascii.eqb c "<")) (ET._escape_cdata t) = true.
Proof.
  apply charwise_all_chars;
    [apply escape_cdata_charwise | reflexivity |].
  intros [[|] [|] [|] [|] [|] [|] [|] [|]]; reflexivity.
Qed.

Lemma xml_name_chars (nm : string) :
  xml_name nm = true -> all_chars name_char nm = true.
Proof.
  destruct nm as [|c nm]; [discriminate|].
  unfold xml_name, all_chars. simpl. intros H.
  apply andb_true_iff in H. destruct H as [Hc Hn].
  rewrite Hn, andb_true_r. unfold name_char. now rewrite Hc.
Qed.

Lemma xml_name_start (nm : string) :
  xml_name nm = true ->
  exists c nm', nm = String c nm' /\ name_start c = true.
Proof.
  destruct nm as [|c nm]; [discriminate|]. unfold xml_name. intros H.
  apply andb_true_iff in H. destruct H as [Hc _]. now exists c, nm.
Qed.

(** The attributes of a tree whose names are names. *)
Definition named_attrib (attrib : list (string * string)) : bool :=
  forallb (fun kv => xml_name (fst kv)) attrib.

(** What follows the attributes of a start tag: the end of the tag. *)
Definition tag_end (s : string) : Prop :=
  (exists r, s = " />" ++ r) \/ (exists r, s = ">" ++ r).

Lemma skip_spaces_name (c : ascii) (s : string) :
  name_start c = true -> skip_spaces (String c s) = String c s.
Proof.
  intros Hc. cbn [skip_spaces].
  destruct c as [[|] [|] [|] [|] [|] [|] [|] [|]];
    try reflexivity; discriminate Hc.
Qed.

(** One attribute, as the serializer writes it. *)
Lemma parse_attribute_step (fuel : nat) (k raw more : string) :
  xml_name k = true ->
  all_chars (fun c => negb (Ascii.eqb c QUOT)) raw = true ->
  parse_attributes (S fuel)
    (" " ++ k ++ "=" ++ String QUOT (raw ++ String QUOT more))
  = match Expat.attvalue raw with
    | Some v =>
        match parse_attributes fuel more with
        | Some (attrs, rest) => Some ((k, v) :: attrs, rest)
        | None => None
        end
    | None => None
    end.
Proof.
  intros Hk Hraw.
  destruct (xml_name_start k Hk) as [c [k' [-> Hc]]].
  set (tail := "=" ++ String QUOT (raw ++ String QUOT more)).
  change (" " ++ String c k' ++ tail) with (String " " (String c k' ++ tail)).
  cbn [parse_attributes].
  change (is_space " ") with true. cbv iota.
  change (skip_spaces (String " " (String c k' ++ tail)))
    with (skip_spaces (String c (k' ++ tail))).
  rewrite (skip_spaces_name c _ Hc), Hc.
  change (String c (k' ++ tail)) with (String c k' ++ tail).
  rewrite take_while_app; [| now apply xml_name_chars | reflexivity].
  unfold tail.
  change (skip_spaces ("=" ++ String QUOT (raw ++ String QUOT more)))
    with (String "=" (String QUOT (raw ++ String QUOT more))).
  cbv iota.
  change (skip_spaces (String QUOT (raw ++ String QUOT more)))
    with (String QUOT (raw ++ String QUOT more)).
  cbv iota. change (Ascii.eqb QUOT QUOT) with true. cbv iota.
  unfold take_until.
  rewrite take_while_app; [| assumption | reflexivity].
  reflexivity.
Qed.

Lemma parse_attributes_ok (attrib : list (string * string)) :
  named_attrib attrib = true ->
  forall fuel rest,
    List.length attrib < fuel -> tag_end rest ->
    parse_attributes fuel
      (String.concat "" (map ET.serialize_attrib attrib) ++ rest)
    = option_map (fun attrs => (attrs, rest))
        (all_some (map parse_attrib attrib)).
Proof.
  induction attrib as [|[k v] attrib IH]; intros Hn fuel rest Hf Hrest.
  - destruct fuel as [|fuel]; [inversion Hf|].
    destruct Hrest as [[r ->] | [r ->]]; reflexivity.
  - destruct fuel as [|fuel]; [inversion Hf|].
    cbn [named_attrib forallb fst] in Hn.
    apply andb_true_iff in Hn. destruct Hn as [Hk Hn].
    cbn [map]. rewrite concat_cons.
    unfold ET.serialize_attrib at 1. cbn [fst snd]. unfold ET.quoted.
    rewrite !append_assoc.
    change (String QUOT (ET._escape_attrib v ++ String QUOT "")
            ++ String.concat "" (map ET.serialize_attrib attrib) ++ rest)
      with (String QUOT ((ET._escape_attrib v ++ String QUOT "")
            ++ String.concat "" (map ET.serialize_attrib attrib) ++ rest)).
    rewrite append_assoc.
    change (String QUOT "" ++
            String.concat "" (map ET.serialize_attrib attrib) ++ rest)
      with (String QUOT
              (String.concat "" (map ET.serialize_attrib attrib) ++ rest)).
    rewrite parse_attribute_step by (auto using escape_attrib_no_quote).
    assert (E : parse_attrib (k, v)
                = option_map (pair k) (Expat.attvalue (ET._escape_attrib v)))
      by (unfold parse_attrib; cbn [fst snd]; now rewrite Hk).
    rewrite E.
    destruct (Expat.attvalue (ET._escape_attrib v)) as [v'|]; [|reflexivity].
    rewrite IH by (auto; simpl in Hf; lia).
    cbn [option_map all_some].
    destruct (all_some (map parse_attrib attrib)); reflexivity.
Qed.

End ParserFacts.

Module ParserCorrect.

Import Minidom Parser Escaping ParserFacts.

(** A tree whose tags and attribute names are names. *)
Fixpoint well_named (e : ET.Element) : bool :=
  match e with
  | Elem tag attrib _ children =>
      xml_name tag && named_attrib attrib && forallb well_named children
  end.

(** The fuel that reading the serialization of a tree takes: one for
    the element, one for its text and one for each of its children
    and for the end tag, besides what the children take. *)
Fixpoint size (e : ET.Element) : nat :=
  match e with
  | Elem _ _ _ children =>
      3 + list_sum (map (fun child => S (size child)) children)
  end.

Definition content_size (children : list ET.Element) : nat :=
  1 + list_sum (map (fun child => S (size child)) children).

(** Reading a node from its opening bracket. *)
Definition parse_node (fuel : nat) (s : string) : option (Node * string) :=
  match s with
  | String c s1 => if Ascii.eqb c "<" then parse_element fuel s1 else None
  | EmptyString => None
  end.

Lemma Element_ind' (P : ET.Element -> Prop) :
  (forall tag attrib text children,
      Forall P children -> P (Elem tag attrib text children)) ->
  forall e, P e.
Proof.
  intros H. fix IH 1. intros [tag attrib text children]. apply H.
  induction children as [|child children IHc]; constructor;
    [apply IH | exact IHc].
Qed.

(** What is claimed of one tree. *)
Definition reads_back (e : ET.Element) : Prop :=
  well_named e = true ->
  forall fuel rest,
    size e <= fuel ->
    parse_node fuel (ET.serialize_xml e ++ rest)
    = option_map (fun node => (node, rest)) (build e).

Lemma serialize_xml_head (e : ET.Element) :
  well_named e = true ->
  exists c tail,
    ET.serialize_xml e = String "<" (String c tail) /\ name_start c = true.
Proof.
  destruct e as [tag attrib text children]. cbn [well_named].
  rewrite !andb_true_iff. intros [[Ht _] _].
  destruct (xml_name_start tag Ht) as [c [tag' [-> Hc]]].
  cbn [ET.serialize_xml]. eexists c, _. split; [reflexivity | exact Hc].
Qed.

Lemma name_start_not_slash (c : ascii) :
  name_start c = true -> Ascii.eqb c "/" = false.
Proof.
  destruct c as [[|] [|] [|] [|] [|] [|] [|] [|]]; intros H;
    try reflexivity; discriminate H.
Qed.

Lemma parse_children_ok (children : list ET.Element) :
  Forall reads_back children ->
  forallb well_named children = true ->
  forall fuel closing,
    content_size children <= fuel ->
    parse_content fuel
      (String.concat "" (map ET.serialize_xml children) ++ "</" ++ closing)
    = option_map (fun nodes => (nodes, "</" ++ closing))
        (all_some (map build children)).
Proof.
  induction 1 as [|child children Hchild _ IH]; intros Hwn fuel closing Hf.
  - destruct fuel as [|fuel]; [inversion Hf|]. reflexivity.
  - cbn [forallb] in Hwn. apply andb_true_iff in Hwn.
    destruct Hwn as [Hc Hcs].
    unfold content_size in Hf. cbn [map] in Hf.
    change (list_sum (S (size child)
                      :: map (fun k => S (size k)) children))
      with (S (size child) + list_sum (map (fun k => S (size k)) children))
      in Hf.
    destruct fuel as [|fuel]; [lia|].
    cbn [map]. rewrite concat_cons, append_assoc.
    destruct (serialize_xml_head child Hc) as [c [tail [E Hstart]]].
    pose proof (Hchild Hc fuel
                  (String.concat "" (map ET.serialize_xml children)
                   ++ "</" ++ closing)) as Hread.
    rewrite E in *. cbn [append] in *. cbn [parse_content].
    change (Ascii.eqb "<" "<") with true. cbv iota.
    rewrite (name_start_not_slash c Hstart).
    unfold parse_node in Hread.
    change (Ascii.eqb "<" "<") with true in Hread. cbv iota in Hread.
    rewrite Hread by lia.
    cbn [all_some].
    destruct (build child) as [node|]; [|reflexivity].
    cbn [option_map].
    rewrite IH by (auto; unfold content_size; lia).
    destruct (all_some (map build children)); reflexivity.
Qed.

Lemma children_text_head (children : list ET.Element) (closing : string) :
  forallb well_named children = true ->
  exists tail,
    String.concat "" (map ET.serialize_xml children) ++ "</" ++ closing
    = String "<" tail.
Proof.
  destruct children as [|child children]; intros H.
  - now exists (String "/" closing).
  - cbn [forallb] in H. apply andb_true_iff in H. destruct H as [Hc _].
    destruct (serialize_xml_head child Hc) as [c [tail [E _]]].
    cbn [map]. rewrite concat_cons, E. cbn [append]. eauto.
Qed.

Lemma escape_cdata_head (c : ascii) (t : string) :
  exists d tail,
    ET._escape_cdata (String c t) = String d tail
    /\ Ascii.eqb d "<" = false.
Proof.
  rewrite (charwise_cons _ c t escape_cdata_charwise).
  destruct c as [[|] [|] [|] [|] [|] [|] [|] [|]];
    eexists _, _; (split; [reflexivity | reflexivity]).
Qed.

Lemma parse_text_nodes (t : string) :
  parse_text (Some t)
  = option_map text_nodes (Expat.chardata (ET._escape_cdata t)).
Proof.
  unfold parse_text.
  destruct (Expat.chardata (ET._escape_cdata t)) as [[|d data]|]; reflexivity.
Qed.

(** The text and the children of an element, up to its end tag. *)
Lemma parse_body_ok (text : option string) (children : list ET.Element) :
  Forall reads_back children ->
  forallb well_named children = true ->
  forall fuel closing,
    S (content_size children) <= fuel ->
    parse_content fuel
      ((match text with Some t => ET._escape_cdata t | None => "" end
        ++ String.concat "" (map ET.serialize_xml children))
       ++ "</" ++ closing)
    = option_map (fun nodes => (nodes, "</" ++ closing))
        (match parse_text text, all_some (map build children) with
         | Some t, Some kids => Some (t ++ kids)%list
         | _, _ => None
         end).
Proof.
  intros Hall Hwn fuel closing Hf.
  assert (Hkids : forall f, content_size children <= f ->
            parse_content f
              (String.concat "" (map ET.serialize_xml children)
               ++ "</" ++ closing)
            = option_map (fun nodes => (nodes, "</" ++ closing))
                (all_some (map build children)))
    by (intros f Hle; now apply parse_children_ok).
  destruct text as [[|c t]|].
  - change (ET._escape_cdata "") with "". cbn [append].
    rewrite Hkids by lia. cbn [parse_text].
    change (Expat.chardata (ET._escape_cdata "")) with (Some "").
    cbv iota. destruct (all_some (map build children)); reflexivity.
  - rewrite append_assoc, parse_text_nodes.
    destruct (escape_cdata_head c t) as [d [tail [E Hd]]].
    destruct (children_text_head children closing Hwn) as [ktail Ek].
    destruct fuel as [|fuel]; [lia|].
    pose proof (escape_cdata_no_lt (String c t)) as Hno.
    pose proof (Hkids fuel ltac:(lia)) as Hk.
    rewrite Ek in *. rewrite E in *.
    cbn [append parse_content]. rewrite Hd.
    change (String d (tail ++ String "<" ktail))
      with (String d tail ++ String "<" ktail).
    unfold take_until. rewrite take_while_app; [| exact Hno | reflexivity].
    destruct (Expat.chardata (String d tail)) as [data|]; [|reflexivity].
    rewrite Hk. cbn [option_map].
    destruct (all_some (map build children)); reflexivity.
  - cbn [append]. rewrite Hkids by lia. cbn [parse_text].
    destruct (all_some (map build children)); reflexivity.
Qed.

Lemma length_append (a b : string) :
  String.length (a ++ b) = String.length a + String.length b.
Proof. induction a as [|c a IH]; simpl; [reflexivity | now rewrite IH]. Qed.

Lemma attributes_length (attrib : list (string * string)) (rest : string) :
  List.length attrib
  <= String.length
       (String.concat "" (map ET.serialize_attrib attrib) ++ rest).
Proof.
  induction attrib as [|kv attrib IH]; [apply Nat.le_0_l|].
  cbn [map List.length]. rewrite concat_cons, append_assoc, length_append.
  unfold ET.serialize_attrib at 1. cbn [append String.length]. lia.
Qed.

Lemma attributes_stop (attrib : list (string * string)) (rest : string) :
  tag_end rest ->
  stops name_char
    (String.concat "" (map ET.serialize_attrib attrib) ++ rest).
Proof.
  intros Hrest. destruct attrib as [|kv attrib].
  - destruct Hrest as [[r ->] | [r ->]]; reflexivity.
  - cbn [map]. rewrite concat_cons. reflexivity.
Qed.

(** The start tag: the name and the attributes. *)
Lemma parse_start_tag (fuel : nat) (tag : string)
  (attrib : list (string * string)) (rest : string) :
  xml_name tag = true -> named_attrib attrib = true -> tag_end rest ->
  parse_element (S fuel)
    (tag ++ String.concat "" (map ET.serialize_attrib attrib) ++ rest)
  = match all_some (map parse_attrib attrib) with
    | Some attrs =>
        match skip_spaces rest with
        | String "/" (String ">" rest') => Some (Element tag attrs [], rest')
        | String ">" s3 =>
            match parse_content fuel s3 with
            | Some (nodes, String "<" (String "/" s4)) =>
                let (closing, s5) := take_while name_char s4 in
                if closing =? tag then
                  match skip_spaces s5 with
                  | String ">" rest' => Some (Element tag attrs nodes, rest')
                  | _ => None
                  end
                else None
            | _ => None
            end
        | _ => None
        end
    | None => None
    end.
Proof.
  intros Ht Ha Hrest. cbn [parse_element].
  rewrite take_while_app;
    [| now apply xml_name_chars | now apply attributes_stop].
  rewrite Ht.
  rewrite parse_attributes_ok;
    [| assumption | pose proof (attributes_length attrib rest); lia
     | assumption].
  destruct (all_some (map parse_attrib attrib)); reflexivity.
Qed.

Lemma long_form_assoc (tag attrs txt kids rest : string) :
  ("<" ++ tag ++ attrs ++ ">" ++ (txt ++ kids) ++ "</" ++ tag ++ ">") ++ rest
  = String "<"
      (tag ++ attrs ++ String ">" (txt ++ kids ++ "</" ++ tag ++ ">" ++ rest)).
Proof.
  cbn [append]. f_equal. rewrite !append_assoc. do 2 f_equal.
  cbn [append]. f_equal. rewrite !append_assoc. do 2 f_equal.
  cbn [append]. do 2 f_equal. now rewrite append_assoc.
Qed.

Lemma short_form_assoc (tag attrs rest : string) :
  ("<" ++ tag ++ attrs ++ " />") ++ rest
  = String "<" (tag ++ attrs ++ " />" ++ rest).
Proof. cbn [append]. f_equal. now rewrite !append_assoc. Qed.

Theorem serialized_reads_back (e : ET.Element) : reads_back e.
Proof.
  induction e as [tag attrib text children IH] using Element_ind'.
  intros Hwn fuel rest Hf. cbn [well_named] in Hwn.
  rewrite !andb_true_iff in Hwn. destruct Hwn as [[Ht Ha] Hcs].
  cbn [size] in Hf. destruct fuel as [|fuel]; [lia|].
  assert (Hbody : forall closing,
            parse_content fuel
              ((match text with Some t => ET._escape_cdata t | None => "" end
                ++ String.concat "" (map ET.serialize_xml children))
               ++ "</" ++ closing)
            = option_map (fun nodes => (nodes, "</" ++ closing))
                (match parse_text text, all_some (map build children) with
                 | Some t, Some kids => Some (t ++ kids)%list
                 | _, _ => None
                 end)).
  { intros closing. apply parse_body_ok; auto. unfold content_size. lia. }
  assert (Hclose : take_while name_char (tag ++ ">" ++ rest)
                   = (tag, ">" ++ rest))
    by (apply take_while_app; [now apply xml_name_chars | reflexivity]).
  cbn [build]. rewrite Ht.
  set (txt := match text with Some t => ET._escape_cdata t | None => "" end)
    in *.
  set (kids := String.concat "" (map ET.serialize_xml children)) in *.
  set (attrs_text := String.concat "" (map ET.serialize_attrib attrib)).
  assert (Hlong :
    parse_node (S fuel)
      (String "<"
         (tag ++ attrs_text
          ++ String ">" (txt ++ kids ++ "</" ++ tag ++ ">" ++ rest)))
    = option_map (fun node => (node, rest))
        (match all_some (map parse_attrib attrib), parse_text text,
               all_some (map build children) with
         | Some attrs, Some t, Some kids =>
             Some (Element tag attrs (t ++ kids)%list)
         | _, _, _ => None
         end)).
  { cbn [parse_node]. change (Ascii.eqb "<" "<") with true. cbv iota.
    unfold attrs_text.
    rewrite parse_start_tag; [| assumption | assumption | right; eexists; reflexivity].
    destruct (all_some (map parse_attrib attrib)) as [attrs|];
      [|reflexivity].
    change (skip_spaces
              (String ">" (txt ++ kids ++ "</" ++ tag ++ ">" ++ rest)))
      with (String ">" (txt ++ kids ++ "</" ++ tag ++ ">" ++ rest)).
    cbv iota.
    rewrite <- (append_assoc txt kids), Hbody.
    destruct (parse_text text) as [t|]; [|reflexivity].
    destruct (all_some (map build children)) as [nodes|]; [|reflexivity].
    cbn [option_map append]. cbn [append] in Hclose. rewrite Hclose.
    rewrite String.eqb_refl. reflexivity. }
  assert (Hshort :
    parse_node (S fuel) (String "<" (tag ++ attrs_text ++ " />" ++ rest))
    = option_map (fun node => (node, rest))
        (match all_some (map parse_attrib attrib) with
         | Some attrs => Some (Element tag attrs [])
         | None => None
         end)).
  { cbn [parse_node]. change (Ascii.eqb "<" "<") with true. cbv iota.
    unfold attrs_text.
    rewrite parse_start_tag; [| assumption | assumption | left; eexists; reflexivity].
    destruct (all_some (map parse_attrib attrib)); reflexivity. }
  destruct text as [[|c t]|]; destruct children as [|child children];
    cbn [ET.serialize_xml]; fold attrs_text; fold kids;
    try (rewrite long_form_assoc; exact Hlong).
  - rewrite short_form_assoc, Hshort.
    destruct (all_some (map parse_attrib attrib)); reflexivity.
  - rewrite short_form_assoc, Hshort.
    destruct (all_some (map parse_attrib attrib)); reflexivity.
Qed.

Lemma length_concat (l : list string) :
  String.length (String.concat "" l) = list_sum (map String.length l).
Proof.
  induction l as [|x l IH]; [reflexivity|].
  rewrite concat_cons, length_append, IH. reflexivity.
Qed.

(** The serialization of a tree is long enough to be its own fuel. *)
Lemma size_le_length (e : ET.Element) :
  S (size e) <= String.length (ET.serialize_xml e).
Proof.
  induction e as [tag attrib text children IH] using Element_ind'.
  assert (Hkids :
    list_sum (map (fun child => S (size child)) children)
    <= String.length (String.concat "" (map ET.serialize_xml children))).
  { rewrite length_concat. induction IH as [|child children Hc _ IHl].
    - apply Nat.le_refl.
    - cbn [map]. 
      change (list_sum (S (size child)
                        :: map (fun k => S (size k)) children))
        with (S (size child) + list_sum (map (fun k => S (size k)) children)).
      change (list_sum (String.length (ET.serialize_xml child)
                        :: map String.length (map ET.serialize_xml children)))
        with (String.length (ET.serialize_xml child)
              + list_sum (map String.length (map ET.serialize_xml children))).
      lia. }
  cbn [size ET.serialize_xml].
  set (n := list_sum (map (fun child => S (size child)) children)) in *.
  set (kids := String.concat "" (map ET.serialize_xml children)) in *.
  assert (H0 : children = [] -> n = 0) by (intros ->; reflexivity).
  clearbody n kids. clear IH.
  destruct text as [[|c t]|]; destruct children as [|child children];
    repeat (rewrite length_append || cbn [String.length]);
    try lia; specialize (H0 eq_refl); lia.
Qed.

(** The parser reads from the text of a tree the document of the
    tree. *)
Lemma parseString_declared (s : string) :
  parseString
    ("<?xml version='1.0' encoding='utf-8'?>" ++ String LF (String "<" s))
  = match parse_element (String.length s) s with
    | Some (root, rest) =>
        match skip_spaces rest with
        | EmptyString => Some root
        | _ => None
        end
    | None => None
    end.
Proof. reflexivity. Qed.

Theorem parseString_tostring (e : ET.Element) (text : string) :
  well_named e = true ->
  ET.tostring e = inr text -> parseString text = build e.
Proof.
  intros Hwn. unfold ET.tostring.
  destruct (forallb utf8_valid (ET.strings_of e)); [|discriminate].
  intros H. injection H as <-.
  destruct (serialize_xml_head e Hwn) as [c [tail [E Hc]]].
  pose proof (serialized_reads_back e Hwn (String.length (String c tail)) "")
    as Hread.
  pose proof (size_le_length e) as Hsize.
  rewrite append_nil_r, E in Hread. rewrite E in Hsize.
  rewrite E.
  change (parseString
            ("<?xml version='1.0' encoding='utf-8'?>"
             ++ String LF (String "<" (String c tail))) = build e).
  rewrite parseString_declared.
  cbn [parse_node] in Hread. change (Ascii.eqb "<" "<") with true in Hread.
  cbv iota in Hread. rewrite Hread by (cbn [String.length] in *; lia).
  destruct (build e); reflexivity.
Qed.

End ParserCorrect.

Lemma prettify_xml_build (e : ET.Element) :
  ParserCorrect.well_named e = true ->
  prettify_xml e
  = match ET.tostring e with
    | inl err => inl err
    | inr _ =>
        match Minidom.build e with
        | Some root => inr (Minidom.toprettyxml "  " root)
        | None => inl ExpatError
        end
    end.
Proof.
  intros Hwn. unfold prettify_xml.
  destruct (ET.tostring e) as [err | text] eqn:E; [reflexivity|].
  now rewrite (ParserCorrect.parseString_tostring e text Hwn E).
Qed.

(** * Line ends *)

Section LineEnds.

Fixpoint no_cr (s : string) : bool :=
  match s with
  | EmptyString => true
  | String c s' => negb (Ascii.eqb c CR) && no_cr s'
  end.

Lemma universal_newlines_no_cr (s : string) :
  no_cr (universal_newlines s) = true.
Proof.
  induction s as [|c s IH]; [reflexivity|].
  cbn [universal_newlines].
  destruct (Ascii.eqb_spec c CR) as [-> | Hc].
  - destruct s as [|d s]; [reflexivity|].
    destruct (Ascii.eqb d LF); [exact IH|].
    cbn [no_cr]. now rewrite IH.
  - cbn [no_cr]. rewrite IH, andb_true_r.
    apply negb_true_iff. now apply Ascii.eqb_neq.
Qed.

Lemma universal_newlines_id (s : string) :
  no_cr s = true -> universal_newlines s = s.
Proof.
  induction s as [|c s IH]; [reflexivity|].
  cbn [no_cr universal_newlines]. intros H.
  apply andb_true_iff in H. destruct H as [Hc Hs].
  apply negb_true_iff in Hc. rewrite Hc. now rewrite IH.
Qed.

(** Reading in text mode leaves no CR, so what was read is not changed
    by a second normalization of the line ends. *)
Lemma read_text_normalized (fs : FileSystem) (p : Path) (content : string) :
  read_text fs p = inr content -> universal_newlines content = content.
Proof.
  unfold read_text. destruct (read_bytes fs p) as [bytes|]; [|discriminate].
  destruct (utf8_valid bytes); [|discriminate].
  intros H. injection H as <-.
  apply universal_newlines_id, universal_newlines_no_cr.
Qed.

(** The round trip of a content that was read from a file: the text
    itself when every character is allowed in XML, a failure
    otherwise. *)
Theorem content_round_trip_spec (fs : FileSystem) (p : Path)
  (content : string) :
  read_text fs p = inr content ->
  content_round_trip content
  = if Expat.xml_text content then Some content else None.
Proof.
  intros H. apply read_text_normalized in H.
  unfold content_round_trip.
  rewrite Escaping.chardata_escape_cdata.
  destruct (Expat.xml_text content) eqn:Hx; [|reflexivity].
  rewrite H, Escaping.chardata_write_data, Hx, H. reflexivity.
Qed.

End LineEnds.

(** * Rendering *)

Section Rendering.

(** The tags and the attribute names of the document are names. *)
Lemma entries_well_named (fs : FileSystem) (root_dir : string)
  (files : list Path) :
  forallb ParserCorrect.well_named (flat_map (entries_for fs root_dir) files)
  = true.
Proof.
  induction files as [|p files IH]; [reflexivity|].
  cbn [flat_map]. rewrite forallb_app, IH, andb_true_r.
  unfold entries_for. destruct (read_text fs p); [reflexivity|].
  destruct (relative_to p (of_str root_dir)); reflexivity.
Qed.

Lemma document_well_named (fs : FileSystem) (root_dir : string)
  (files : list Path) :
  forallb ParserCorrect.well_named
    [ Elem "metadata" [] None
        [ Elem "total_files" [] (Some (PyStr.of_nat (List.length files))) [];
          Elem "root_directory" [] (Some root_dir) [] ];
      Elem "files" [] None (flat_map (entries_for fs root_dir) files) ]
  = true.
Proof.
  cbn [forallb ParserCorrect.well_named].
  rewrite entries_well_named. reflexivity.
Qed.

Import Escaping.

(** The characters of a timestamp are ordinary for every function of
    the pipeline. *)
Lemma isoformat_char_plain (c : ascii) :
  isoformat_char c = true ->
  (nat_of_ascii c <=? 127)%nat = true
  /\ ET._escape_attrib (String c "") = String c ""
  /\ Minidom._write_data (String c "") = String c ""
  /\ forall continue k,
       Expat.plain Expat.AttValue continue c k
       = Expat.emit c (continue (Expat.Plain 0)).
Proof.
  destruct c as [[|] [|] [|] [|] [|] [|] [|] [|]]; intros H;
    try discriminate H; repeat split.
Qed.

Lemma isoformat_utf8 (s : string) :
  isoformat_text s = true -> utf8_valid s = true.
Proof.
  unfold isoformat_text, utf8_valid.
  induction s as [|c s IH]; [reflexivity|].
  cbn [list_ascii_of_string forallb utf8_scan]. intros H.
  apply andb_true_iff in H. destruct H as [Hc Hs].
  apply isoformat_char_plain in Hc. destruct Hc as [Hc _].
  rewrite Hc. now apply IH.
Qed.

Lemma isoformat_write_data (s : string) :
  isoformat_text s = true -> Minidom._write_data s = s.
Proof.
  unfold isoformat_text.
  induction s as [|c s IH]; [reflexivity|].
  cbn [list_ascii_of_string forallb]. intros H.
  apply andb_true_iff in H. destruct H as [Hc Hs].
  apply isoformat_char_plain in Hc. destruct Hc as (_ & _ & Hc & _).
  rewrite (charwise_cons _ c s write_data_charwise), Hc, (IH Hs).
  reflexivity.
Qed.

Lemma isoformat_attvalue (s : string) :
  isoformat_text s = true ->
  forall k,
    Expat.scan Expat.AttValue (Expat.Plain k) (ET._escape_attrib s) = Some s.
Proof.
  unfold isoformat_text.
  induction s as [|c s IH]; [reflexivity|].
  cbn [list_ascii_of_string forallb]. intros H k.
  apply andb_true_iff in H. destruct H as [Hc Hs].
  apply isoformat_char_plain in Hc. destruct Hc as (_ & Hc & _ & Hp).
  rewrite (charwise_cons _ c s escape_attrib_charwise), Hc.
  change (String c "" ++ ET._escape_attrib s)
    with (String c (ET._escape_attrib s)).
  cbn [Expat.scan]. rewrite Hp, (IH Hs). reflexivity.
Qed.

(** The part of the rendered document before the timestamp
    attribute, for the project name as the parser read it back, and
    the part after it, for the child nodes of the root. *)
Definition document_before (project : string) : string :=
  "<?xml version=" ++ ET.quoted "1.0" ++ " encoding=" ++ ET.quoted "utf-8"
  ++ "?>" ++ String LF ("<codebase project="
                        ++ ET.quoted (Minidom._write_data project)).

Definition document_after (nodes : list Minidom.Node) : string :=
  match nodes with
  | [] => "/>" ++ String LF ""
  | [Minidom.Text data] =>
      ">" ++ Minidom._write_data data ++ "</codebase>" ++ String LF ""
  | _ =>
      ">" ++ String LF
        (String.concat ""
           (map (Minidom.writexml "  " "  " (String LF "")) nodes)
         ++ "</codebase>" ++ String LF "")
  end.

(** What [prettify_xml] makes of the root element, but for the
    timestamp. *)
Definition rendering (project : string) (kids : list Element)
  : Error + (string * string) :=
  if utf8_valid project && forallb utf8_valid (flat_map ET.strings_of kids)
  then
    match Expat.attvalue (ET._escape_attrib project),
          Minidom.all_some (map Minidom.build kids) with
    | Some project', Some nodes =>
        inr (document_before project', document_after nodes)
    | _, _ => inl ExpatError
    end
  else inl UnicodeEncodeError.

Lemma prettify_xml_root (project now : string) (kids : list Element) :
  isoformat_text now = true ->
  forallb ParserCorrect.well_named kids = true ->
  prettify_xml
    (Elem "codebase" [("project", project); ("timestamp", now)] None kids)
  = match rendering project kids with
    | inl err => inl err
    | inr (before, after) =>
        inr (before ++ " timestamp=" ++ ET.quoted now ++ after)
    end.
Proof.
  intros Hnow Hkids.
  rewrite prettify_xml_build
    by (cbn [ParserCorrect.well_named]; now rewrite Hkids).
  unfold rendering, ET.tostring. cbn [ET.strings_of flat_map fst snd app forallb].
  rewrite (isoformat_utf8 now Hnow).
  change (utf8_valid "codebase") with true.
  change (utf8_valid "project") with true.
  change (utf8_valid "timestamp") with true.
  cbn [andb].
  destruct (utf8_valid project && forallb utf8_valid (flat_map strings_of kids));
    [|reflexivity].
  cbn [Minidom.build map Minidom.all_some].
  change (Minidom.xml_name "codebase") with true. cbv iota.
  unfold Minidom.parse_attrib at 2. cbn [fst snd].
  change (Minidom.xml_name "timestamp") with true. cbv iota.
  unfold Expat.attvalue at 1. rewrite (isoformat_attvalue now Hnow).
  unfold Minidom.parse_attrib. cbn [fst snd].
  change (Minidom.xml_name "project") with true. cbv iota.
  destruct (Expat.attvalue (_escape_attrib project)) as [project'|];
    [|reflexivity].
  cbn [option_map Minidom.parse_text].
  destruct (Minidom.all_some (map Minidom.build kids)) as [nodes|];
    [|reflexivity].
  cbn [app]. f_equal.
  unfold Minidom.toprettyxml, document_before, document_after.
  cbn [Minidom.writexml map String.concat].
  unfold Minidom.write_attribute. cbn [fst snd].
  rewrite (isoformat_write_data now Hnow).
  destruct nodes as [|[data | tagName attributes childNodes] [|node nodes]];
    cbn; rewrite ?append_assoc; cbn; rewrite ?append_assoc; reflexivity.
Qed.

End Rendering.

(** * The claims on the serializer and the driver *)

Section SerializerClaims.

(** One run of the serialization pipeline at the time [now]: the
    rendered text, or the error raised, and what was printed. *)
Definition run (fs : FileSystem) (files : list Path) (root_dir now : string)
  : (Error + string) * list Event :=
  let (root, out) := create_xml_structure fs now files root_dir in
  (prettify_xml root, out).

(** C9. Two runs over the same list of files with the same contents,
    at two times, print the same and end alike: either both raise the
    same error, or both render a text, and the two texts are equal
    but for the value of the timestamp attribute. *)
Theorem runs_differ_only_in_timestamp (fs : FileSystem) (files : list Path)
  (root_dir now1 now2 : string) :
  isoformat_text now1 = true -> isoformat_text now2 = true ->
  snd (run fs files root_dir now1) = snd (run fs files root_dir now2)
  /\ match fst (run fs files root_dir now1),
           fst (run fs files root_dir now2) with
     | inr text1, inr text2 =>
         exists before after,
           text1 = before ++ " timestamp=" ++ ET.quoted now1 ++ after
           /\ text2 = before ++ " timestamp=" ++ ET.quoted now2 ++ after
     | inl e1, inl e2 => e1 = e2
     | _, _ => False
     end.
Proof.
  intros H1 H2. unfold run. rewrite !create_xml_structure_spec.
  cbn [fst snd]. split; [reflexivity|].
  rewrite !prettify_xml_root by (assumption || apply document_well_named).
  destruct (rendering _ _) as [err | [before after]]; [reflexivity|].
  now exists before, after.
Qed.

Lemma runs_differ_only_in_timestamp_witness :
  snd (run scenario_tree [of_str "src/a.ts"] "."
         "2024-05-01T10:00:00.000001")
  = snd (run scenario_tree [of_str "src/a.ts"] "."
           "2025-01-31T23:59:59")
  /\ match fst (run scenario_tree [of_str "src/a.ts"] "."
                  "2024-05-01T10:00:00.000001"),
           fst (run scenario_tree [of_str "src/a.ts"] "."
                  "2025-01-31T23:59:59") with
     | inr text1, inr text2 =>
         exists before after,
           text1 = before ++ " timestamp="
                   ++ ET.quoted "2024-05-01T10:00:00.000001" ++ after
           /\ text2 = before ++ " timestamp="
                      ++ ET.quoted "2025-01-31T23:59:59" ++ after
     | inl e1, inl e2 => e1 = e2
     | _, _ => False
     end.
Proof.
  apply (runs_differ_only_in_timestamp scenario_tree [of_str "src/a.ts"] "."
           "2024-05-01T10:00:00.000001" "2025-01-31T23:59:59");
    reflexivity.
Defined.


(** C1. A file with a form feed is read and put into the document,
    and then rendering raises: the serializer writes the control
    character as it is and the parser refuses it, so the run ends
    with the error and writes nothing.  And of a file with CR LF line
    ends the document holds the text with LF line ends, not the bytes
    of the file. *)
Theorem form_feed_breaks_rendering :
  let files := [of_str "proj/page.ts"] in
  let root := fst (create_xml_structure form_feed_tree "T" files "proj") in
  let args :=
    {| directory := "proj"; output := "codebase.xml"; extensions := [".ts"];
       include_node_modules := false; include_git := false;
       include_tests := false; include_config := false; ignore := [] |} in
  read_bytes form_feed_tree (of_str "proj/page.ts") = Some form_feed
  /\ map content_of (file_elements root) = [Some form_feed]
  /\ prettify_xml root = inl ExpatError
  /\ content_round_trip form_feed = None
  /\ main form_feed_tree "T" args
     = ([ PrintBanner "proj" [".ts"] (effective_ignore_patterns args)
            false false;
          PrintFound 1; PrintAdded (of_str "page.ts") ],
        Raised ExpatError)
  /\ map content_of
       (file_elements
          (fst (create_xml_structure crlf_tree "T" [of_str "proj/w.ts"]
                  "proj")))
     = [Some ("a;" ++ String LF "b;")]
  /\ read_bytes crlf_tree (of_str "proj/w.ts")
     = Some ("a;" ++ String CR (String LF "b;")).
Proof. vm_compute. repeat split. Qed.

(** A content with markup characters comes back from the rendered
    text as it was read, by the parser run on the text. *)
Example markup_round_trip :
  rendered_contents
    (fst (run unreadable_tree [of_str "proj/a.ts"; of_str "proj/b.ts"]
            "proj" "2024-05-01T10:00:00"))
  = Some ["a < b && b > c"].
Proof. vm_compute. reflexivity. Qed.

(** Every content with a character that XML does not allow does the
    same, whatever the other files are. *)
Lemma all_some_None {A : Type} (l : list (option A)) :
  In None l -> Minidom.all_some l = None.
Proof.
  induction l as [|[x|] l IH]; simpl; [intros [] | | reflexivity].
  intros [H | H]; [discriminate|]. now rewrite IH.
Qed.

Lemma build_child_None (tag : string) (attrib : list (string * string))
  (text : option string) (children : list Element) (child : Element) :
  In child children -> Minidom.build child = None ->
  Minidom.build (Elem tag attrib text children) = None.
Proof.
  intros Hin Hnone. cbn [Minidom.build].
  destruct (Minidom.xml_name tag); [|reflexivity].
  rewrite (all_some_None (map Minidom.build children)).
  - destruct (Minidom.all_some _); [destruct (Minidom.parse_text _)|];
      reflexivity.
  - rewrite <- Hnone. now apply in_map.
Qed.

Lemma illegal_content_breaks_rendering (fs : FileSystem) (now : string)
  (files : list Path) (root_dir : string) (p relative_path : Path)
  (content : string) :
  In p files -> read_text fs p = inr content ->
  relative_to p (of_str root_dir) = Some relative_path ->
  Expat.xml_text content = false ->
  exists err,
    prettify_xml (fst (create_xml_structure fs now files root_dir)) = inl err.
Proof.
  intros Hin Hread Hrel Hbad. rewrite create_xml_structure_spec. cbn [fst].
  rewrite prettify_xml_build
    by (cbn [ParserCorrect.well_named]; now rewrite document_well_named).
  destruct (ET.tostring _) as [err | text]; [now exists err|].
  exists ExpatError.
  rewrite (build_child_None _ _ _ _
             (Elem "files" [] None (flat_map (entries_for fs root_dir) files)));
    [reflexivity | right; now left |].
  apply build_child_None with (file_entry relative_path p content).
  - apply in_flat_map. exists p. split; [assumption|].
    unfold entries_for. rewrite Hread, Hrel. now left.
  - apply build_child_None with (text_element "content" content).
    + now left.
    + cbn [Minidom.build text_element].
      change (Minidom.xml_name "content") with true. cbv iota.
      cbn [map Minidom.all_some Minidom.parse_text].
      rewrite Escaping.chardata_escape_cdata, Hbad. reflexivity.
Qed.

End SerializerClaims.

Section DriverClaims.

(** C8. When the collector returns no path, [main] prints the
    warning after the summary of the configuration and returns: no
    file is read, nothing is rendered, nothing is written. *)
Theorem main_no_files (fs : FileSystem) (now : string) (args : Args) :
  collect_files fs (directory args) (extensions args)
    (effective_ignore_patterns args) (include_tests args)
    (include_config args) = [] ->
  main fs now args
  = ([ PrintBanner (directory args) (extensions args)
         (effective_ignore_patterns args) (include_tests args)
         (include_config args);
       PrintNoFiles ],
     Returned).
Proof. intros H. unfold main. rewrite H. reflexivity. Qed.

(** The scenario of the specification: the extra pattern [src/a]
    leaves nothing to pack. *)
Definition scenario_args : Args :=
  {| directory := "."; output := "codebase.xml"; extensions := [".ts"];
     include_node_modules := false; include_git := false;
     include_tests := false; include_config := false; ignore := ["src/a"] |}.

Lemma main_no_files_witness :
  main scenario_tree "2024-05-01T10:00:00" scenario_args
  = ([ PrintBanner "." [".ts"] (effective_ignore_patterns scenario_args)
         false false;
       PrintNoFiles ],
     Returned).
Proof.
  apply (main_no_files scenario_tree "2024-05-01T10:00:00" scenario_args).
  reflexivity.
Defined.

End DriverClaims.

(** * Further properties of the matcher *)

Section MatcherMore.

(** X1. [should_ignore] is true exactly when one of the patterns
    occurs somewhere in the string of the path: matching is by
    substring, on the whole path and not on its parts. *)
Theorem should_ignore_iff (file_path : Path) (ignore_patterns : list string) :
  should_ignore file_path ignore_patterns = true <->
  exists pattern pre post,
    In pattern ignore_patterns /\ to_str file_path = pre ++ pattern ++ post.
Proof.
  unfold should_ignore. rewrite existsb_exists. split.
  - intros [pattern [Hin H]]. apply PyStrFacts.contains_iff in H.
    destruct H as [pre [post H]]. now exists pattern, pre, post.
  - intros [pattern [pre [post [Hin H]]]]. exists pattern.
    split; [assumption|]. apply PyStrFacts.contains_iff. now exists pre, post.
Qed.

Lemma lower_last (ws : list string) :
  PyStr.lower (last ws "") = last (map PyStr.lower ws) "".
Proof.
  induction ws as [|w ws IH]; [reflexivity|].
  destruct ws as [|w' ws]; [reflexivity|]. exact IH.
Qed.

Lemma existsb_lowered (test : string -> bool) (ws : list string) :
  existsb test (map PyStr.lower ws)
  = existsb (fun w => test (PyStr.lower w)) ws.
Proof.
  induction ws as [|w ws IH]; cbn [map existsb]; [|rewrite IH]; reflexivity.
Qed.

(** X2. The two classifications do not look at the case of letters:
    two paths with the same anchor whose segments are equal once
    lowercased are classified alike. *)
Theorem classification_ignores_case (p q : Path) :
  anchor p = anchor q ->
  map PyStr.lower (segs p) = map PyStr.lower (segs q) ->
  is_test_file p = is_test_file q /\ is_config_file p = is_config_file q.
Proof.
  intros Ha Hs.
  assert (Hname : PyStr.lower (name p) = PyStr.lower (name q))
    by (unfold name; now rewrite !lower_last, Hs).
  assert (Hparts : map PyStr.lower (parts p) = map PyStr.lower (parts q)).
  { unfold parts. rewrite Ha. destruct (anchor q =? ""); [assumption|].
    cbn [map]. now rewrite Hs. }
  split.
  - unfold is_test_file. rewrite Hname.
    rewrite <- (existsb_lowered (fun w => mem w TEST_DIR_NAMES)).
    rewrite <- (existsb_lowered (fun w => mem w TEST_DIR_NAMES) (parts q)).
    now rewrite Hparts.
  - unfold is_config_file. now rewrite Hname.
Qed.

Lemma classification_ignores_case_witness :
  is_test_file (of_str "Src/A.Test.TS") = is_test_file (of_str "src/a.test.ts")
  /\ is_config_file (of_str "Src/A.Test.TS")
     = is_config_file (of_str "src/a.test.ts").
Proof.
  apply (classification_ignores_case (of_str "Src/A.Test.TS")
           (of_str "src/a.test.ts")); reflexivity.
Defined.

End MatcherMore.

(** * Further properties of the collector *)

Section CollectorMore.

Import Order.

Lemma selected_iff (fs : FileSystem) (ignore_patterns : list string)
  (include_tests include_config : bool) (p : Path) :
  selected fs ignore_patterns include_tests include_config p = true <->
  is_file fs p = true /\ should_ignore p ignore_patterns = false
  /\ (include_tests = true \/ is_test_file p = false)
  /\ (include_config = true \/ is_config_file p = false).
Proof.
  unfold selected.
  destruct (is_file fs p), (should_ignore p ignore_patterns), include_tests,
    include_config, (is_test_file p), (is_config_file p); simpl;
    intuition congruence.
Qed.

Lemma collect_files_In (fs : FileSystem) (root_dir : string)
  (extensions ignore_patterns : list string)
  (include_tests include_config : bool) (p : Path) :
  In p (collect_files fs root_dir extensions ignore_patterns include_tests
          include_config)
  <-> exists ext,
        In ext extensions
        /\ In p (rglob fs (of_str root_dir) ("*" ++ ext))
        /\ selected fs ignore_patterns include_tests include_config p = true.
Proof.
  unfold collect_files. split.
  - intros H. apply (Permutation_in _ (sorted_perm _)) in H.
    unfold accumulate in H. apply in_flat_map in H.
    destruct H as [ext [He H]]. apply filter_In in H. now exists ext.
  - intros [ext [He [Hg Hs]]].
    apply (Permutation_in _ (Permutation_sym (sorted_perm _))).
    unfold accumulate. apply in_flat_map. exists ext. split; [assumption|].
    now apply filter_In.
Qed.

(** X3. A path is returned by [collect_files] exactly when the
    traversal yields it for one of the requested extensions and it is
    a regular file, holds none of the ignore patterns, and is neither
    a test file nor a configuration file unless those are included. *)
Theorem collect_files_membership (fs : FileSystem) (root_dir : string)
  (extensions ignore_patterns : list string)
  (include_tests include_config : bool) (p : Path) :
  In p (collect_files fs root_dir extensions ignore_patterns include_tests
          include_config)
  <-> (exists ext,
          In ext extensions
          /\ In p (rglob fs (of_str root_dir) ("*" ++ ext)))
      /\ is_file fs p = true
      /\ should_ignore p ignore_patterns = false
      /\ (include_tests = true \/ is_test_file p = false)
      /\ (include_config = true \/ is_config_file p = false).
Proof.
  rewrite collect_files_In. split.
  - intros [ext [He [Hg Hs]]]. apply selected_iff in Hs.
    split; [now exists ext | exact Hs].
  - intros [[ext [He Hg]] Hs]. exists ext. repeat split; try assumption.
    now apply selected_iff.
Qed.

(** X4. Without [include_config] no returned path is a configuration
    file; with it a configuration file can be returned. *)
Theorem collect_files_excludes_config :
  (forall (fs : FileSystem) (root_dir : string)
          (extensions ignore_patterns : list string) (include_tests : bool),
      Forall (fun p => is_config_file p = false)
        (collect_files fs root_dir extensions ignore_patterns include_tests
           false))
  /\ (exists (fs : FileSystem) (root_dir : string)
             (extensions ignore_patterns : list string)
             (include_tests : bool) (p : Path),
         In p (collect_files fs root_dir extensions ignore_patterns
                 include_tests true)
         /\ is_config_file p = true).
Proof.
  split.
  - intros fs root_dir extensions ignore_patterns include_tests.
    apply Forall_forall. intros p Hp. apply collect_files_In in Hp.
    destruct Hp as [ext [_ [_ Hs]]]. apply selected_iff in Hs.
    destruct Hs as (_ & _ & _ & [H | H]); [discriminate | exact H].
  - exists (fs_of_listing [(of_str "package.json", Some "{}")]), ".",
      [".json"], [], false, (of_str "package.json").
    split; vm_compute; auto.
Qed.

(** X5. More ignore patterns and fewer inclusions never add a path:
    what is returned under the stricter options is returned under the
    laxer ones. *)
Theorem collect_files_monotone (fs : FileSystem) (root_dir : string)
  (extensions strict lax : list string)
  (include_tests include_tests' include_config include_config' : bool) :
  incl lax strict ->
  implb include_tests include_tests' = true ->
  implb include_config include_config' = true ->
  incl
    (collect_files fs root_dir extensions strict include_tests
       include_config)
    (collect_files fs root_dir extensions lax include_tests'
       include_config').
Proof.
  intros Hpat Ht Hc p Hp. apply collect_files_In in Hp.
  apply collect_files_In. destruct Hp as [ext [He [Hg Hs]]].
  exists ext. repeat split; try assumption.
  apply selected_iff in Hs. apply selected_iff.
  destruct Hs as (Hf & Hi & Htest & Hconf). repeat split.
  - exact Hf.
  - destruct (should_ignore p lax) eqn:E; [|reflexivity].
    unfold should_ignore in *. apply existsb_exists in E.
    destruct E as [pat [Hin Hpatp]].
    assert (existsb (fun pattern => PyStr.contains pattern (to_str p)) strict
            = true) by (apply existsb_exists; exists pat; auto).
    congruence.
  - destruct Htest as [-> | H]; [left | now right].
    now destruct include_tests'.
  - destruct Hconf as [-> | H]; [left | now right].
    now destruct include_config'.
Qed.

Lemma collect_files_monotone_witness :
  incl
    (collect_files scenario_tree "." [".ts"]
       (effective_ignore_patterns default_args ++ ["src/a"]) false false)
    (collect_files scenario_tree "." [".ts"]
       (effective_ignore_patterns default_args) true true).
Proof.
  apply (collect_files_monotone scenario_tree "." [".ts"]
           (effective_ignore_patterns default_args ++ ["src/a"])
           (effective_ignore_patterns default_args) false true false true).
  - intros pat H. vm_compute in H |- *. tauto.
  - reflexivity.
  - reflexivity.
Defined.

(** Two sorted arrangements of the same paths are equal when the
    order tells the paths apart. *)
Lemma sorted_unique (l1 l2 : list Path) :
  StronglySorted path_le l1 -> StronglySorted path_le l2 ->
  Permutation l1 l2 ->
  (forall p q, In p l1 -> In q l1 -> path_le p q -> path_le q p -> p = q) ->
  l1 = l2.
Proof.
  intros H1. revert l2.
  induction H1 as [|a l1 Hs1 IH Ha]; intros l2 H2 Hperm Hanti.
  - apply Permutation_nil in Hperm. now subst.
  - destruct H2 as [|b l2 Hs2 Hb].
    + apply Permutation_sym, Permutation_nil in Hperm. discriminate.
    + assert (Hab : a = b).
      { rewrite Forall_forall in Ha, Hb.
        assert (Hbin : In b (a :: l1))
          by (apply (Permutation_in _ (Permutation_sym Hperm)); now left).
        assert (Hain : In a (b :: l2))
          by (apply (Permutation_in _ Hperm); now left).
        destruct Hbin as [E | Hbin]; [exact E|].
        destruct Hain as [E | Hain]; [now symmetry|].
        apply Hanti; [now left | now right | now apply Ha | now apply Hb]. }
      subst b. f_equal. apply IH; [assumption | |].
      * now apply Permutation_cons_inv with a.
      * intros p q Hp Hq. apply Hanti; now right.
Qed.

Lemma path_le_antisym (p q : Path) :
  anchor p = anchor q -> path_le p q -> path_le q p -> p = q.
Proof.
  pose proof parts_lawful as [Pr Pe Po Pt].
  unfold path_le, Pathlib.leb, Pathlib.compare. intros Ha.
  rewrite (Po (parts q) (parts p)).
  destruct (parts_compare (parts p) (parts q)) eqn:E; try discriminate.
  intros _ _. apply Pe in E. unfold parts in E. rewrite Ha in E.
  destruct p as [ap sp], q as [aq sq]. cbn [anchor segs] in *. subst aq.
  destruct (ap =? ""); [now subst | injection E as ->; reflexivity].
Qed.

Lemma filter_ext_perm {A : Type} (f g : A -> bool) (l l' : list A) :
  (forall x, f x = g x) -> Permutation l l' ->
  Permutation (filter f l) (filter g l').
Proof.
  intros Hfg Hperm. induction Hperm as [|x l l' _ IH|x y l|l l' l'' _ IH1 _ IH2].
  - constructor.
  - cbn [filter]. rewrite <- Hfg. destruct (f x); [now constructor | exact IH].
  - cbn [filter]. rewrite <- !Hfg.
    assert (E : filter f l = filter g l)
      by (apply filter_ext; exact Hfg).
    rewrite E. destruct (f x), (f y); try reflexivity. apply perm_swap.
  - apply Permutation_trans with (filter g l'); [exact IH1|].
    apply Permutation_trans with (filter f l'); [|exact IH2].
    assert (E : filter f l' = filter g l') by (apply filter_ext; exact Hfg).
    now rewrite E.
Qed.

(** X6. The result does not depend on the order in which the
    operating system lists the entries: two file systems that yield
    the same paths for every pattern, in any order, and agree on what
    is a regular file give the same list, the paths yielded having
    the anchor of the root. *)
Theorem collect_files_listing_order (fs1 fs2 : FileSystem)
  (root_dir : string) (extensions ignore_patterns : list string)
  (include_tests include_config : bool) :
  (forall pattern,
      Permutation (rglob fs1 (of_str root_dir) pattern)
        (rglob fs2 (of_str root_dir) pattern)) ->
  (forall p, is_file fs1 p = is_file fs2 p) ->
  (forall pattern p,
      In p (rglob fs1 (of_str root_dir) pattern) ->
      anchor p = anchor (of_str root_dir)) ->
  collect_files fs1 root_dir extensions ignore_patterns include_tests
    include_config
  = collect_files fs2 root_dir extensions ignore_patterns include_tests
      include_config.
Proof.
  intros Hperm Hfile Hanchor. unfold collect_files.
  assert (Hacc :
    Permutation
      (accumulate fs1 root_dir extensions ignore_patterns include_tests
         include_config)
      (accumulate fs2 root_dir extensions ignore_patterns include_tests
         include_config)).
  { unfold accumulate. induction extensions as [|ext extensions IH];
      [constructor|].
    cbn [flat_map]. apply Permutation_app; [|exact IH].
    apply filter_ext_perm; [|apply Hperm].
    intros p. unfold selected. now rewrite Hfile. }
  apply sorted_unique.
  - apply sorted_sorted.
  - apply sorted_sorted.
  - now rewrite !sorted_perm.
  - intros p q Hp Hq. apply path_le_antisym.
    apply (Permutation_in _ (sorted_perm _)) in Hp, Hq.
    unfold accumulate in Hp, Hq. apply in_flat_map in Hp, Hq.
    destruct Hp as [e1 [_ Hp]], Hq as [e2 [_ Hq]].
    apply filter_In in Hp, Hq. destruct Hp as [Hp _], Hq as [Hq _].
    now rewrite (Hanchor _ _ Hp), (Hanchor _ _ Hq).
Qed.

(** The tree with the module and the directory of the same name,
    listed in the other order. *)
Definition utils_tree_reversed : FileSystem :=
  fs_of_listing
    [ (of_str "proj/utils/x.ts", Some "export const x = 1;");
      (of_str "proj/utils.ts", Some "export * from './utils/x';") ].

Lemma listing_anchor (files : list (Path * option string))
  (root pattern : string) (p : Path) :
  In p (rglob (fs_of_listing files) (of_str root) pattern) ->
  anchor p = anchor (of_str root).
Proof.
  cbn [rglob fs_of_listing]. intros H. apply filter_In in H.
  destruct H as [_ H]. apply andb_true_iff in H. destruct H as [H _].
  unfold below, relative_to in H.
  destruct (String.eqb_spec (anchor p) (anchor (of_str root)));
    [assumption | discriminate].
Qed.

Lemma collect_files_listing_order_witness :
  collect_files utils_tree "proj" [".ts"; ".css"] [] false false
  = collect_files utils_tree_reversed "proj" [".ts"; ".css"] [] false false.
Proof.
  apply (collect_files_listing_order utils_tree utils_tree_reversed "proj"
           [".ts"; ".css"] [] false false).
  - intros pattern. cbn [rglob utils_tree utils_tree_reversed fs_of_listing
                          map fst filter].
    destruct (below (of_str "proj") (of_str "proj/utils.ts")
              && fnmatch (name (of_str "proj/utils.ts")) pattern),
             (below (of_str "proj") (of_str "proj/utils/x.ts")
              && fnmatch (name (of_str "proj/utils/x.ts")) pattern);
      try reflexivity. apply perm_swap.
  - intros p. cbn [is_file utils_tree utils_tree_reversed fs_of_listing
                     lookup].
    destruct (Pathlib.eqb p (of_str "proj/utils.ts")) eqn:E1,
             (Pathlib.eqb p (of_str "proj/utils/x.ts")) eqn:E2; reflexivity.
  - intros pattern p. apply listing_anchor.
Defined.

(** No extension of the list is the end of another one. *)
Fixpoint suffix_free (extensions : list string) : bool :=
  match extensions with
  | [] => true
  | ext :: rest =>
      forallb (fun ext' => negb (PyStr.endswith ext ext')
                           && negb (PyStr.endswith ext' ext)) rest
      && suffix_free rest
  end.

Lemma endswith_comparable (s a b : string) :
  PyStr.endswith s a = true -> PyStr.endswith s b = true ->
  PyStr.endswith a b = true \/ PyStr.endswith b a = true.
Proof.
  induction s as [|c s IH]; cbn [PyStr.endswith]; rewrite ?orb_false_r.
  - rewrite !String.eqb_eq. intros <- <-. now left.
  - rewrite !orb_true_iff, !String.eqb_eq.
    intros [<- | Ha] [<- | Hb].
    + left. cbn [PyStr.endswith]. now rewrite String.eqb_refl.
    + left. cbn [PyStr.endswith]. rewrite Hb. apply orb_true_r.
    + right. cbn [PyStr.endswith]. rewrite Ha. apply orb_true_r.
    + now apply IH.
Qed.

(** X7. When no requested extension is the end of another one, as
    with the default extensions, the result has no duplicate paths,
    the traversal yielding for an extension files whose name ends
    with it, each of them once. *)
Theorem collect_files_no_duplicates (fs : FileSystem) (root_dir : string)
  (extensions ignore_patterns : list string)
  (include_tests include_config : bool) :
  suffix_free extensions = true ->
  (forall ext p,
      In p (rglob fs (of_str root_dir) ("*" ++ ext)) ->
      PyStr.endswith (name p) ext = true) ->
  (forall pattern, NoDup (rglob fs (of_str root_dir) pattern)) ->
  NoDup
    (collect_files fs root_dir extensions ignore_patterns include_tests
       include_config).
Proof.
  intros Hfree Hglob Hnodup. unfold collect_files.
  apply (Permutation_NoDup (Permutation_sym (sorted_perm _))).
  unfold accumulate.
  induction extensions as [|ext extensions IH]; [constructor|].
  cbn [suffix_free] in Hfree. apply andb_true_iff in Hfree.
  destruct Hfree as [Hext Hfree]. cbn [flat_map].
  apply NoDup_app.
  - apply NoDup_filter, Hnodup.
  - now apply IH.
  - intros p Hp Hq. apply filter_In in Hp. destruct Hp as [Hp _].
    apply in_flat_map in Hq. destruct Hq as [ext' [He' Hq]].
    apply filter_In in Hq. destruct Hq as [Hq _].
    rewrite forallb_forall in Hext. specialize (Hext ext' He').
    apply andb_true_iff in Hext. rewrite !negb_true_iff in Hext.
    destruct (endswith_comparable (name p) ext ext'
                (Hglob _ _ Hp) (Hglob _ _ Hq)); destruct Hext; congruence.
Qed.

Lemma listing_ends (files : list (Path * option string))
  (root ext : string) (p : Path) :
  In p (rglob (fs_of_listing files) (of_str root) ("*" ++ ext)) ->
  PyStr.endswith (name p) ext = true.
Proof.
  cbn [rglob fs_of_listing]. intros H. apply filter_In in H.
  destruct H as [_ H]. apply andb_true_iff in H. now destruct H as [_ H].
Qed.

Lemma collect_files_no_duplicates_witness :
  NoDup
    (collect_files scenario_tree "." [".ts"; ".css"; ".json"]
       (effective_ignore_patterns default_args) false false).
Proof.
  apply (collect_files_no_duplicates scenario_tree "."
           [".ts"; ".css"; ".json"]
           (effective_ignore_patterns default_args) false false).
  - reflexivity.
  - intros ext p. apply listing_ends.
  - intros pattern. cbn [rglob scenario_tree fs_of_listing].
    apply NoDup_filter. cbn [map fst].
    repeat (constructor; [cbn [In]; intuition discriminate|]).
    constructor.
Defined.

Lemma strip_prefix_app (pre ws rest : list string) :
  strip_prefix pre ws = Some rest -> ws = (pre ++ rest)%list.
Proof.
  revert ws. induction pre as [|a pre IH]; intros ws; cbn [strip_prefix].
  - now intros [= ->].
  - destruct ws as [|b ws]; [discriminate|].
    destruct (String.eqb_spec a b) as [-> | _]; [|discriminate].
    intros H. apply IH in H. now subst.
Qed.

Lemma nothing_selected (fs : FileSystem) (root_dir : string)
  (extensions ignore_patterns : list string)
  (include_tests include_config : bool) :
  (forall ext p,
      In p (rglob fs (of_str root_dir) ("*" ++ ext)) ->
      selected fs ignore_patterns include_tests include_config p = false) ->
  collect_files fs root_dir extensions ignore_patterns include_tests
    include_config = [].
Proof.
  intros H.
  destruct (collect_files fs root_dir extensions ignore_patterns
              include_tests include_config) as [|p l] eqn:E; [reflexivity|].
  assert (Hin : In p (collect_files fs root_dir extensions ignore_patterns
                        include_tests include_config))
    by (rewrite E; now left).
  apply collect_files_In in Hin. destruct Hin as [ext [_ [Hg Hs]]].
  rewrite (H _ _ Hg) in Hs. discriminate.
Qed.

End CollectorMore.

(** * Further properties of the driver *)

Section DriverMore.

(** The files the driver packs. *)
Definition collected (fs : FileSystem) (args : Args) : list Path :=
  collect_files fs (directory args) (extensions args)
    (effective_ignore_patterns args) (include_tests args)
    (include_config args).

(** What the driver prints when there is nothing to pack. *)
Definition nothing_to_pack (args : Args) : list Event * Outcome :=
  ([ PrintBanner (directory args) (extensions args)
       (effective_ignore_patterns args) (include_tests args)
       (include_config args);
     PrintNoFiles ],
   Returned).

Lemma main_nothing (fs : FileSystem) (now : string) (args : Args) :
  collected fs args = [] -> main fs now args = nothing_to_pack args.
Proof. unfold collected, main. intros H. now rewrite H. Qed.

(** X8. The test directory names are looked for in the whole path,
    the root included: when a segment of the directory to scan is a
    test directory name and tests are not included, every file below
    it counts as a test file and the run ends with nothing to pack. *)
Theorem tests_root_packs_nothing (fs : FileSystem) (now : string)
  (args : Args) :
  include_tests args = false ->
  existsb (fun part => mem (PyStr.lower part) TEST_DIR_NAMES)
    (segs (of_str (directory args))) = true ->
  (forall pattern p,
      In p (rglob fs (of_str (directory args)) pattern) ->
      relative_to p (of_str (directory args)) <> None) ->
  main fs now args = nothing_to_pack args.
Proof.
  intros Htests Hroot Hbelow. apply main_nothing. unfold collected.
  apply nothing_selected. intros ext p Hp.
  assert (Htest : is_test_file p = true).
  { specialize (Hbelow _ _ Hp). unfold relative_to in Hbelow.
    destruct (anchor p =? anchor (of_str (directory args)));
      [|congruence].
    destruct (strip_prefix (segs (of_str (directory args))) (segs p))
      as [rest|] eqn:E; [|congruence].
    apply strip_prefix_app in E.
    apply existsb_exists in Hroot. destruct Hroot as [part [Hin Hmem]].
    unfold is_test_file.
    destruct (existsb _ TEST_FILE_SUFFIXES); [reflexivity|].
    apply existsb_exists. exists part. split; [|exact Hmem].
    unfold parts. rewrite E.
    destruct (anchor p =? ""); [|right]; apply in_or_app; now left. }
  unfold selected. rewrite Htests, Htest.
  now destruct (is_file fs p && negb (should_ignore p _)).
Qed.

Lemma listing_below (files : list (Path * option string))
  (root pattern : string) (p : Path) :
  In p (rglob (fs_of_listing files) (of_str root) pattern) ->
  relative_to p (of_str root) <> None.
Proof.
  cbn [rglob fs_of_listing]. intros H. apply filter_In in H.
  destruct H as [_ H]. apply andb_true_iff in H. destruct H as [H _].
  unfold below in H. now destruct (relative_to p (of_str root)).
Qed.

(** A project kept below a directory named [tests]. *)
Definition project_below_tests : FileSystem :=
  fs_of_listing
    [ (of_str "tests/proj/src/a.ts", Some "export const a = 1;") ].

Definition project_below_tests_args : Args :=
  {| directory := "tests/proj"; output := "codebase.xml";
     extensions := [".ts"; ".css"; ".json"];
     include_node_modules := false; include_git := false;
     include_tests := false; include_config := false; ignore := [] |}.

Lemma tests_root_packs_nothing_witness :
  main project_below_tests "2024-05-01T10:00:00" project_below_tests_args
  = nothing_to_pack project_below_tests_args.
Proof.
  apply (tests_root_packs_nothing project_below_tests "2024-05-01T10:00:00"
           project_below_tests_args).
  - reflexivity.
  - reflexivity.
  - intros pattern p. apply listing_below.
Defined.

Lemma contains_empty (s : string) : PyStr.contains "" s = true.
Proof. destruct s; reflexivity. Qed.

(** X9. An empty ignore pattern occurs in every path: when one is
    given, every file is ignored and the run ends with nothing to
    pack. *)
Theorem empty_pattern_packs_nothing (fs : FileSystem) (now : string)
  (args : Args) :
  In "" (ignore args) -> main fs now args = nothing_to_pack args.
Proof.
  intros Hin. apply main_nothing. unfold collected.
  apply nothing_selected. intros ext p _.
  assert (Hign : should_ignore p (effective_ignore_patterns args) = true).
  { unfold should_ignore. apply existsb_exists. exists "".
    split; [|apply contains_empty].
    unfold effective_ignore_patterns. repeat (apply in_or_app; right).
    exact Hin. }
  unfold selected. rewrite Hign. now rewrite andb_false_r.
Qed.

Lemma empty_pattern_packs_nothing_witness :
  main scenario_tree "2024-05-01T10:00:00"
    {| directory := "."; output := "codebase.xml"; extensions := [".ts"];
       include_node_modules := false; include_git := false;
       include_tests := false; include_config := false; ignore := [""] |}
  = nothing_to_pack
      {| directory := "."; output := "codebase.xml"; extensions := [".ts"];
         include_node_modules := false; include_git := false;
         include_tests := false; include_config := false; ignore := [""] |}.
Proof.
  apply (empty_pattern_packs_nothing scenario_tree "2024-05-01T10:00:00").
  cbn [ignore In]. now left.
Defined.

(** X10. No packed path holds, anywhere in its string, one of the
    seven default patterns, a pattern given by the user,
    [node_modules] unless it is included, or [.git] unless it is
    included. *)
Theorem packed_paths_avoid_patterns (fs : FileSystem) (args : Args) :
  Forall
    (fun p =>
       forall pattern,
         In pattern DEFAULT_IGNORE_PATTERNS
         \/ In pattern (ignore args)
         \/ (include_node_modules args = false /\ pattern = "node_modules")
         \/ (include_git args = false /\ pattern = ".git") ->
         PyStr.contains pattern (to_str p) = false)
    (collected fs args).
Proof.
  apply Forall_forall. intros p Hp pattern Hpat.
  unfold collected in Hp. apply collect_files_In in Hp.
  destruct Hp as [ext [_ [_ Hs]]]. apply selected_iff in Hs.
  destruct Hs as (_ & Hign & _).
  assert (Hin : In pattern (effective_ignore_patterns args)).
  { unfold effective_ignore_patterns.
    destruct Hpat as [H | [H | [[Hn ->] | [Hg ->]]]].
    - apply in_or_app. now left.
    - repeat (apply in_or_app; right). exact H.
    - apply in_or_app. right. apply in_or_app. left. rewrite Hn. now left.
    - apply in_or_app. right. apply in_or_app. right.
      apply in_or_app. left. rewrite Hg. now left. }
  destruct (PyStr.contains pattern (to_str p)) eqn:E; [|reflexivity].
  assert (should_ignore p (effective_ignore_patterns args) = true)
    by (unfold should_ignore; apply existsb_exists; now exists pattern).
  congruence.
Qed.





End DriverMore.

(** * Further properties of the document *)

Section DocumentMore.

Variable fs : FileSystem.
Variable root_dir : string.

Lemma of_nat_inj (a b : nat) : PyStr.of_nat a = PyStr.of_nat b -> a = b.
Proof.
  unfold PyStr.of_nat. intros H.
  apply (f_equal NilEmpty.uint_of_string) in H.
  rewrite !NilEmpty.usu in H. injection H as H.
  apply (f_equal Nat.of_uint) in H. now rewrite !Unsigned.of_to in H.
Qed.

Lemma filter_length_all {A : Type} (keep : A -> bool) (l : list A) :
  List.length (filter keep l) = List.length l <-> forallb keep l = true.
Proof.
  induction l as [|x l IH]; cbn [filter forallb List.length]; [tauto|].
  pose proof (filter_length_le keep l) as Hle.
  destruct (keep x); cbn [List.length andb].
  - rewrite <- IH. split; intros H; [now injection H | now f_equal].
  - split; [lia | discriminate].
Qed.

(** X12. The count in the metadata is the number of file entries of
    the document exactly when every file of the list could be read. *)
Theorem total_files_exact_iff_all_read (now : string) (files : list Path) :
  let root := fst (create_xml_structure fs now files root_dir) in
  total_files_of root
  = Some (PyStr.of_nat (List.length (file_elements root)))
  <-> forallb (readable fs) files = true.
Proof.
  intros root. unfold root.
  rewrite total_files_spec, file_elements_length, <- filter_length_all.
  split.
  - intros H. injection H as H. now apply of_nat_inj in H.
  - now intros ->.
Qed.

(** X13. The file entries follow the order of the list of paths, one
    for each file that could be read, and the [path] attribute of an
    entry is the path of its file relative to the root directory. *)
Theorem entries_in_order (now : string) (files : list Path) :
  map (fun entry => get (attrib_of entry) "path")
    (file_elements (fst (create_xml_structure fs now files root_dir)))
  = map (fun p => option_map to_str (relative_to p (of_str root_dir)))
      (filter (readable fs) files).
Proof.
  rewrite file_elements_spec.
  induction files as [|p files IH]; [reflexivity|].
  cbn [flat_map filter]. rewrite map_app, IH.
  unfold entries_for, readable. destruct (read_text fs p); [reflexivity|].
  cbn [map app]. f_equal.
  destruct (relative_to p (of_str root_dir)); reflexivity.
Qed.

(** X14. The [size] attribute of an entry is the number of characters
    of the text that was read, after the translation of the line
    ends: it is not the number of bytes of the file. *)
Theorem size_counts_characters (now : string) (files : list Path) :
  map (fun entry => get (attrib_of entry) "size")
    (file_elements (fst (create_xml_structure fs now files root_dir)))
  = map
      (fun p =>
         match relative_to p (of_str root_dir), read_bytes fs p with
         | Some _, Some bytes =>
             Some (PyStr.of_nat (PyStr.len (universal_newlines bytes)))
         | _, _ => None
         end)
      (filter (readable fs) files).
Proof.
  rewrite file_elements_spec.
  induction files as [|p files IH]; [reflexivity|].
  cbn [flat_map filter]. rewrite map_app, IH.
  unfold entries_for, readable, read_text.
  destruct (read_bytes fs p) as [bytes|] eqn:Hbytes; [|reflexivity].
  destruct (utf8_valid bytes); [|reflexivity].
  cbn [map app]. rewrite Hbytes. f_equal.
  destruct (relative_to p (of_str root_dir)); reflexivity.
Qed.

(** X15. No content of the document holds a carriage return: the
    files are read in text mode, which turns every line end into a
    line feed. *)
Theorem contents_have_no_cr (now : string) (files : list Path) :
  Forall
    (fun entry =>
       match content_of entry with
       | Some content => no_cr content = true
       | None => True
       end)
    (file_elements (fst (create_xml_structure fs now files root_dir))).
Proof.
  rewrite file_elements_spec. apply Forall_forall. intros entry Hin.
  apply in_flat_map in Hin. destruct Hin as [p [_ Hin]].
  unfold entries_for, read_text in Hin.
  destruct (read_bytes fs p) as [bytes|]; [|contradiction].
  destruct (utf8_valid bytes); [|contradiction].
  destruct (relative_to p (of_str root_dir));
    destruct Hin as [<- | []]; cbn; [apply universal_newlines_no_cr | exact I].
Qed.

End DocumentMore.

Section ProjectName.





End ProjectName.

(** * Attribute values through the serializer and the parser *)

Module AttributeFacts.

Import Expat Escaping.

(** The characters [_escape_attrib] replaces. *)
Definition attrib_marked (c : ascii) : bool :=
  Ascii.eqb c "&" || Ascii.eqb c "<" || Ascii.eqb c ">" || Ascii.eqb c QUOT
  || Ascii.eqb c CR || Ascii.eqb c LF || Ascii.eqb c TAB.

Lemma escape_attrib_char (c : ascii) :
  attrib_marked c = false ->
  ET._escape_attrib (String c "") = String c "".
Proof.
  unfold attrib_marked. rewrite !orb_false_iff.
  intros [[[[[[H1 H2] H3] H4] H5] H6] H7].
  unfold ET._escape_attrib. simpl. rewrite H1. simpl. rewrite H2. simpl.
  rewrite H3. simpl. rewrite H4. simpl. rewrite H5. simpl. rewrite H6. simpl.
  now rewrite H7.
Qed.

(** What stands for a replaced character is read back as the
    character, and the text goes on. *)
Lemma escape_attrib_marked (c : ascii) (r : string) (st : State) :
  attrib_marked c = true -> in_text st ->
  scan AttValue st (ET._escape_attrib (String c "") ++ r)
  = emit c (scan AttValue (Plain 0) r).
Proof.
  unfold attrib_marked. rewrite !orb_true_iff. intros H Hst.
  repeat (destruct H as [H | H]);
    apply Ascii.eqb_eq in H; subst c;
    destruct st; try contradiction; reflexivity.
Qed.

(** An ordinary character in an attribute value. *)
Lemma plain_attvalue (c : ascii) (k : nat) (continue : State -> option string) :
  attrib_marked c = false ->
  plain AttValue continue c k
  = if Ascii.eqb c "239" then emit c (continue AfterEF)
    else if legal_byte c then emit c (continue (Plain 0)) else None.
Proof.
  unfold attrib_marked. rewrite !orb_false_iff.
  intros [[[[[[H1 H2] H3] H4] H5] H6] H7].
  unfold plain. rewrite H5, H1, H2, H4, H6, H7.
  destruct (Ascii.eqb c "239"); [reflexivity|].
  destruct (legal_byte c); reflexivity.
Qed.

(** The states the scanner is in between two characters of an
    escaped attribute value, and what may follow. *)
Definition att_ok (st : State) (s : string) : Prop :=
  st <> AfterCR /\ after_ok st s.

Lemma att_read_back (s : string) :
  forall st, att_ok st s -> xml_text s = true ->
  scan AttValue st (ET._escape_attrib s) = Some s.
Proof.
  induction s as [|c s IH]; intros st [Hcr Hst] Hs.
  - destruct st; simpl in *; try reflexivity; (contradiction || congruence).
  - rewrite (charwise_cons _ c s escape_attrib_charwise).
    cbn [xml_text] in Hs. rewrite !andb_true_iff, !negb_true_iff in Hs.
    destruct Hs as [[[Hc Hfe] Hff] Hs].
    assert (Htxt : in_text st) by (destruct st; simpl in *; auto).
    assert (Hplain0 : att_ok (Plain 0) s) by (split; [discriminate | exact I]).
    destruct (attrib_marked c) eqn:Hm.
    { rewrite (escape_attrib_marked c _ st Hm Htxt), (IH _ Hplain0 Hs).
      reflexivity. }
    rewrite (escape_attrib_char c Hm).
    change (String c "" ++ ET._escape_attrib s)
      with (String c (ET._escape_attrib s)).
    cbn [scan].
    assert (Huse : forall k,
      plain AttValue (fun st' => scan AttValue st' (ET._escape_attrib s)) c k
      = Some (String c s)).
    { intros k. rewrite (plain_attvalue c k _ Hm).
      destruct (Ascii.eqb_spec c "239") as [-> | HEF].
      - rewrite (IH AfterEF); [reflexivity | | exact Hs].
        split; [discriminate|]. split.
        + simpl in Hfe. destruct s as [|d s']; [reflexivity | exact Hfe].
        + simpl in Hff. destruct s as [|d s']; [reflexivity | exact Hff].
      - rewrite Hc, (IH _ Hplain0 Hs). reflexivity. }
    destruct st as [k | | nm | | ].
    + apply Huse.
    + congruence.
    + contradiction.
    + destruct (Ascii.eqb_spec c "191") as [-> | HBF]; [|apply Huse].
      destruct Hst as [H1 H2].
      rewrite (IH AfterEFBF); [reflexivity | | exact Hs].
      split; [discriminate | split; [exact H1 | exact H2]].
    + destruct Hst as [H1 H2].
      destruct (Ascii.eqb_spec c "190") as [-> | HBE].
      { simpl in H1. destruct s; discriminate. }
      destruct (Ascii.eqb_spec c "191") as [-> | HBF].
      { simpl in H2. destruct s; discriminate. }
      apply Huse.
Qed.

(** Reading one escaped character of an attribute value either fails
    or goes on in the text. *)
Lemma att_scan_step (c : ascii) (r : string) (st : State) :
  in_text st ->
  scan AttValue st (ET._escape_attrib (String c "") ++ r) = None
  \/ exists v st', in_text st'
       /\ scan AttValue st (ET._escape_attrib (String c "") ++ r)
          = emits v (scan AttValue st' r).
Proof.
  intros Hst. destruct (attrib_marked c) eqn:Hm.
  { right. exists (String c ""), (Plain 0). split; [exact I|].
    rewrite (escape_attrib_marked c r st Hm Hst). apply emit_emits. }
  rewrite (escape_attrib_char c Hm).
  change (String c "" ++ r) with (String c r). cbn [scan].
  assert (Hplain : forall k,
    plain AttValue (fun st' => scan AttValue st' r) c k = None
    \/ exists v st', in_text st'
       /\ plain AttValue (fun st' => scan AttValue st' r) c k
          = emits v (scan AttValue st' r)).
  { intros k. rewrite (plain_attvalue c k _ Hm).
    destruct (Ascii.eqb c "239").
    { right. exists (String c ""), AfterEF. split; [exact I | apply emit_emits]. }
    destruct (legal_byte c); [|now left].
    right. exists (String c ""), (Plain 0). split; [exact I | apply emit_emits]. }
  destruct st as [k | | nm | | ]; try contradiction.
  - apply Hplain.
  - destruct (Ascii.eqb c LF); [|apply Hplain].
    right. exists "", (Plain 0). split; [exact I | apply emits_nil].
  - destruct (Ascii.eqb c "191"); [|apply Hplain].
    right. exists (String c ""), AfterEFBF. split; [exact I | apply emit_emits].
  - destruct (Ascii.eqb c "190" || Ascii.eqb c "191"); [now left | apply Hplain].
Qed.

Lemma att_scan_illegal (c : ascii) (r : string) (st : State) :
  in_text st -> legal_byte c = false ->
  scan AttValue st (ET._escape_attrib (String c "") ++ r) = None.
Proof.
  intros Hst Hc.
  assert (Hne : forall d, legal_byte d = true -> Ascii.eqb c d = false).
  { intros d Hd. apply Ascii.eqb_neq. intros ->. congruence. }
  assert (Hm : attrib_marked c = false).
  { unfold attrib_marked. now rewrite !Hne by reflexivity. }
  rewrite (escape_attrib_char c Hm).
  change (String c "" ++ r) with (String c r). cbn [scan].
  destruct st; try contradiction;
    rewrite ?Hne by reflexivity; cbn [orb];
    rewrite (plain_attvalue c _ _ Hm), Hne, Hc by reflexivity; reflexivity.
Qed.

Lemma att_scan_noncharacter (d : ascii) (r : string) (st : State) :
  in_text st -> (d = "190" \/ d = "191")%char ->
  scan AttValue st
    (ET._escape_attrib (String "239" (String "191" (String d ""))) ++ r)
  = None.
Proof.
  intros Hst [-> | ->]; destruct st; try contradiction; reflexivity.
Qed.

Lemma att_refused (s : string) :
  xml_text s = false ->
  forall st, in_text st -> scan AttValue st (ET._escape_attrib s) = None.
Proof.
  induction s as [|c s IH]; intros Hs st Hst; [discriminate|].
  cbn [xml_text] in Hs.
  destruct (xml_text s) eqn:Hs'.
  - rewrite andb_true_r in Hs.
    destruct (legal_byte c) eqn:Hc.
    + rewrite andb_true_l in Hs. apply andb_false_iff in Hs.
      rewrite !negb_false_iff in Hs.
      assert (Hpre : exists d r, (d = "190" \/ d = "191")%char
                /\ String c s = String "239" (String "191" (String d "")) ++ r).
      { destruct Hs as [H | H]; apply PyStrFacts.prefix_iff in H;
          destruct H as [r H]; [exists "190"%char, r | exists "191"%char, r]; auto. }
      destruct Hpre as [d [r [Hd E]]]. rewrite E, escape_attrib_charwise.
      now apply att_scan_noncharacter.
    + rewrite (charwise_cons _ c s escape_attrib_charwise).
      now apply att_scan_illegal.
  - rewrite (charwise_cons _ c s escape_attrib_charwise).
    destruct (att_scan_step c (ET._escape_attrib s) st Hst)
      as [E | [v [st' [Hst' E]]]]; rewrite E; [reflexivity|].
    now rewrite (IH eq_refl st' Hst').
Qed.

(** An attribute value comes back from the parser as it was set, tabs
    and line ends included, when all its characters are allowed, and
    is refused otherwise. *)
Lemma attvalue_escape_attrib (v : string) :
  attvalue (ET._escape_attrib v) = if xml_text v then Some v else None.
Proof.
  destruct (xml_text v) eqn:Hv.
  - apply att_read_back; [|exact Hv]. split; [discriminate | exact I].
  - now apply att_refused.
Qed.

End AttributeFacts.

(** * When a tree can be rendered *)

Section RenderingOutcome.

Import Minidom ParserFacts ParserCorrect.

(** The attribute values and the texts of a tree are made of
    characters that XML allows. *)
Fixpoint xml_legal (e : ET.Element) : bool :=
  match e with
  | Elem _ attrib text children =>
      forallb (fun kv => Expat.xml_text (snd kv)) attrib
      && match text with Some t => Expat.xml_text t | None => true end
      && forallb xml_legal children
  end.

(** The document the parser builds from the text of a tree: the
    attributes as they were set, the texts with their line ends
    normalized, no node for an empty text. *)
Fixpoint document_of (e : ET.Element) : Node :=
  match e with
  | Elem tag attrib text children =>
      Element tag attrib
        (match text with
         | Some t => Parser.text_nodes (universal_newlines t)
         | None => []
         end ++ map document_of children)
  end.

Lemma parse_attrib_spec (attrib : list (string * string)) :
  named_attrib attrib = true ->
  all_some (map parse_attrib attrib)
  = if forallb (fun kv => Expat.xml_text (snd kv)) attrib
    then Some attrib else None.
Proof.
  unfold named_attrib.
  induction attrib as [|[k v] attrib IH]; [reflexivity|].
  cbn [forallb map all_some fst snd]. intros H.
  apply andb_true_iff in H. destruct H as [Hk Hrest].
  unfold parse_attrib at 1. cbn [fst snd].
  rewrite Hk, AttributeFacts.attvalue_escape_attrib.
  destruct (Expat.xml_text v); [|reflexivity].
  cbn [option_map andb]. rewrite (IH Hrest).
  destruct (forallb (fun kv => Expat.xml_text (snd kv)) attrib); reflexivity.
Qed.

Lemma parse_text_spec (text : option string) :
  parse_text text
  = match text with
    | Some t =>
        if Expat.xml_text t
        then Some (Parser.text_nodes (universal_newlines t)) else None
    | None => Some []
    end.
Proof.
  destruct text as [t|]; [|reflexivity].
  unfold parse_text. rewrite Escaping.chardata_escape_cdata.
  destruct (Expat.xml_text t); [|reflexivity].
  destruct (universal_newlines t); reflexivity.
Qed.

Lemma build_children_spec (children : list ET.Element) :
  Forall (fun child =>
            well_named child = true ->
            build child
            = if xml_legal child then Some (document_of child) else None)
    children ->
  forallb well_named children = true ->
  all_some (map build children)
  = if forallb xml_legal children
    then Some (map document_of children) else None.
Proof.
  induction 1 as [|child children Hchild _ IH]; [reflexivity|].
  cbn [forallb map all_some]. intros H.
  apply andb_true_iff in H. destruct H as [Hwn Hrest].
  rewrite (Hchild Hwn), (IH Hrest).
  destruct (xml_legal child); [|reflexivity].
  destruct (forallb xml_legal children); reflexivity.
Qed.

Lemma build_spec (e : ET.Element) :
  well_named e = true ->
  build e = if xml_legal e then Some (document_of e) else None.
Proof.
  induction e as [tag attrib text children IH] using Element_ind'.
  cbn [well_named]. rewrite !andb_true_iff. intros [[Htag Hattrib] Hkids].
  cbn [build xml_legal document_of]. rewrite Htag.
  rewrite (parse_attrib_spec attrib Hattrib), parse_text_spec,
    (build_children_spec children IH Hkids).
  destruct (forallb (fun kv => Expat.xml_text (snd kv)) attrib);
    [|reflexivity].
  destruct text as [t|]; cbn [andb].
  - destruct (Expat.xml_text t); [|reflexivity].
    destruct (forallb xml_legal children); reflexivity.
  - destruct (forallb xml_legal children); reflexivity.
Qed.



End RenderingOutcome.

(** * Rendering the document of a tree with plain names *)

Section PlainNames.

Import Minidom ParserFacts ParserCorrect.

(** A printable ASCII character, and a text made of them. *)
Definition printable_char (c : ascii) : bool :=
  let n := nat_of_ascii c in ((32 <=? n) && (n <=? 126))%nat.

Definition printable (s : string) : bool :=
  forallb printable_char (list_ascii_of_string s).

(** A path whose anchor and segments are printable. *)
Definition printable_path (p : Path) : bool :=
  printable (anchor p) && forallb printable (segs p).

(** The content of a file that gets into the document (it can be
    read and lies below the root) is made of characters that XML
    allows. *)
Definition content_legal (fs : FileSystem) (root_dir : string) (p : Path)
  : bool :=
  match read_text fs p, relative_to p (of_str root_dir) with
  | inr content, Some _ => Expat.xml_text content
  | _, _ => true
  end.

Lemma printable_char_plain (c : ascii) :
  printable_char c = true ->
  (nat_of_ascii c <=? 127)%nat = true
  /\ Expat.legal_byte c = true /\ c <> "239"%char.
Proof.
  destruct c as [[|] [|] [|] [|] [|] [|] [|] [|]]; intros H;
    try discriminate H; repeat split; discriminate.
Qed.

Lemma printable_cons (c : ascii) (s : string) :
  printable (String c s) = printable_char c && printable s.
Proof. reflexivity. Qed.

Lemma printable_app (a b : string) :
  printable (a ++ b) = printable a && printable b.
Proof.
  induction a as [|c a IH]; [reflexivity|].
  cbn [append]. now rewrite !printable_cons, IH, andb_assoc.
Qed.

Lemma printable_utf8 (s : string) : printable s = true -> utf8_valid s = true.
Proof.
  unfold utf8_valid. induction s as [|c s IH]; [reflexivity|].
  rewrite printable_cons, andb_true_iff. intros [Hc Hs].
  cbn [utf8_scan]. apply printable_char_plain in Hc.
  destruct Hc as [Hc _]. rewrite Hc. now apply IH.
Qed.

Lemma printable_xml_text (s : string) :
  printable s = true -> Expat.xml_text s = true.
Proof.
  induction s as [|c s IH]; [reflexivity|].
  rewrite printable_cons, andb_true_iff. intros [Hc Hs].
  apply printable_char_plain in Hc. destruct Hc as (_ & Hlegal & Hne).
  cbn [Expat.xml_text]. rewrite Hlegal, (IH Hs).
  unfold Expat.U_FFFE, Expat.U_FFFF. cbn [String.prefix].
  destruct (ascii_dec "239" c) as [E | _]; [now elim Hne | reflexivity].
Qed.

Lemma printable_drop (i : nat) (s : string) :
  printable s = true -> printable (PyStr.drop i s) = true.
Proof.
  revert i. induction s as [|c s IH]; intros [|i] H; try exact H.
  cbn [PyStr.drop]. apply IH. rewrite printable_cons in H.
  now apply andb_true_iff in H.
Qed.

Lemma printable_basename (s : string) :
  printable s = true -> printable (basename s) = true.
Proof.
  intros H. unfold basename.
  destruct (PyStr.rfind "/" s); [now apply printable_drop | exact H].
Qed.

Lemma printable_of_nat (n : nat) : printable (PyStr.of_nat n) = true.
Proof.
  unfold PyStr.of_nat. generalize (Nat.to_uint n) as d.
  induction d as [|d IH|d IH|d IH|d IH|d IH|d IH|d IH|d IH|d IH|d IH];
    [reflexivity | exact IH ..].
Qed.

Lemma printable_join (ws : list string) :
  forallb printable ws = true -> printable (PyStr.join "/" ws) = true.
Proof.
  unfold PyStr.join. induction ws as [|w ws IH]; [reflexivity|].
  cbn [forallb]. rewrite andb_true_iff. intros [Hw Hws].
  destruct ws as [|w' ws]; [exact Hw|].
  change (String.concat "/" (w :: w' :: ws))
    with (w ++ String "/" (String.concat "/" (w' :: ws))).
  rewrite printable_app, Hw, printable_cons, (IH Hws). reflexivity.
Qed.

Lemma printable_stripped (pre ws rest : list string) :
  strip_prefix pre ws = Some rest ->
  forallb printable ws = true -> forallb printable rest = true.
Proof.
  revert ws. induction pre as [|a pre IH]; intros ws H Hws.
  - destruct ws; injection H as <-; exact Hws.
  - destruct ws as [|b ws]; [discriminate|]. cbn [strip_prefix] in H.
    destruct (a =? b); [|discriminate].
    cbn [forallb] in Hws. apply andb_true_iff in Hws.
    now apply (IH ws H).
Qed.

Lemma printable_relative (p other rel : Path) :
  relative_to p other = Some rel ->
  printable_path p = true -> printable (to_str rel) = true.
Proof.
  unfold relative_to, printable_path. rewrite andb_true_iff.
  intros H [_ Hsegs].
  destruct (anchor p =? anchor other); [|discriminate].
  destruct (strip_prefix (segs other) (segs p)) as [rest|] eqn:E;
    [|discriminate].
  injection H as <-. pose proof (printable_stripped _ _ _ E Hsegs) as Hrest.
  unfold to_str. cbn [anchor segs].
  destruct rest as [|w rest]; [reflexivity|].
  now apply printable_join.
Qed.

Lemma printable_suffix (p : Path) :
  printable_path p = true -> printable (suffix p) = true.
Proof.
  unfold printable_path. rewrite andb_true_iff. intros [_ Hsegs].
  assert (Hname : printable (name p) = true).
  { unfold name. induction (segs p) as [|w ws IH]; [reflexivity|].
    cbn [forallb] in Hsegs. apply andb_true_iff in Hsegs.
    destruct Hsegs as [Hw Hws]. destruct ws as [|w' ws]; [exact Hw|].
    now apply IH. }
  unfold suffix. destruct (PyStr.rfind "." (name p)) as [i|]; [|reflexivity].
  destruct ((0 <? i)%nat && (i <? String.length (name p) - 1)%nat);
    [now apply printable_drop | reflexivity].
Qed.

(** Reading in text mode keeps a text well encoded. *)
Lemma utf8_scan_newlines (n : nat) :
  forall (s : string) (need lo hi : nat),
    String.length s <= n -> 14 <= lo ->
    utf8_scan need lo hi (universal_newlines s) = utf8_scan need lo hi s.
Proof.
  induction n as [|n IH]; intros [|c s] need lo hi Hlen Hlo;
    try reflexivity; cbn [String.length] in Hlen; [lia|].
  assert (Hs : String.length s <= n) by lia.
  destruct (Ascii.eqb_spec c CR) as [-> | Hc].
  - rewrite Escaping.universal_newlines_CR.
    destruct need as [|need].
    + change (utf8_scan 0 lo hi (String CR s)) with (utf8_scan 0 128 191 s).
      change (utf8_scan 0 lo hi (String LF (universal_newlines (Escaping.strip_lf s))))
        with (utf8_scan 0 128 191 (universal_newlines (Escaping.strip_lf s))).
      destruct s as [|d s]; [reflexivity|].
      unfold Escaping.strip_lf.
      destruct (Ascii.eqb_spec d LF) as [-> | Hd].
      * cbn [String.length] in Hs. rewrite IH by lia. reflexivity.
      * now rewrite IH by (assumption || lia).
    + cbn [utf8_scan].
      change (nat_of_ascii LF) with 10. change (nat_of_ascii CR) with 13.
      destruct (Nat.leb_spec lo 10); [lia|].
      destruct (Nat.leb_spec lo 13); [lia|]. reflexivity.
  - rewrite (Escaping.universal_newlines_cons c s Hc).
    cbn [utf8_scan].
    destruct need as [|need];
      repeat match goal with
             | |- context [if ?b then _ else _] => destruct b
             end;
      try reflexivity; apply IH; (assumption || lia).
Qed.

Lemma read_text_utf8 (fs : FileSystem) (p : Path) (content : string) :
  read_text fs p = inr content -> utf8_valid content = true.
Proof.
  unfold read_text. destruct (read_bytes fs p) as [bytes|]; [|discriminate].
  destruct (utf8_valid bytes) eqn:E; [|discriminate].
  intros H. injection H as <-. unfold utf8_valid.
  now rewrite (utf8_scan_newlines (String.length bytes)) by lia.
Qed.

Variable fs : FileSystem.
Variable root_dir : string.

(** The entry of a file with a plain path can be encoded, and it is
    legal when its content is. *)
Lemma entries_plain (p : Path) :
  printable_path p = true ->
  forallb utf8_valid (flat_map strings_of (entries_for fs root_dir p)) = true
  /\ forallb xml_legal (entries_for fs root_dir p) = content_legal fs root_dir p.
Proof.
  intros Hp. unfold entries_for, content_legal.
  destruct (read_text fs p) as [err | content] eqn:Hread; [now split|].
  destruct (relative_to p (of_str root_dir)) as [rel|] eqn:Hrel; [|now split].
  pose proof (printable_relative _ _ _ Hrel Hp) as H1.
  pose proof (printable_suffix p Hp) as H2.
  pose proof (printable_of_nat (PyStr.len content)) as H3.
  change (file_entry rel p content)
    with (Elem "file"
            [("path", to_str rel); ("extension", suffix p);
             ("size", PyStr.of_nat (PyStr.len content))]
            None [Elem "content" [] (Some content) []]).
  cbn [flat_map strings_of app forallb fst snd xml_legal].
  rewrite (printable_utf8 _ H1), (printable_utf8 _ H2),
    (printable_utf8 _ H3), (read_text_utf8 fs p content Hread),
    (printable_xml_text _ H1), (printable_xml_text _ H2),
    (printable_xml_text _ H3).
  split; [reflexivity|]. cbn [andb]. now rewrite !andb_true_r.
Qed.

Lemma files_plain (files : list Path) :
  forallb printable_path files = true ->
  forallb utf8_valid
    (flat_map strings_of (flat_map (entries_for fs root_dir) files)) = true
  /\ forallb xml_legal (flat_map (entries_for fs root_dir) files)
     = forallb (content_legal fs root_dir) files.
Proof.
  induction files as [|p files IH]; [now split|].
  cbn [forallb flat_map]. rewrite andb_true_iff. intros [Hp Hfiles].
  destruct (entries_plain p Hp) as [H1 H2].
  destruct (IH Hfiles) as [H3 H4].
  rewrite flat_map_app, !forallb_app, H1, H2, H3, H4. now split.
Qed.

(** The document of files with plain paths: its names are names, its
    strings can be encoded, and it is legal when its contents are. *)
Lemma document_plain (now : string) (files : list Path) :
  printable root_dir = true ->
  printable now = true ->
  forallb printable_path files = true ->
  let root := fst (create_xml_structure fs now files root_dir) in
  well_named root = true
  /\ forallb utf8_valid (strings_of root) = true
  /\ xml_legal root = forallb (content_legal fs root_dir) files.
Proof.
  intros Hroot Hnow Hfiles. rewrite create_xml_structure_spec. cbn [fst].
  destruct (files_plain files Hfiles) as [Hutf Hlegal].
  split; [|split].
  - cbn [well_named]. now rewrite document_well_named.
  - cbn [strings_of flat_map app forallb fst snd].
    rewrite !app_nil_r, Hutf.
    now rewrite (printable_utf8 _ (printable_basename _ Hroot)),
      (printable_utf8 _ Hnow), (printable_utf8 _ Hroot),
      (printable_utf8 _ (printable_of_nat _)).
  - cbn [xml_legal forallb snd]. rewrite Hlegal.
    rewrite (printable_xml_text _ (printable_basename _ Hroot)),
      (printable_xml_text _ Hnow), (printable_xml_text _ Hroot),
      (printable_xml_text _ (printable_of_nat _)).
    cbn [andb]. now rewrite !andb_true_r.
Qed.

(** X18. When the directory argument, the time stamp and the paths of
    the files are printable ASCII, rendering the document succeeds
    exactly when every content it holds is made of characters that
    XML allows; otherwise the parser inside [prettify_xml] refuses the
    text of the tree. *)
Theorem document_rendered_iff_contents_legal (now : string)
  (files : list Path) :
  printable root_dir = true ->
  printable now = true ->
  forallb printable_path files = true ->
  let root := fst (create_xml_structure fs now files root_dir) in
  prettify_xml root
  = if forallb (content_legal fs root_dir) files
    then inr (toprettyxml "  " (document_of root))
    else inl ExpatError.
Proof.
  intros Hroot Hnow Hfiles root.
  destruct (document_plain now files Hroot Hnow Hfiles) as (Hwn & Hs & Hl).
  fold root in Hwn, Hs, Hl.
  rewrite (prettify_xml_build root Hwn), (build_spec root Hwn).
  unfold tostring. rewrite Hs, Hl.
  destruct (forallb (content_legal fs root_dir) files); reflexivity.
Qed.

End PlainNames.

Lemma document_rendered_iff_contents_legal_witness :
  prettify_xml
    (fst (create_xml_structure form_feed_tree "2024-05-01T10:00:00"
            [of_str "proj/page.ts"] "proj"))
  = inl ExpatError.
Proof.
  apply (document_rendered_iff_contents_legal form_feed_tree "proj"
           "2024-05-01T10:00:00" [of_str "proj/page.ts"]);
    reflexivity.
Defined.

(** * How a run ends *)

Section RunOutcome.

Import Minidom ParserCorrect.




End RunOutcome.

(** * Reading the pretty-printed document *)

Module PrettyPrinted.

Import Minidom Parser Escaping ParserFacts.

(** The line end of [toprettyxml]. *)
Definition newl : string := String LF "".

(** An indentation: spaces only. *)
Definition blank (s : string) : bool :=
  all_chars (fun c => Ascii.eqb c " ") s.

(** The documents whose pretty text is read back node for node: the
    names are names, the attribute values are printable, and an
    element holds either one legal text or elements only. *)
Fixpoint tidy (node : Node) : bool :=
  match node with
  | Text _ => false
  | Element tagName attributes childNodes =>
      xml_name tagName
      && forallb (fun kv => xml_name (fst kv) && printable (snd kv)) attributes
      && match childNodes with
         | [Text data] => Expat.xml_text data
         | _ => forallb tidy childNodes
         end
  end.

(** What a parser builds from the pretty text of a document: the same
    elements, the line ends of a text normalized, and the white space
    of the layout as text nodes around the child elements. *)
Fixpoint pretty (indent : string) (node : Node) : Node :=
  match node with
  | Text data => Text data
  | Element tagName attributes childNodes =>
      Element tagName attributes
        match childNodes with
        | [] => []
        | [Text data] => text_nodes (universal_newlines data)
        | _ =>
            flat_map
              (fun child =>
                 [Text (String LF (indent ++ "  "));
                  pretty (indent ++ "  ") child])
              childNodes
            ++ [Text (String LF indent)]
        end
  end.

(** What [writexml] writes for an element between its indentation and
    opening bracket and its final line end. *)
Definition element_text (indent : string) (node : Node) : string :=
  match node with
  | Text _ => ""
  | Element tagName attributes childNodes =>
      tagName ++ String.concat "" (map write_attribute attributes)
      ++ match childNodes with
         | [] => "/>"
         | [Text data] => ">" ++ _write_data data ++ "</" ++ tagName ++ ">"
         | _ =>
             ">" ++ newl
             ++ String.concat ""
                  (map (writexml (indent ++ "  ") "  " newl) childNodes)
             ++ indent ++ "</" ++ tagName ++ ">"
         end
  end.

(** The fuel that reading the pretty text of a node takes. *)
Fixpoint dom_size (node : Node) : nat :=
  match node with
  | Text _ => 0
  | Element _ _ childNodes =>
      3 + list_sum (map (fun child => 2 + dom_size child) childNodes)
  end.

Definition chain_size (childNodes : list Node) : nat :=
  list_sum (map (fun child => 2 + dom_size child) childNodes).

(** The child elements as they follow each other in the text, each
    after a line end and the indentation, up to [tail]. *)
Definition chain (indent : string) (childNodes : list Node) (tail : string)
  : string :=
  fold_right
    (fun child acc =>
       String LF (indent ++ String "<" (element_text indent child ++ acc)))
    tail childNodes.

Lemma Node_ind' (P : Node -> Prop) :
  (forall data, P (Text data)) ->
  (forall tagName attributes childNodes,
      Forall P childNodes -> P (Element tagName attributes childNodes)) ->
  forall node, P node.
Proof.
  intros Htext Helement. fix IH 1. intros [data | tagName attributes kids].
  - apply Htext.
  - apply Helement. induction kids as [|kid kids IHk]; constructor;
      [apply IH | exact IHk].
Qed.

Lemma writexml_element (indent tagName : string)
  (attributes : list (string * string)) (childNodes : list Node) :
  writexml indent "  " newl (Element tagName attributes childNodes)
  = indent
    ++ String "<"
         (element_text indent (Element tagName attributes childNodes) ++ newl).
Proof.
  cbn [writexml element_text]. f_equal. cbn [append]. f_equal.
  rewrite !append_assoc. do 2 f_equal.
  destruct childNodes as [|[data | t a k] [|kid kids]];
    cbn [append]; rewrite ?append_assoc; cbn [append];
    rewrite ?append_assoc; reflexivity.
Qed.

(** Several children, or one that is an element. *)
Definition many (childNodes : list Node) : Prop :=
  match childNodes with
  | [] | [Text _] => False
  | _ => True
  end.

Lemma tidy_many (childNodes : list Node) :
  childNodes <> [] -> forallb tidy childNodes = true -> many childNodes.
Proof.
  destruct childNodes as [|[data | t a k] [|kid kids]]; intros Hne H;
    try exact I; [congruence | discriminate H].
Qed.

Lemma element_text_many (indent tagName : string)
  (attributes : list (string * string)) (childNodes : list Node)
  (rest : string) :
  many childNodes ->
  element_text indent (Element tagName attributes childNodes) ++ rest
  = tagName ++ String.concat "" (map write_attribute attributes)
    ++ String ">"
         (newl
          ++ String.concat ""
               (map (writexml (indent ++ "  ") "  " newl) childNodes)
          ++ indent ++ "</" ++ tagName ++ ">" ++ rest).
Proof.
  intros H. cbn [element_text]. rewrite !append_assoc. do 2 f_equal.
  destruct childNodes as [|[data | t a k] [|kid kids]]; try contradiction;
    cbn [append]; rewrite ?append_assoc; cbn [append];
    rewrite ?append_assoc; cbn [append]; rewrite ?append_assoc; reflexivity.
Qed.

Lemma pretty_many (indent tagName : string)
  (attributes : list (string * string)) (childNodes : list Node) :
  many childNodes ->
  pretty indent (Element tagName attributes childNodes)
  = Element tagName attributes
      (flat_map
         (fun child =>
            [Text (String LF (indent ++ "  ")); pretty (indent ++ "  ") child])
         childNodes
       ++ [Text (String LF indent)]).
Proof.
  destruct childNodes as [|[data | t a k] [|kid kids]]; intros H;
    try contradiction; reflexivity.
Qed.

Lemma chain_spec (indent : string) (childNodes : list Node) (tail : string) :
  forallb tidy childNodes = true ->
  newl ++ String.concat "" (map (writexml indent "  " newl) childNodes) ++ tail
  = chain indent childNodes (newl ++ tail).
Proof.
  induction childNodes as [|[data | t a k] kids IH]; intros H.
  - reflexivity.
  - discriminate H.
  - cbn [forallb] in H. apply andb_true_iff in H. destruct H as [_ H].
    cbn [map chain fold_right]. fold (chain indent kids (newl ++ tail)).
    rewrite <- (IH H), concat_cons, writexml_element.
    cbn [newl append]. f_equal. rewrite !append_assoc. f_equal.
    cbn [append]. f_equal. rewrite !append_assoc. reflexivity.
Qed.

(** ** What the scanner reads from what [writexml] wrote *)

Lemma blank_chardata (s : string) :
  blank s = true ->
  forall k, Expat.scan Expat.Content (Expat.Plain k) s = Some s.
Proof.
  unfold blank, all_chars. induction s as [|c s IH]; [reflexivity|].
  cbn [list_ascii_of_string forallb]. intros H k.
  apply andb_true_iff in H. destruct H as [Hc Hs].
  apply Ascii.eqb_eq in Hc. subst c.
  cbn [Expat.scan]. unfold Expat.plain.
  change (Ascii.eqb " " CR) with false. cbn. now rewrite (IH Hs).
Qed.

Lemma layout_chardata (indent : string) :
  blank indent = true ->
  Expat.chardata (String LF indent) = Some (String LF indent).
Proof.
  intros H. unfold Expat.chardata. cbn [Expat.scan]. unfold Expat.plain.
  change (Ascii.eqb LF CR) with false. cbn.
  now rewrite (blank_chardata indent H).
Qed.

Lemma layout_no_lt (indent : string) :
  blank indent = true ->
  all_chars (fun c => negb (Ascii.eqb c "<")) (String LF indent) = true.
Proof.
  unfold blank, all_chars. cbn [list_ascii_of_string forallb].
  change (negb (Ascii.eqb LF "<")) with true. cbn [andb].
  induction indent as [|c s IH]; [reflexivity|].
  cbn [list_ascii_of_string forallb]. intros H.
  apply andb_true_iff in H. destruct H as [Hc Hs].
  apply Ascii.eqb_eq in Hc. subst c. now rewrite (IH Hs).
Qed.

Lemma blank_app (a b : string) :
  blank a = true -> blank b = true -> blank (a ++ b) = true.
Proof. unfold blank. intros Ha Hb. now rewrite all_chars_app, Ha, Hb. Qed.

Lemma write_data_no_quote (v : string) :
  all_chars (fun c => negb (Ascii.eqb c QUOT)) (_write_data v) = true.
Proof.
  apply charwise_all_chars; [apply write_data_charwise | reflexivity |].
  intros [[|] [|] [|] [|] [|] [|] [|] [|]]; reflexivity.
Qed.

Lemma write_data_no_lt (d : string) :
  all_chars (fun c => negb (Ascii.eqb c "<")) (_write_data d) = true.
Proof.
  apply charwise_all_chars; [apply write_data_charwise | reflexivity |].
  intros [[|] [|] [|] [|] [|] [|] [|] [|]]; reflexivity.
Qed.

Lemma write_data_head (c : ascii) (d : string) :
  exists x tail,
    _write_data (String c d) = String x tail /\ Ascii.eqb x "<" = false.
Proof.
  rewrite (charwise_cons _ c d write_data_charwise).
  destruct c as [[|] [|] [|] [|] [|] [|] [|] [|]];
    eexists _, _; (split; [reflexivity | reflexivity]).
Qed.

(** A printable character of an attribute value comes back as it is. *)
Lemma printable_char_attvalue (c : ascii) :
  printable_char c = true ->
  forall r k,
    Expat.scan Expat.AttValue (Expat.Plain k) (_write_data (String c "") ++ r)
    = Expat.emit c (Expat.scan Expat.AttValue (Expat.Plain 0) r).
Proof.
  destruct c as [[|] [|] [|] [|] [|] [|] [|] [|]]; intros H r k;
    try discriminate H;
    cbn; destruct (Expat.scan Expat.AttValue (Expat.Plain 0) r); reflexivity.
Qed.

Lemma printable_attvalue (v : string) :
  printable v = true -> Expat.attvalue (_write_data v) = Some v.
Proof.
  unfold Expat.attvalue. generalize 0 as k.
  induction v as [|c v IH]; intros k H; [reflexivity|].
  rewrite printable_cons in H. apply andb_true_iff in H.
  destruct H as [Hc Hv].
  rewrite (charwise_cons _ c v write_data_charwise),
    (printable_char_attvalue c Hc), (IH 0 Hv).
  reflexivity.
Qed.

(** ** The start tag *)

Definition plain_attributes (attributes : list (string * string)) : bool :=
  forallb (fun kv => xml_name (fst kv) && printable (snd kv)) attributes.

(** What follows the attributes in a start tag of [writexml]. *)
Definition tag_close (s : string) : Prop :=
  (exists r, s = "/>" ++ r) \/ (exists r, s = ">" ++ r).

Lemma written_attributes_ok (attributes : list (string * string)) :
  plain_attributes attributes = true ->
  forall fuel rest,
    List.length attributes < fuel -> tag_close rest ->
    parse_attributes fuel
      (String.concat "" (map write_attribute attributes) ++ rest)
    = Some (attributes, rest).
Proof.
  induction attributes as [|[k v] attrs IH]; intros Hn fuel rest Hf Hrest.
  - destruct fuel as [|fuel]; [inversion Hf|].
    destruct Hrest as [[r ->] | [r ->]]; reflexivity.
  - destruct fuel as [|fuel]; [inversion Hf|].
    cbn [plain_attributes forallb fst snd] in Hn.
    apply andb_true_iff in Hn. destruct Hn as [Hkv Hn].
    apply andb_true_iff in Hkv. destruct Hkv as [Hk Hv].
    cbn [map]. rewrite concat_cons.
    unfold write_attribute at 1. cbn [fst snd]. unfold ET.quoted.
    rewrite !append_assoc.
    change (String QUOT (_write_data v ++ String QUOT "")
            ++ String.concat "" (map write_attribute attrs) ++ rest)
      with (String QUOT ((_write_data v ++ String QUOT "")
            ++ String.concat "" (map write_attribute attrs) ++ rest)).
    rewrite append_assoc.
    change (String QUOT "" ++
            String.concat "" (map write_attribute attrs) ++ rest)
      with (String QUOT
              (String.concat "" (map write_attribute attrs) ++ rest)).
    rewrite parse_attribute_step by (auto using write_data_no_quote).
    rewrite (printable_attvalue v Hv).
    rewrite (IH Hn) by (auto; cbn [List.length] in Hf; lia).
    reflexivity.
Qed.

Lemma written_attributes_length (attributes : list (string * string))
  (rest : string) :
  List.length attributes
  <= String.length
       (String.concat "" (map write_attribute attributes) ++ rest).
Proof.
  induction attributes as [|kv attrs IH]; [apply Nat.le_0_l|].
  cbn [map List.length].
  rewrite concat_cons, append_assoc, ParserCorrect.length_append.
  unfold write_attribute at 1. cbn [append String.length]. lia.
Qed.

Lemma written_attributes_stop (attributes : list (string * string))
  (rest : string) :
  tag_close rest ->
  stops name_char
    (String.concat "" (map write_attribute attributes) ++ rest).
Proof.
  intros Hrest. destruct attributes as [|kv attrs].
  - destruct Hrest as [[r ->] | [r ->]]; reflexivity.
  - cbn [map]. rewrite concat_cons. reflexivity.
Qed.

Lemma written_start_tag (fuel : nat) (tagName : string)
  (attributes : list (string * string)) (rest : string) :
  xml_name tagName = true -> plain_attributes attributes = true ->
  tag_close rest ->
  parse_element (S fuel)
    (tagName ++ String.concat "" (map write_attribute attributes) ++ rest)
  = match rest with
    | String "/" (String ">" rest') =>
        Some (Element tagName attributes [], rest')
    | String ">" s3 =>
        match parse_content fuel s3 with
        | Some (nodes, String "<" (String "/" s4)) =>
            let (closing, s5) := take_while name_char s4 in
            if closing =? tagName then
              match skip_spaces s5 with
              | String ">" rest' => Some (Element tagName attributes nodes, rest')
              | _ => None
              end
            else None
        | _ => None
        end
    | _ => None
    end.
Proof.
  intros Ht Ha Hrest. cbn [parse_element].
  rewrite take_while_app;
    [| now apply xml_name_chars | now apply written_attributes_stop].
  rewrite Ht.
  rewrite written_attributes_ok;
    [| assumption | pose proof (written_attributes_length attributes rest); lia
     | assumption].
  destruct Hrest as [[r ->] | [r ->]]; reflexivity.
Qed.

(** ** The text of an element *)

Lemma written_text_ok (data closing : string) (fuel : nat) :
  Expat.xml_text data = true -> 2 <= fuel ->
  parse_content fuel (_write_data data ++ "</" ++ closing)
  = Some (text_nodes (universal_newlines data), "</" ++ closing).
Proof.
  intros Hd Hf. destruct fuel as [|[|fuel]]; try lia.
  destruct data as [|c data]; [reflexivity|].
  destruct (write_data_head c data) as [x [tail [E Hx]]].
  pose proof (write_data_no_lt (String c data)) as Hno.
  pose proof (chardata_write_data (String c data)) as Hread.
  rewrite Hd in Hread. rewrite E in *.
  cbn [append parse_content]. rewrite Hx.
  change (String x (tail ++ String "<" (String "/" closing)))
    with (String x tail ++ String "<" (String "/" closing)).
  unfold take_until. rewrite take_while_app; [| exact Hno | reflexivity].
  rewrite Hread. change (Ascii.eqb "<" "<") with true. cbv iota.
  change (Ascii.eqb "/" "/") with true. cbv iota.
  now rewrite app_nil_r.
Qed.

(** ** The elements *)

(** What is shown of one node: its text is read back as its pretty
    form, whatever the indentation and whatever follows. *)
Definition reads_pretty (node : Node) : Prop :=
  tidy node = true ->
  forall indent fuel rest,
    blank indent = true -> dom_size node <= fuel ->
    parse_element fuel (element_text indent node ++ rest)
    = Some (pretty indent node, rest).

Lemma element_text_head (indent : string) (node : Node) (rest : string) :
  tidy node = true ->
  exists c tail,
    element_text indent node ++ rest = String c tail
    /\ Ascii.eqb c "/" = false.
Proof.
  destruct node as [data | tagName attributes kids]; [discriminate|].
  cbn [tidy]. rewrite !andb_true_iff. intros [[Ht _] _].
  destruct (xml_name_start tagName Ht) as [c [nm [-> Hc]]].
  cbn [element_text append]. eexists c, _. split; [reflexivity|].
  now apply ParserCorrect.name_start_not_slash.
Qed.

Lemma layout_text (indent rest : string) (fuel : nat) :
  blank indent = true ->
  parse_content (S fuel) (String LF (indent ++ String "<" rest))
  = match parse_content fuel (String "<" rest) with
    | Some (nodes, rest') => Some (Text (String LF indent) :: nodes, rest')
    | None => None
    end.
Proof.
  intros Hb. cbn [parse_content]. change (Ascii.eqb LF "<") with false.
  cbv iota.
  change (String LF (indent ++ String "<" rest))
    with (String LF indent ++ String "<" rest).
  unfold take_until.
  rewrite take_while_app; [| now apply layout_no_lt | reflexivity].
  rewrite (layout_chardata indent Hb). reflexivity.
Qed.

Lemma written_children_ok (childNodes : list Node) :
  Forall reads_pretty childNodes ->
  forallb tidy childNodes = true ->
  forall inner indent fuel more,
    blank inner = true -> blank indent = true ->
    chain_size childNodes + 2 <= fuel ->
    parse_content fuel
      (chain inner childNodes (String LF (indent ++ "</" ++ more)))
    = Some ((flat_map
               (fun child => [Text (String LF inner); pretty inner child])
               childNodes
             ++ [Text (String LF indent)])%list,
            "</" ++ more).
Proof.
  induction 1 as [|kid kids Hkid _ IH];
    intros Htidy inner indent fuel more Hinner Hindent Hf.
  - destruct fuel as [|[|fuel]]; try (cbn in Hf; lia).
    cbn [chain fold_right flat_map app].
    change (indent ++ "</" ++ more) with (indent ++ String "<" (String "/" more)).
    rewrite (layout_text indent _ _ Hindent). reflexivity.
  - cbn [forallb] in Htidy. apply andb_true_iff in Htidy.
    destruct Htidy as [Hk Hks].
    unfold chain_size in Hf. cbn [map] in Hf.
    change (list_sum (2 + dom_size kid
                      :: map (fun k => 2 + dom_size k) kids))
      with (2 + dom_size kid + chain_size kids) in Hf.
    destruct fuel as [|[|fuel]]; try lia.
    cbn [chain fold_right flat_map app].
    fold (chain inner kids (String LF (indent ++ "</" ++ more))).
    rewrite (layout_text inner _ _ Hinner).
    destruct (element_text_head inner kid
                (chain inner kids (String LF (indent ++ "</" ++ more))) Hk)
      as [c [tail [E Hc]]].
    pose proof (Hkid Hk inner fuel
                  (chain inner kids (String LF (indent ++ "</" ++ more)))
                  Hinner) as Hread.
    rewrite E in *. cbn [parse_content].
    change (Ascii.eqb "<" "<") with true. cbv iota. rewrite Hc.
    rewrite Hread by lia.
    rewrite (IH Hks inner indent fuel more Hinner Hindent) by lia.
    reflexivity.
Qed.

Lemma blank_inner (indent : string) :
  blank indent = true -> blank (indent ++ "  ") = true.
Proof. intros H. now apply blank_app. Qed.

Theorem written_reads_pretty (node : Node) : reads_pretty node.
Proof.
  induction node as [data | tagName attributes kids IH] using Node_ind';
    [discriminate|].
  intros Htidy indent fuel rest Hindent Hf.
  cbn [tidy] in Htidy. rewrite !andb_true_iff in Htidy.
  destruct Htidy as [[Ht Ha] Hkids].
  assert (Hclose : take_while name_char (tagName ++ ">" ++ rest)
                   = (tagName, ">" ++ rest))
    by (apply take_while_app; [now apply xml_name_chars | reflexivity]).
  cbn [append] in Hclose.
  destruct fuel as [|fuel]; [cbn [dom_size] in Hf; lia|].
  assert (Hmany : many kids ->
    parse_element (S fuel)
      (element_text indent (Element tagName attributes kids) ++ rest)
    = Some (pretty indent (Element tagName attributes kids), rest)).
  { intros Hm.
    assert (Hall : forallb tidy kids = true)
      by (destruct kids as [|[data | t a k] [|kid kids]];
          try contradiction; exact Hkids).
    rewrite (element_text_many _ _ _ _ _ Hm), (pretty_many _ _ _ _ Hm).
    rewrite written_start_tag;
      [| assumption | assumption | right; eexists; reflexivity].
    rewrite (chain_spec _ _ _ Hall).
    change (newl ++ indent ++ "</" ++ tagName ++ ">" ++ rest)
      with (String LF (indent ++ "</" ++ (tagName ++ ">" ++ rest))).
    rewrite (written_children_ok kids IH Hall (indent ++ "  ") indent fuel
               (tagName ++ ">" ++ rest) (blank_inner indent Hindent) Hindent)
      by (cbn [dom_size] in Hf; unfold chain_size; lia).
    cbn [append]. rewrite Hclose, String.eqb_refl. reflexivity. }
  destruct kids as [|[data | t a k] [|kid kids]];
    try (apply Hmany; exact I).
  - cbn [element_text pretty]. rewrite !append_assoc.
    rewrite written_start_tag;
      [| assumption | assumption | left; eexists; reflexivity].
    reflexivity.
  - cbn [element_text pretty]. rewrite !append_assoc.
    rewrite written_start_tag;
      [| assumption | assumption | right; eexists; reflexivity].
    assert (Hfuel : 2 <= fuel) by (cbn in Hf; lia).
    pose proof (written_text_ok data (tagName ++ String ">" rest) fuel
                  Hkids Hfuel) as Htext.
    cbn [append] in *. rewrite Htext, Hclose, String.eqb_refl. reflexivity.
Qed.

(** ** The whole text *)

Lemma writexml_length (indent : string) (node : Node) :
  tidy node = true ->
  String.length (writexml indent "  " newl node)
  = String.length indent + 2 + String.length (element_text indent node).
Proof.
  destruct node as [data | tagName attributes kids]; [discriminate|].
  intros _. rewrite writexml_element.
  rewrite ParserCorrect.length_append. cbn [String.length].
  rewrite ParserCorrect.length_append. cbn [newl String.length]. lia.
Qed.

Lemma chain_size_le_length (indent : string) (childNodes : list Node) :
  Forall (fun node =>
            tidy node = true ->
            forall indent,
              dom_size node <= String.length (element_text indent node))
    childNodes ->
  forallb tidy childNodes = true ->
  chain_size childNodes
  <= String.length
       (String.concat "" (map (writexml indent "  " newl) childNodes)).
Proof.
  induction 1 as [|kid kids Hkid _ IH]; intros Htidy; [apply Nat.le_0_l|].
  cbn [forallb] in Htidy. apply andb_true_iff in Htidy.
  destruct Htidy as [Hk Hks].
  unfold chain_size. cbn [map].
  change (list_sum (2 + dom_size kid :: map (fun k => 2 + dom_size k) kids))
    with (2 + dom_size kid + chain_size kids).
  rewrite concat_cons, ParserCorrect.length_append, (writexml_length _ _ Hk).
  specialize (Hkid Hk indent). specialize (IH Hks). lia.
Qed.

Lemma xml_name_length (nm : string) :
  xml_name nm = true -> 1 <= String.length nm.
Proof. destruct nm; [discriminate|]. intros _. cbn. lia. Qed.

(** The pretty text of a node is long enough to be its own fuel. *)
Lemma dom_size_le_length (node : Node) :
  tidy node = true ->
  forall indent, dom_size node <= String.length (element_text indent node).
Proof.
  induction node as [data | tagName attributes kids IH] using Node_ind';
    [discriminate|].
  intros Htidy indent.
  cbn [tidy] in Htidy. rewrite !andb_true_iff in Htidy.
  destruct Htidy as [[Ht _] Hkids].
  pose proof (xml_name_length tagName Ht) as Hlen.
  assert (Hmany : many kids ->
    dom_size (Element tagName attributes kids)
    <= String.length (element_text indent (Element tagName attributes kids))).
  { intros Hm.
    assert (Hall : forallb tidy kids = true)
      by (destruct kids as [|[data | t a k] [|kid kids]];
          try contradiction; exact Hkids).
    pose proof (element_text_many indent tagName attributes kids "" Hm) as E.
    rewrite append_nil_r in E. rewrite E.
    pose proof (chain_size_le_length (indent ++ "  ") kids IH Hall) as Hsum.
    cbn [dom_size]. fold (chain_size kids).
    repeat (rewrite ParserCorrect.length_append || cbn [String.length newl]).
    lia. }
  destruct kids as [|[data | t a k] [|kid kids]];
    try (apply Hmany; exact I);
    cbn [dom_size element_text map list_sum fold_right];
    repeat (rewrite ParserCorrect.length_append || cbn [String.length]);
    lia.
Qed.

Lemma parseString_pretty_declared (s : string) :
  parseString
    ("<?xml version=" ++ ET.quoted "1.0" ++ " encoding=" ++ ET.quoted "utf-8"
     ++ "?>" ++ String LF ("" ++ String "<" s))
  = match parse_element (String.length s) s with
    | Some (root, rest) =>
        match skip_spaces rest with
        | EmptyString => Some root
        | _ => None
        end
    | None => None
    end.
Proof. reflexivity. Qed.

(** The parser reads from the pretty text of a document its pretty
    form. *)
Theorem parseString_toprettyxml (root : Node) :
  tidy root = true ->
  parseString (toprettyxml "  " root) = Some (pretty "" root).
Proof.
  intros Htidy. unfold toprettyxml.
  destruct root as [data | tagName attributes kids]; [discriminate|].
  change (String LF "") with newl. rewrite writexml_element.
  rewrite parseString_pretty_declared.
  pose proof (dom_size_le_length _ Htidy "") as Hsize.
  rewrite (written_reads_pretty _ Htidy "" _ newl eq_refl)
    by (rewrite ParserCorrect.length_append; lia).
  reflexivity.
Qed.

End PrettyPrinted.

(** * The contents read from the written document *)

Section WrittenDocument.

Import Minidom Parser ParserFacts PrettyPrinted.

(** The contents the document holds, in the order of the files: those
    of the files that were read and lie below the root. *)
Definition packed_contents (fs : FileSystem) (root_dir : string)
  (files : list Path) : list string :=
  flat_map
    (fun p =>
       match read_text fs p, relative_to p (of_str root_dir) with
       | inr content, Some _ => [content]
       | _, _ => []
       end)
    files.

Lemma printable_newlines (s : string) :
  printable s = true -> universal_newlines s = s.
Proof.
  intros H. apply universal_newlines_id.
  induction s as [|c s IH]; [reflexivity|].
  rewrite printable_cons in H. apply andb_true_iff in H.
  destruct H as [Hc Hs]. cbn [no_cr]. rewrite (IH Hs), andb_true_r.
  destruct c as [[|] [|] [|] [|] [|] [|] [|] [|]];
    try reflexivity; discriminate Hc.
Qed.

(** The layout between the child elements holds no content. *)
Lemma contents_layout (inner between last : string) (childNodes : list Node) :
  flat_map contents
    (flat_map (fun child => [Text between; pretty inner child]) childNodes
     ++ [Text last])
  = flat_map (fun child => contents (pretty inner child)) childNodes.
Proof.
  rewrite flat_map_app. cbn [flat_map contents app]. rewrite app_nil_r.
  induction childNodes as [|kid kids IH]; [reflexivity|].
  cbn [flat_map app contents]. now rewrite IH.
Qed.

(** An element that holds a text only. *)
Lemma leaf_tidy (tagName data : string) :
  xml_name tagName = true -> Expat.xml_text data = true ->
  tidy (Element tagName [] (text_nodes data)) = true.
Proof.
  intros Ht Hd. cbn [tidy forallb]. rewrite Ht.
  destruct data; [reflexivity | exact Hd].
Qed.

Lemma leaf_contents (tagName data indent : string) :
  universal_newlines data = data ->
  contents (pretty indent (Element tagName [] (text_nodes data)))
  = if tagName =? "content" then [data] else [].
Proof.
  intros Hd. destruct data as [|c data].
  - cbn [text_nodes pretty contents flat_map text_data].
    destruct (tagName =? "content"); reflexivity.
  - cbn [text_nodes pretty]. rewrite Hd.
    cbn [text_nodes contents flat_map text_data app].
    rewrite append_nil_r. destruct (tagName =? "content"); reflexivity.
Qed.

(** An element that holds elements only, each of them tidy. *)
Lemma branch_contents (tagName indent : string)
  (attributes : list (string * string)) (childNodes : list Node) :
  forallb tidy childNodes = true -> (tagName =? "content") = false ->
  contents (pretty indent (Element tagName attributes childNodes))
  = flat_map (fun child => contents (pretty (indent ++ "  ") child))
      childNodes.
Proof.
  intros Hall Htag. destruct childNodes as [|kid kids].
  - cbn [pretty contents flat_map]. now rewrite Htag.
  - rewrite pretty_many by (apply tidy_many; [discriminate | exact Hall]).
    cbn [contents]. rewrite Htag. apply contents_layout.
Qed.

Lemma branch_tidy (tagName : string) (attributes : list (string * string))
  (childNodes : list Node) :
  xml_name tagName = true -> plain_attributes attributes = true ->
  forallb tidy childNodes = true ->
  tidy (Element tagName attributes childNodes) = true.
Proof.
  intros Ht Ha Hall. cbn [tidy]. fold (plain_attributes attributes).
  rewrite Ht, Ha.
  destruct childNodes as [|[data | t a k] [|kid kids]];
    try exact Hall; discriminate Hall.
Qed.

Variable fs : FileSystem.
Variable root_dir : string.

(** The entry of one file. *)
Lemma entry_read_back (p : Path) (indent : string) :
  printable_path p = true -> content_legal fs root_dir p = true ->
  forallb tidy (map document_of (entries_for fs root_dir p)) = true
  /\ flat_map (fun child => contents (pretty indent child))
       (map document_of (entries_for fs root_dir p))
     = packed_contents fs root_dir [p].
Proof.
  intros Hp Hlegal. unfold entries_for, content_legal, packed_contents in *.
  cbn [flat_map]. rewrite app_nil_r.
  destruct (read_text fs p) as [err | content] eqn:Hread; [now split|].
  destruct (relative_to p (of_str root_dir)) as [rel|] eqn:Hrel;
    [|now split].
  pose proof (printable_relative _ _ _ Hrel Hp) as H1.
  pose proof (printable_suffix p Hp) as H2.
  pose proof (printable_of_nat (PyStr.len content)) as H3.
  pose proof (read_text_normalized fs p content Hread) as Hn.
  change (file_entry rel p content)
    with (Elem "file"
            [("path", to_str rel); ("extension", suffix p);
             ("size", PyStr.of_nat (PyStr.len content))]
            None [Elem "content" [] (Some content) []]).
  cbn [map document_of app]. rewrite Hn, app_nil_r.
  assert (Hleaf : tidy (Element "content" [] (text_nodes content)) = true)
    by (now apply leaf_tidy).
  split.
  - cbn [forallb]. rewrite andb_true_r. apply branch_tidy.
    + reflexivity.
    + cbn [plain_attributes forallb fst snd]. now rewrite H1, H2, H3.
    + cbn [forallb]. now rewrite Hleaf.
  - cbn [flat_map]. rewrite app_nil_r.
    rewrite branch_contents;
      [| cbn [forallb]; now rewrite Hleaf | reflexivity].
    cbn [flat_map]. rewrite app_nil_r. now rewrite leaf_contents.
Qed.

Lemma entries_read_back (files : list Path) (indent : string) :
  forallb printable_path files = true ->
  forallb (content_legal fs root_dir) files = true ->
  forallb tidy (map document_of (flat_map (entries_for fs root_dir) files))
  = true
  /\ flat_map (fun child => contents (pretty indent child))
       (map document_of (flat_map (entries_for fs root_dir) files))
     = packed_contents fs root_dir files.
Proof.
  induction files as [|p files IH]; [now split|].
  cbn [forallb]. rewrite !andb_true_iff. intros [Hp Hfiles] [Hl Hlegal].
  destruct (entry_read_back p indent Hp Hl) as [H1 H2].
  destruct (IH Hfiles Hlegal) as [H3 H4].
  cbn [flat_map]. rewrite map_app, forallb_app, flat_map_app, H1, H2, H3, H4.
  split; [reflexivity|].
  unfold packed_contents. cbn [flat_map]. now rewrite app_nil_r.
Qed.

(** X20. When the names are printable and every content of the
    document is made of characters that XML allows, a parser reads
    from the text that [prettify_xml] returns the contents of the
    files, in order, as they were read. *)
Theorem rendered_contents_read_back (now : string) (files : list Path) :
  printable root_dir = true ->
  printable now = true ->
  forallb printable_path files = true ->
  forallb (content_legal fs root_dir) files = true ->
  rendered_contents
    (prettify_xml (fst (create_xml_structure fs now files root_dir)))
  = Some (packed_contents fs root_dir files).
Proof.
  intros Hroot Hnow Hfiles Hlegal.
  destruct (document_plain fs root_dir now files Hroot Hnow Hfiles)
    as (Hwn & Hs & Hl).
  rewrite (prettify_xml_build _ Hwn), (build_spec _ Hwn).
  unfold tostring. rewrite Hs, Hl, Hlegal.
  cbn [rendered_contents]. clear Hwn Hs Hl.
  rewrite create_xml_structure_spec. cbn [fst document_of map app].
  rewrite (printable_newlines _ (printable_of_nat (List.length files))),
    (printable_newlines _ Hroot), !app_nil_r.
  destruct (entries_read_back files "    " Hfiles Hlegal) as [Htidy Hread].
  set (entries := map document_of (flat_map (entries_for fs root_dir) files))
    in *.
  set (total := Element "total_files" []
                  (text_nodes (PyStr.of_nat (List.length files)))).
  set (directory := Element "root_directory" [] (text_nodes root_dir)).
  assert (Htotal : tidy total = true).
  { apply leaf_tidy; [reflexivity|].
    apply printable_xml_text, printable_of_nat. }
  assert (Hdirectory : tidy directory = true).
  { apply leaf_tidy; [reflexivity | now apply printable_xml_text]. }
  assert (Hmetadata : tidy (Element "metadata" [] [total; directory]) = true).
  { apply branch_tidy; [reflexivity | reflexivity |].
    cbn [forallb]. now rewrite Htotal, Hdirectory. }
  assert (Hentries : tidy (Element "files" [] entries) = true)
    by (now apply branch_tidy).
  rewrite parseString_toprettyxml.
  2:{ apply branch_tidy; [reflexivity | |].
      - cbn [plain_attributes forallb fst snd].
        now rewrite (printable_basename _ Hroot), Hnow.
      - cbn [forallb]. now rewrite Hmetadata, Hentries. }
  cbn [option_map]. f_equal.
  rewrite branch_contents;
    [| cbn [forallb]; now rewrite Hmetadata, Hentries | reflexivity].
  cbn [flat_map]. rewrite app_nil_r.
  rewrite (branch_contents "metadata");
    [| cbn [forallb]; now rewrite Htotal, Hdirectory | reflexivity].
  rewrite (branch_contents "files"); [| exact Htidy | reflexivity].
  cbn [flat_map]. unfold total, directory.
  rewrite !leaf_contents
    by (apply printable_newlines;
        [apply printable_of_nat || exact Hroot]).
  cbn [app]. exact Hread.
Qed.

End WrittenDocument.

Lemma rendered_contents_read_back_witness :
  rendered_contents
    (prettify_xml
       (fst (create_xml_structure unreadable_tree "2024-05-01T10:00:00"
               [of_str "proj/a.ts"; of_str "proj/b.ts"; of_str "proj/c.ts"]
               "proj")))
  = Some ["a < b && b > c"].
Proof.
  apply (rendered_contents_read_back unreadable_tree "proj"
           "2024-05-01T10:00:00"
           [of_str "proj/a.ts"; of_str "proj/b.ts"; of_str "proj/c.ts"]);
    reflexivity.
Defined.
